(** * Dependency and usage analysis tools: a shallow embedding

    This development embeds the analysis core of the two tool modules
    [dependency_tools.py] and [analyze_python_ast.py]:

    - the specifier splitter [split_dependency] and the regular expression
      it matches with,
    - the manifest parsers, from [extract_pyproject_dependencies] to
      [parse_setup_py], and the aggregator that calls them,
    - the inline import scanner [extract_python_file_dependencies] with its
      probe [is_builtin_module],
    - the syntax tree visitor [ImportUsageVisitor], its driver
      [analyze_repo] and the lines of its report.

    Python strings are modelled as Rocq strings whose characters stand for
    the code points U+0000 to U+00FF.  Everything the tools obtain from the
    host (directory walks, file contents, the Python parser, the recursion
    limit of the interpreter, the module registry, the order in which the
    process lists a set) is collected in one record, [Host]; the YAML
    loader is given by [Loaders].  The TOML loader is the one the tools
    import, [tomli], and behaves as that library does. *)

From Stdlib Require Import ZArith NArith Ascii String DecimalString.
From stdpp Require Import base option list strings gmap.

Set Warnings "-register-all".

(** ** Python string primitives *)

Module PyStr.

Definition code (c : ascii) : N := N_of_ascii c.

Definition in_range (lo hi : N) (c : ascii) : bool :=
  ((lo <=? code c) && (code c <=? hi))%N.

(** [str.isspace] and the pattern class [\s] on U+0000..U+00FF. *)
Definition is_space (c : ascii) : bool :=
  in_range 9 13 c || in_range 28 32 c || in_range 133 133 c
  || in_range 160 160 c.

(** The pattern class [\d] on U+0000..U+00FF. *)
Definition is_digit (c : ascii) : bool := in_range 48 57 c.

(** The pattern class [\w] on U+0000..U+00FF: alphanumeric code points
    and the underscore. *)
Definition is_word (c : ascii) : bool :=
  in_range 48 57 c || in_range 65 90 c || in_range 95 95 c
  || in_range 97 122 c || in_range 170 170 c || in_range 178 179 c
  || in_range 181 181 c || in_range 185 186 c || in_range 188 190 c
  || in_range 192 214 c || in_range 216 246 c || in_range 248 255 c.

Definition is_char (x c : ascii) : bool := Ascii.eqb x c.

Global Arguments is_space : simpl never.
Global Arguments is_digit : simpl never.
Global Arguments is_word : simpl never.
Global Arguments is_char : simpl never.

Definition is_empty (s : string) : bool :=
  match s with EmptyString => true | String _ _ => false end.

(** Truthiness of a [str]. *)
Definition truthy (s : string) : bool := negb (is_empty s).

Fixpoint take_while (p : ascii -> bool) (s : string) : string :=
  match s with
  | EmptyString => EmptyString
  | String c s' => if p c then String c (take_while p s') else EmptyString
  end.

Fixpoint drop_while (p : ascii -> bool) (s : string) : string :=
  match s with
  | EmptyString => EmptyString
  | String c s' => if p c then drop_while p s' else s
  end.

Definition lstrip (s : string) : string := drop_while is_space s.

Fixpoint rstrip (s : string) : string :=
  match s with
  | EmptyString => EmptyString
  | String c s' =>
      let r := rstrip s' in
      if is_space c && is_empty r then EmptyString else String c r
  end.

(** [s.strip()] *)
Definition strip (s : string) : string := rstrip (lstrip s).

(** The first character of [s] exists and is of class [p]. *)
Definition starts_with (p : ascii -> bool) (s : string) : bool :=
  match s with
  | String c _ => p c
  | EmptyString => false
  end.

(** [s.startswith(p)], returning the remainder after the prefix. *)
Fixpoint strip_prefix (p s : string) : option string :=
  match p with
  | EmptyString => Some s
  | String a p' =>
      match s with
      | String b s' => if Ascii.eqb a b then strip_prefix p' s' else None
      | EmptyString => None
      end
  end.

Definition startswith (s p : string) : bool :=
  match strip_prefix p s with Some _ => true | None => false end.

(** [s.endswith(p)] *)
Fixpoint endswith (s p : string) : bool :=
  String.eqb s p
  || match s with
     | EmptyString => false
     | String _ s' => endswith s' p
     end.

(** [p in s] for two strings: [p] occurs in [s] as a substring. *)
Fixpoint contains (s p : string) : bool :=
  startswith s p
  || match s with
     | EmptyString => false
     | String _ s' => contains s' p
     end.

(** [s.split(sep)[0]] for a one-character separator. *)
Definition split_first (sep : ascii) (s : string) : string :=
  take_while (fun c => negb (Ascii.eqb c sep)) s.

(** The first [n] characters of [s]. *)
Fixpoint take (n : nat) (s : string) : string :=
  match n, s with
  | S n', String c s' => String c (take n' s')
  | _, _ => EmptyString
  end.

(** The characters of [s], each as a string of length one. *)
Fixpoint chars (s : string) : list string :=
  match s with
  | EmptyString => []
  | String c s' => String c EmptyString :: chars s'
  end.

End PyStr.

(** ** A backtracking matcher for the patterns of the [re] module

    [re.match] tries alternatives in priority order: a greedy quantifier
    first takes as much as it can and gives characters back only when the
    rest of the pattern fails.  The matcher is written in continuation
    passing style, the continuation standing for the rest of the pattern. *)

Module Re.

Inductive regex : Type :=
| Cls (p : ascii -> bool)          (* one character of a class *)
| Lit (s : string)                 (* a literal word *)
| Seq (r1 r2 : regex)              (* r1 r2 *)
| Alt (r1 r2 : regex)              (* r1|r2 *)
| Opt (r : regex)                  (* r?  greedy *)
| Star (p : ascii -> bool)         (* [class]*  greedy *)
| Plus (p : ascii -> bool)         (* [class]+  greedy *)
| Group (i : nat) (r : regex).     (* capturing group number i *)

(** The groups that took part in a match, by number. *)
Abbreviation groups := (gmap nat string).

Definition or_else {R} (a : option R) (b : option R) : option R :=
  match a with Some x => Some x | None => b end.

(** Greedy repetition of a class: longest run first, then shorter ones. *)
Fixpoint star {R} (p : ascii -> bool) (s : string)
    (k : string -> option R) : option R :=
  match s with
  | String c s' => if p c then or_else (star p s' k) (k s) else k s
  | EmptyString => k s
  end.

(** The text between the start [s] of a group and the rest [s'] left
    after it. *)
Definition consumed (s s' : string) : string :=
  PyStr.take (String.length s - String.length s') s.

Fixpoint run {R} (r : regex) (s : string) (g : groups)
    (k : string -> groups -> option R) : option R :=
  match r with
  | Cls p =>
      match s with
      | String c s' => if p c then k s' g else None
      | EmptyString => None
      end
  | Lit l =>
      match PyStr.strip_prefix l s with
      | Some s' => k s' g
      | None => None
      end
  | Seq r1 r2 => run r1 s g (fun s' g' => run r2 s' g' k)
  | Alt r1 r2 => or_else (run r1 s g k) (run r2 s g k)
  | Opt r1 => or_else (run r1 s g k) (k s g)
  | Star p => star p s (fun s' => k s' g)
  | Plus p =>
      match s with
      | String c s' => if p c then star p s' (fun s'' => k s'' g) else None
      | EmptyString => None
      end
  | Group i r1 => run r1 s g (fun s' g' => k s' (<[i := consumed s s']> g'))
  end.

(** The end of the pattern: whatever is left of the text, the match is
    found. *)
Definition accept (rest : string) (g : groups) : option groups := Some g.

(** [re.match(r, s)]: match at the start of [s]; the rest of [s] is
    free. *)
Definition rmatch (r : regex) (s : string) : option groups :=
  run r s ∅ accept.

(** The numbers of the groups of a pattern. *)
Fixpoint group_numbers (r : regex) : list nat :=
  match r with
  | Cls _ | Lit _ | Star _ | Plus _ => []
  | Seq r1 r2 | Alt r1 r2 => group_numbers r1 ++ group_numbers r2
  | Opt r1 => group_numbers r1
  | Group i r1 => i :: group_numbers r1
  end.

(** A pattern that can match the empty text. *)
Fixpoint nullable (r : regex) : bool :=
  match r with
  | Cls _ | Plus _ => false
  | Lit l => PyStr.is_empty l
  | Seq r1 r2 => nullable r1 && nullable r2
  | Alt r1 r2 => nullable r1 || nullable r2
  | Opt _ | Star _ => true
  | Group _ r1 => nullable r1
  end.

(** [m.group(i) or ""] *)
Definition group_or_empty (g : groups) (i : nat) : string :=
  default "" (g !! i).

End Re.

(** ** The specifier splitter *)

Definition is_name_char (c : ascii) : bool :=
  PyStr.is_word c || PyStr.is_char "-"%char c.

Definition is_comparator (c : ascii) : bool :=
  PyStr.is_char "<"%char c || PyStr.is_char ">"%char c || PyStr.is_char "="%char c
  || PyStr.is_char "~"%char c || PyStr.is_char "!"%char c.

Definition is_version_char (c : ascii) : bool :=
  PyStr.is_digit c || PyStr.is_word c || PyStr.is_char "."%char c
  || PyStr.is_char "*"%char c.

Definition not_char (x c : ascii) : bool := negb (PyStr.is_char x c).

(** [.] matches every character but the newline. *)
Definition is_dot (c : ascii) : bool := not_char "010"%char c.

Arguments is_name_char : simpl never.
Arguments is_comparator : simpl never.
Arguments is_version_char : simpl never.
Arguments not_char : simpl never.
Arguments is_dot : simpl never.

(** [([\w\-]+)] *)
Definition name_clause : Re.regex :=
  Re.Group 1 (Re.Plus is_name_char).

(** [(?:\[[^\]]+\])?] *)
Definition extras_clause : Re.regex :=
  Re.Opt (Re.Seq (Re.Cls (PyStr.is_char "["%char))
            (Re.Seq (Re.Plus (not_char "]"%char))
                    (Re.Cls (PyStr.is_char "]"%char)))).

(** [([<>=~!]\s[\d\w\.\*]+)?] *)
Definition comparator_clause : Re.regex :=
  Re.Opt (Re.Group 2
            (Re.Seq (Re.Cls is_comparator)
               (Re.Seq (Re.Cls PyStr.is_space)
                       (Re.Plus is_version_char)))).

(** [(;.+)?] *)
Definition condition_clause : Re.regex :=
  Re.Opt (Re.Group 3
            (Re.Seq (Re.Cls (PyStr.is_char ";"%char))
                    (Re.Plus is_dot))).

(** [([\w\-]+)(?:\[[^\]]+\])?([<>=~!]\s[\d\w\.\*]+)?(;.+)?] *)
Definition dependency_pattern : Re.regex :=
  Re.Seq name_clause
    (Re.Seq extras_clause
       (Re.Seq comparator_clause condition_clause)).

Definition split_dependency (dep : string) : string * string :=
  match Re.rmatch dependency_pattern (PyStr.strip dep) with
  | Some m =>
      let package := Re.group_or_empty m 1 in
      let version := PyStr.strip (Re.group_or_empty m 2) in
      let condition := PyStr.strip (Re.group_or_empty m 3) in
      let version :=
        if PyStr.truthy condition
        then PyStr.strip (version +:+ " " +:+ condition)
        else version in
      (package, if PyStr.truthy version then version else "Unknown")
  | None => (dep, "Unknown")
  end.

(** ** Exceptions and the statement monad

    Every exception the tools meet is an instance of [Exception]; only its
    message [str(e)] is ever observed.  A block of statements that mutates
    one accumulator list and may raise is a function from the accumulator
    to an outcome and the accumulator as the block left it: what was
    appended before an exception stays appended. *)

Inductive exn : Type := Exception (msg : string).

Definition exn_str (e : exn) : string := let 'Exception m := e in m.

Inductive result (A : Type) : Type :=
| Ok (a : A)
| Raise (e : exn).
Arguments Ok {A} a.
Arguments Raise {A} e.

Definition stmt (S A : Type) : Type := S -> result A * S.

Definition ret {S A} (a : A) : stmt S A := fun st => (Ok a, st).

Definition bind {S A B} (c : stmt S A) (k : A -> stmt S B) : stmt S B :=
  fun st =>
    match c st with
    | (Ok a, st') => k a st'
    | (Raise e, st') => (Raise e, st')
    end.

Declare Scope stmt_scope.
Delimit Scope stmt_scope with stmt.
Notation "x <- c ;; k" := (bind c (fun x => k))
  (at level 20, c at level 99, k at level 200, only parsing) : stmt_scope.
Notation "c ;; k" := (bind c (fun _ => k))
  (at level 100, k at level 200, only parsing, right associativity)
  : stmt_scope.

(** An expression that may raise, used inside a block. *)
Definition lift {S A} (r : result A) : stmt S A :=
  fun st => (r, st).

Definition pass {S} : stmt S unit := ret tt.

(** [acc.append(x)] *)
Definition append {X} (x : X) : stmt (list X) unit :=
  fun st => (Ok tt, st ++ [x]).

(** [acc.add(x)] on a set. *)
Definition add `{Countable X} (x : X) : stmt (gset X) unit :=
  fun st => (Ok tt, {[x]} ∪ st).

(** [acc.extend(l)] *)
Definition extend {X} (l : list X) : stmt (list X) unit :=
  fun st => (Ok tt, st ++ l).

(** Reading the accumulator. *)
Definition get {S} : stmt S S := fun st => (Ok st, st).

(** A function body run from the initial value of its accumulator: what it
    returns, or the exception that leaves it. *)
Definition run_function {S A} (init : S) (body : stmt S A) : result A :=
  fst (body init).

(** [for x in l: body] *)
Fixpoint for_each {S X} (l : list X) (body : X -> stmt S unit) : stmt S unit :=
  match l with
  | [] => pass
  | x :: l' => (body x ;; for_each l' body)%stmt
  end.

(** [try: body  except Exception as e: handler] *)
Definition try_except {S} (body : stmt S unit) (handler : exn -> stmt S unit)
    : stmt S unit :=
  fun st =>
    match body st with
    | (Ok tt, st') => (Ok tt, st')
    | (Raise e, st') => handler e st'
    end.

(** [print(...)]: console output is not part of the model. *)
Definition print {S} (line : string) : stmt S unit := pass.

(** A text file opened for reading: the lines its decoder yields, and the
    error at which decoding stops, if any. *)
Record text_file : Type := TextFile {
  f_lines : list string;
  f_error : option exn
}.

(** [f.read()] *)
Definition f_read (f : text_file) : result string :=
  match f_error f with
  | None => Ok (foldr String.append EmptyString (f_lines f))
  | Some e => Raise e
  end.

(** [for line in f: body] *)
Definition for_line {S} (f : text_file) (body : string -> stmt S unit)
    : stmt S unit :=
  (for_each (f_lines f) body ;;
   match f_error f with
   | None => pass
   | Some e => lift (Raise e)
   end)%stmt.

(** ** Syntax trees of the [ast] module *)

Record alias : Type := Alias {
  alias_name : string;
  alias_asname : option string
}.

Inductive constant : Type :=
| CStr (s : string)
| COther.

(** The node classes the tools look at, and [ast_Other] for every other
    class, with its child nodes in field order.  Nodes without child nodes
    of their own interest ([alias], expression contexts) are not nodes of
    the model. *)
Inductive node : Type :=
| ast_Import (names : list alias) (lineno : Z)
| ast_ImportFrom (module : option string) (names : list alias)
    (level : Z) (lineno : Z)
| ast_Attribute (value : node) (attr : string) (lineno : Z)
| ast_Name (id : string) (lineno : Z)
| ast_Call (func : node) (args : list node) (keywords : list node)
    (lineno : Z)
| ast_keyword (arg : option string) (value : node)
| ast_List (elts : list node) (lineno : Z)
| ast_Constant (value : constant) (lineno : Z)
| ast_Other (children : list node).

(** ** The values of a TOML or YAML document *)

Inductive toml : Type :=
| TStr (s : string)
| TInt (n : Z)
| TBool (b : bool)
| TScalar (repr : string)          (* floats, dates and times *)
| TList (l : list toml)
| TTable (items : list (string * toml)).   (* a dict, in document order *)

Record module_spec : Type := ModuleSpec { spec_name : string }.

(** [(source, package, version)] *)
Definition triple : Type := string * string * string.

(** ** The host: what the tools obtain from the runtime and the file
    system *)

Record Host : Type := {
  (** [os.walk(top)]: one [(root, dirs, files)] per directory *)
  os_walk : string -> list (string * list string * list string);
  (** [os.path.join] and [os.path.normpath] *)
  path_join : string -> string -> string;
  path_normpath : string -> string;
  (** [open(path, "r", ...)] *)
  open_text : string -> result text_file;
  (** [ast.parse(source, filename)] *)
  ast_parse : string -> string -> result node;
  (** the [RecursionError] with which [visitor.visit(tree)] ends in this
      interpreter, when the recursion of the visit over the tree goes
      beyond its recursion limit *)
  recursion_error : node -> option exn;
  (** [str(v)] of a TOML value that is not a string *)
  value_str : toml -> string;
  (** [sys.builtin_module_names] *)
  builtin_module_names : list string;
  (** [importlib.util.find_spec(name)] *)
  find_spec : string -> result (option module_spec);
  (** the place of a triple in the order in which this interpreter process
      lists the elements of a set: the order follows the hashes of the
      elements, which change from one process to the next *)
  listing_rank : triple -> nat
}.

(** The same host in another interpreter process: sets are listed in
    another order. *)
Definition with_listing (rank : triple -> nat) (H : Host) : Host :=
  {| os_walk := os_walk H;
     path_join := path_join H;
     path_normpath := path_normpath H;
     open_text := open_text H;
     ast_parse := ast_parse H;
     recursion_error := recursion_error H;
     value_str := value_str H;
     builtin_module_names := builtin_module_names H;
     find_spec := find_spec H;
     listing_rank := rank |}.

(** ** The TOML loader

    The tools import [tomli] under the name [toml].  [tomli.load] takes a
    binary file object: it calls [read] on its argument, which a path does
    not have, and (from version 2 on, as [tomllib] does) it raises
    [TypeError] when what it has read is text, as it is for a file opened
    in text mode. *)

(** [toml.load(path)] on a path, a [str]. *)
Definition toml_load_path (path : string) : result toml :=
  Raise (Exception "'str' object has no attribute 'read'").

(** [toml.load(file)] on a file opened in text mode. *)
Definition toml_load_text (file : text_file) : result toml :=
  match f_read file with
  | Ok _ => Raise (Exception "File must be opened in binary mode")
  | Raise e => Raise e
  end.

(** ** The syntax tree usage visitor *)

Record ImportUsageVisitor : Type := Visitor {
  imports : list (string * Z);
  usage : list (string * Z)
}.

(** [ImportUsageVisitor()] *)
Definition new_visitor : ImportUsageVisitor := Visitor [] [].

Definition imports_append (x : string * Z) (v : ImportUsageVisitor)
    : ImportUsageVisitor :=
  Visitor (imports v ++ [x]) (usage v).

Definition usage_append (x : string * Z) (v : ImportUsageVisitor)
    : ImportUsageVisitor :=
  Visitor (imports v) (usage v ++ [x]).

(** [f"{x}"] for an optional string. *)
Definition format_opt (x : option string) : string :=
  match x with Some s => s | None => "None" end.

(** What [visitor.visit(node)] makes of the visitor when it runs to its
    end: the method of the node's class when the visitor has one,
    [generic_visit] otherwise.  [generic_visit] visits the child nodes in
    field order.  The methods call one another as deep as the tree is
    nested; whether the interpreter lets them is [visitor_visit]'s. *)
Fixpoint visit (n : node) (v : ImportUsageVisitor) : ImportUsageVisitor :=
  let generic_visit := fold_left (fun v c => visit c v) in
  match n with
  | ast_Import names lineno =>
      fold_left (fun v a => imports_append (alias_name a, lineno) v) names v
  | ast_ImportFrom module names _ lineno =>
      fold_left
        (fun v a =>
           imports_append (format_opt module +:+ "." +:+ alias_name a, lineno) v)
        names v
  | ast_Attribute value attr lineno =>
      let v :=
        match value with
        | ast_Name id _ => usage_append (id +:+ "." +:+ attr, lineno) v
        | _ => v
        end in
      visit value v
  | ast_Call func args keywords _ =>
      generic_visit keywords (generic_visit args (visit func v))
  | ast_keyword _ value => visit value v
  | ast_List elts _ => generic_visit elts v
  | ast_Name _ _ => v
  | ast_Constant _ _ => v
  | ast_Other children => generic_visit children v
  end.

(** [visitor.visit(tree)] as a call: it ends with [RecursionError] when
    the tree is nested deeper than the interpreter's recursion limit
    allows, and leaves the visitor filled otherwise. *)
Definition visitor_visit (H : Host) (tree : node) (v : ImportUsageVisitor)
    : result ImportUsageVisitor :=
  match recursion_error H tree with
  | Some e => Raise e
  | None => Ok (visit tree v)
  end.

(** The nesting of a tree, in nodes. *)
Fixpoint depth (n : node) : nat :=
  let deepest := fun l => foldr (fun c acc => Nat.max (depth c) acc) 0 l in
  match n with
  | ast_Import _ _ => 1
  | ast_ImportFrom _ _ _ _ => 1
  | ast_Attribute value _ _ => S (depth value)
  | ast_Name _ _ => 1
  | ast_Call func args keywords _ =>
      S (Nat.max (depth func) (Nat.max (deepest args) (deepest keywords)))
  | ast_keyword _ value => S (depth value)
  | ast_List elts _ => S (deepest elts)
  | ast_Constant _ _ => 1
  | ast_Other children => S (deepest children)
  end.

(** ** The usage analysis driver *)

(** [(file_path, category, symbol, line)] *)
Definition usage_record : Type := string * string * string * Z.

Definition analyze_repo_block (H : Host) (repo_path : string)
    : stmt (list usage_record) unit :=
  (for_each (os_walk H repo_path) (fun '(root, _, files) =>
     for_each files (fun file =>
       if PyStr.endswith file ".py" then
         let file_path := path_normpath H (path_join H root file) in
         f <- lift (open_text H file_path) ;;
         try_except
           (source <- lift (f_read f) ;;
            tree <- lift (ast_parse H source file_path) ;;
            visitor <- lift (visitor_visit H tree new_visitor) ;;
            for_each (imports visitor) (fun '(module, line) =>
              append (file_path, "import", module, line)) ;;
            for_each (usage visitor) (fun '(symbol, line) =>
              append (file_path, "usage", symbol, line)))
           (fun e => append (file_path, "error", exn_str e, (-1)%Z))
       else pass)))%stmt.

Definition analyze_repo (H : Host) (repo_path : string)
    : result (list usage_record) :=
  match analyze_repo_block H repo_path [] with
  | (Ok _, results) => Ok results
  | (Raise e, _) => Raise e
  end.

(** ** Values of a TOML document under Python's operators *)

Definition TypeError : exn := Exception "TypeError".
Definition AttributeError : exn := Exception "AttributeError".
Definition KeyError (key : string) : exn := Exception key.

Fixpoint assoc {V} (key : string) (items : list (string * V)) : option V :=
  match items with
  | [] => None
  | (k, v) :: items' => if String.eqb k key then Some v else assoc key items'
  end.

Definition is_str (key : string) (v : toml) : bool :=
  match v with TStr s => String.eqb s key | _ => false end.

(** [key in v] *)
Definition py_in (key : string) (v : toml) : result bool :=
  match v with
  | TTable items => Ok (bool_decide (is_Some (assoc key items)))
  | TStr s => Ok (PyStr.contains s key)
  | TList l => Ok (existsb (is_str key) l)
  | TInt _ | TBool _ | TScalar _ => Raise TypeError
  end.

(** [v[key]] *)
Definition py_getitem (key : string) (v : toml) : result toml :=
  match v with
  | TTable items =>
      match assoc key items with
      | Some x => Ok x
      | None => Raise (KeyError key)
      end
  | _ => Raise TypeError
  end.

(** [v.items()] *)
Definition py_items (v : toml) : result (list (string * toml)) :=
  match v with
  | TTable items => Ok items
  | _ => Raise AttributeError
  end.

(** The values [for x in v] runs through. *)
Definition py_iter (v : toml) : result (list toml) :=
  match v with
  | TList l => Ok l
  | TStr s => Ok (TStr <$> PyStr.chars s)
  | TTable items => Ok ((fun kv => TStr (fst kv)) <$> items)
  | TInt _ | TBool _ | TScalar _ => Raise TypeError
  end.

(** [f"{v}"] *)
Definition format_value (H : Host) (v : toml) : string :=
  match v with
  | TStr s => s
  | _ => value_str H v
  end.

(** [split_dependency(v)] on a value of a document: [dep.strip()] exists
    on strings only. *)
Definition split_dependency_value (v : toml) : result (string * string) :=
  match v with
  | TStr s => Ok (split_dependency s)
  | _ => Raise AttributeError
  end.

(** [key1 in v and key2 in v[key1]] *)
Definition py_in_in {S} (key1 key2 : string) (v : toml) : stmt S bool :=
  (b <- lift (py_in key1 v) ;;
   if b : bool then
     inner <- lift (py_getitem key1 v) ;;
     lift (py_in key2 inner)
   else ret false)%stmt.

(** ** Manifest parsers *)

(** The statements of [extract_pyproject_dependencies] that follow the
    load of the document. *)
Definition pyproject_entries (H : Host) (pyproject_path : string)
    (pyproject_data : toml) : stmt (list triple) unit :=
  (has_poetry <- py_in_in "tool" "poetry" pyproject_data ;;
   if has_poetry : bool then
     tool <- lift (py_getitem "tool" pyproject_data) ;;
     poetry_data <- lift (py_getitem "poetry" tool) ;;
     for_each ["dependencies"; "dev-dependencies"] (fun section =>
       present <- lift (py_in section poetry_data) ;;
       if present : bool then
         table <- lift (py_getitem section poetry_data) ;;
         items <- lift (py_items table) ;;
         for_each items (fun '(package, version) =>
           let '(package, version) :=
             split_dependency (package +:+ format_value H version) in
           append (pyproject_path, package, version))
       else pass)
   else
     has_project <- py_in_in "project" "dependencies" pyproject_data ;;
     if has_project : bool then
       project <- lift (py_getitem "project" pyproject_data) ;;
       deps <- lift (py_getitem "dependencies" project) ;;
       deps <- lift (py_iter deps) ;;
       for_each deps (fun dep =>
         pv <- lift (split_dependency_value dep) ;;
         let '(package, version) := pv in
         append (pyproject_path, package, version))
     else pass)%stmt.

(** The body of the [try] statement of [extract_pyproject_dependencies]. *)
Definition pyproject_block (H : Host) (pyproject_path : string)
    : stmt (list triple) unit :=
  (pyproject_data <- lift (toml_load_path pyproject_path) ;;
   pyproject_entries H pyproject_path pyproject_data)%stmt.

Definition extract_pyproject_dependencies (H : Host) (pyproject_path : string)
    : result (list triple) :=
  run_function []
    (try_except
       (pyproject_block H pyproject_path)
       (fun e => print "Error reading pyproject.toml") ;;
     get)%stmt.

(** [ast.iter_child_nodes(node)] *)
Definition child_nodes (n : node) : list node :=
  match n with
  | ast_Import _ _ => []
  | ast_ImportFrom _ _ _ _ => []
  | ast_Attribute value _ _ => [value]
  | ast_Name _ _ => []
  | ast_Call func args keywords _ => func :: args ++ keywords
  | ast_keyword _ value => [value]
  | ast_List elts _ => elts
  | ast_Constant _ _ => []
  | ast_Other children => children
  end.

Fixpoint node_count (n : node) : nat :=
  let count_all := fun l => foldr (fun c acc => node_count c + acc) 0 l in
  match n with
  | ast_Import _ _ => 1
  | ast_ImportFrom _ _ _ _ => 1
  | ast_Attribute value _ _ => S (node_count value)
  | ast_Name _ _ => 1
  | ast_Call func args keywords _ =>
      S (node_count func + count_all args + count_all keywords)
  | ast_keyword _ value => S (node_count value)
  | ast_List elts _ => S (count_all elts)
  | ast_Constant _ _ => 1
  | ast_Other children => S (count_all children)
  end.

Definition count_all (l : list node) : nat :=
  foldr (fun c acc => node_count c + acc) 0 l.

(** The queue loop of [ast.walk]: take the first node, queue its children
    at the back, yield it. *)
Fixpoint walk_queue (fuel : nat) (todo : list node) : list node :=
  match fuel, todo with
  | S fuel', n :: todo' => n :: walk_queue fuel' (todo' ++ child_nodes n)
  | _, _ => []
  end.

(** [ast.walk(node)]: breadth first. *)
Definition ast_walk (n : node) : list node := walk_queue (node_count n) [n].

(** [item.s for item in elts if isinstance(item, ast.Str)] *)
Definition str_items (elts : list node) : list string :=
  omap (fun item =>
          match item with
          | ast_Constant (CStr s) _ => Some s
          | _ => None
          end) elts.

Definition parse_setup_py (H : Host) (file_path : string)
    : result (list triple) :=
  run_function []
    (file <- lift (open_text H file_path) ;;
     setup_content <- lift (f_read file) ;;
     setup_ast <- lift (ast_parse H setup_content "<unknown>") ;;
     for_each (ast_walk setup_ast) (fun node =>
       match node with
       | ast_Call (ast_Name id _) _ keywords _ =>
           if String.eqb id "setup" then
             for_each keywords (fun keyword =>
               match keyword with
               | ast_keyword (Some arg) (ast_List elts _) =>
                   if String.eqb arg "install_requires"
                   then extend (str_items elts)
                   else pass
               | _ => pass
               end)
           else pass
       | _ => pass
       end) ;;
     install_requires <- get ;;
     ret ((fun dep => let '(package, version) := split_dependency dep in
                      (file_path, package, version)) <$> install_requires))%stmt.

(** ** The inline import scanner *)

Definition is_builtin_module (H : Host) (module_name : string) : result bool :=
  if bool_decide (module_name ∈ builtin_module_names H) then Ok true
  else
    match find_spec H module_name with
    | Ok spec => Ok (bool_decide (spec = None))
    | Raise e => Raise e
    end.

Definition is_module_char (c : ascii) : bool :=
  PyStr.is_word c || PyStr.is_digit c || PyStr.is_char "_"%char c
  || PyStr.is_char "."%char c.

(** [^\s*(?:import|from)\s+([\w\d_\.]+)]; the anchor [^] holds where
    [pattern.match] starts. *)
Definition import_pattern : Re.regex :=
  Re.Seq (Re.Star PyStr.is_space)
    (Re.Seq (Re.Alt (Re.Lit "import") (Re.Lit "from"))
       (Re.Seq (Re.Plus PyStr.is_space)
               (Re.Group 1 (Re.Plus is_module_char)))).

(** Putting an element into a list ordered by rank, in front of the
    elements of its own rank. *)
Fixpoint insert_by {A} (rank : A -> nat) (x : A) (l : list A) : list A :=
  match l with
  | [] => [x]
  | y :: l' =>
      if rank x <=? rank y then x :: l else y :: insert_by rank x l'
  end.

Definition sort_by {A} (rank : A -> nat) (l : list A) : list A :=
  foldr (insert_by rank) [] l.

(** [list(s)]: the elements of the set, each once, in the order of the
    interpreter process. *)
Definition set_listing (H : Host) (s : gset triple) : list triple :=
  sort_by (listing_rank H) (elements s).

Definition extract_python_file_dependencies (H : Host)
    (project_path python_version : string) : result (list triple) :=
  run_function (∅ : gset triple)
    (for_each (os_walk H project_path) (fun '(root, _, files) =>
       for_each files (fun file =>
         if PyStr.endswith file ".py" then
           let file_path := path_join H root file in
           try_except
             (f <- lift (open_text H file_path) ;;
              for_line f (fun line =>
                match Re.rmatch import_pattern line with
                | Some m =>
                    let module :=
                      PyStr.split_first "."%char (Re.group_or_empty m 1) in
                    builtin <- lift (is_builtin_module H module) ;;
                    if negb builtin
                    then add (file_path, module, python_version)
                    else pass
                | None => pass
                end))
             (fun e => print "Error reading")
         else pass)) ;;
     dependencies <- get ;;
     ret (set_listing H dependencies))%stmt.

(** ** The record sequence of the usage analysis, file by file

    The sequence [analyze_repo] is meant to build, written without the
    loops: the blocks of the source files, in walk order. *)

Definition source_path (H : Host) (root file : string) : string :=
  path_normpath H (path_join H root file).

(** [ast.parse(f.read(), filename=file_path)] *)
Definition parse_source (H : Host) (file_path : string) (f : text_file)
    : result node :=
  match f_read f with
  | Ok source => ast_parse H source file_path
  | Raise e => Raise e
  end.

Definition import_record (file_path : string) (x : string * Z) : usage_record :=
  (file_path, "import", fst x, snd x).

Definition usage_entry (file_path : string) (x : string * Z) : usage_record :=
  (file_path, "usage", fst x, snd x).

Definition error_record (file_path : string) (e : exn) : usage_record :=
  (file_path, "error", exn_str e, (-1)%Z).

(** The statements of the [try] block up to the visit: the visitor of a
    source file that has been read, parsed and visited, or the exception
    of the first of the three that raises. *)
Definition visit_source (H : Host) (file_path : string) (f : text_file)
    : result ImportUsageVisitor :=
  match parse_source H file_path f with
  | Ok tree => visitor_visit H tree new_visitor
  | Raise e => Raise e
  end.

(** The block of one opened source file: its imports, then its usages; or
    its one error record. *)
Definition file_block (H : Host) (file_path : string) (f : text_file)
    : list usage_record :=
  match visit_source H file_path f with
  | Ok visitor =>
      (import_record file_path <$> imports visitor)
      ++ (usage_entry file_path <$> usage visitor)
  | Raise e => [error_record file_path e]
  end.

Definition file_records (H : Host) (root file : string) : list usage_record :=
  if PyStr.endswith file ".py" then
    match open_text H (source_path H root file) with
    | Ok f => file_block H (source_path H root file) f
    | Raise _ => []
    end
  else [].

Definition walk_records (H : Host)
    (walk : list (string * list string * list string)) : list usage_record :=
  flat_map (fun '(root, _, files) => flat_map (file_records H root) files) walk.

(** Every source file the walk lists can be opened. *)
Definition sources_open (H : Host)
    (walk : list (string * list string * list string)) : Prop :=
  forall root dirs files file,
    In (root, dirs, files) walk -> In file files ->
    PyStr.endswith file ".py" = true ->
    exists f, open_text H (source_path H root file) = Ok f.

Definition is_ok {A} (r : result A) : bool :=
  match r with Ok _ => true | Raise _ => false end.

(** The same, as a check that can be run on a listing. *)
Definition all_sources_open (H : Host)
    (walk : list (string * list string * list string)) : bool :=
  forallb
    (fun '(root, _, files) =>
       forallb
         (fun file =>
            implb (PyStr.endswith file ".py")
                  (is_ok (open_text H (source_path H root file))))
         files)
    walk.

Definition record_file (r : usage_record) : string := r.1.1.1.
Definition record_category (r : usage_record) : string := r.1.1.2.
Definition record_symbol (r : usage_record) : string := r.1.2.
Definition record_line (r : usage_record) : Z := r.2.

(** Within each file the records come in line number order, whatever their
    category. *)
Definition in_line_order (rs : list usage_record) : Prop :=
  forall i j r1 r2,
    i < j -> rs !! i = Some r1 -> rs !! j = Some r2 ->
    record_file r1 = record_file r2 ->
    (record_line r1 <= record_line r2)%Z.

(** ** The entries of a project metadata file, branch by branch *)

(** The record of one [name = version] entry of a build-tool section. *)
Definition poetry_record (H : Host) (pyproject_path : string)
    (item : string * toml) : triple :=
  let '(package, version) :=
    split_dependency (item.1 +:+ format_value H item.2) in
  (pyproject_path, package, version).

(** The record of one specifier of the standard dependency list. *)
Definition project_record (pyproject_path dep : string) : triple :=
  let '(package, version) := split_dependency dep in
  (pyproject_path, package, version).

(** The entries of a section of the build-tool table: none when the
    section is absent; not defined when the section is not a table. *)
Definition section_items (poetry : list (string * toml)) (section : string)
    : option (list (string * toml)) :=
  match assoc section poetry with
  | None => Some []
  | Some (TTable items) => Some items
  | Some _ => None
  end.

(** ** Sample hosts *)

Module Sample.

(** [os.path.join] on a directory and a plain file name. *)
Definition join (root file : string) : string := root +:+ "/" +:+ file.

Definition no_file : result text_file :=
  Raise (Exception "No such file or directory").

Definition open_in (files : list (string * text_file)) (path : string)
    : result text_file :=
  match assoc path files with
  | Some f => Ok f
  | None => no_file
  end.

Definition parse_in (trees : list (string * result node))
    (source filename : string) : result node :=
  match assoc source trees with
  | Some r => r
  | None => Raise (Exception "invalid syntax")
  end.

(** The probe of a tool run as a script: the module [__main__] of a
    script has no spec, and [find_spec] raises [ValueError] on it; any
    other name it finds or does not find. *)
Definition find_in (installed : list string) (name : string)
    : result (option module_spec) :=
  if String.eqb name "__main__"
  then Raise (Exception "__main__.__spec__ is None")
  else if bool_decide (name ∈ installed) then Ok (Some (ModuleSpec name))
  else Ok None.

(** The visit of a tree nested deeper than 300 nodes goes beyond the
    recursion limit. *)
Definition recursion_in (tree : node) : option exn :=
  if 300 <? depth tree
  then Some (Exception "maximum recursion depth exceeded")
  else None.

(** A host given by its directory listing, the text of its files, the
    syntax trees of the texts that parse and the modules the interpreter
    can locate. *)
Definition host
    (walk : list (string * list string * list string))
    (files : list (string * text_file))
    (trees : list (string * result node))
    (builtins installed : list string) : Host :=
  {| os_walk := fun _ => walk;
     path_join := join;
     path_normpath := fun path => path;
     open_text := open_in files;
     ast_parse := parse_in trees;
     recursion_error := recursion_in;
     value_str := fun _ => "?";
     builtin_module_names := builtins;
     find_spec := find_in installed;
     listing_rank := fun _ => 0 |}.

Definition lf : string := String "010"%char EmptyString.

(** [x = obj.method] on line 1, [import json] on line 2. *)
Definition usage_then_import : text_file :=
  TextFile ["x = obj.method" +:+ lf; "import json" +:+ lf] None.

Definition usage_then_import_tree : node :=
  ast_Other
    [ast_Other [ast_Name "x" 1;
                ast_Attribute (ast_Name "obj" 1) "method" 1];
     ast_Import [Alias "json" None] 2].

(** [import json] on line 1, [x = obj.method()] on line 2. *)
Definition import_then_call : text_file :=
  TextFile ["import json" +:+ lf; "x = obj.method()" +:+ lf] None.

Definition import_then_call_tree : node :=
  ast_Other
    [ast_Import [Alias "json" None] 1;
     ast_Other [ast_Name "x" 2;
                ast_Call (ast_Attribute (ast_Name "obj" 2) "method" 2)
                  [] [] 2]].

(** A text the parser rejects. *)
Definition broken : text_file := TextFile ["def f(:" +:+ lf] None.

Definition broken_error : exn :=
  Exception "invalid syntax (broken.py, line 1)".

Definition trees : list (string * result node) :=
  [("x = obj.method" +:+ lf +:+ "import json" +:+ lf,
    Ok usage_then_import_tree);
   ("import json" +:+ lf +:+ "x = obj.method()" +:+ lf,
    Ok import_then_call_tree);
   ("def f(:" +:+ lf, Raise broken_error)].

(** A repository with one module, whose usage comes before its import. *)
Definition one_module : Host :=
  host [("repo", [], ["mod.py"])]
       [("repo/mod.py", usage_then_import)]
       trees [] [].

(** A repository whose first module does not parse. *)
Definition broken_first : Host :=
  host [("repo", ["pkg"], ["broken.py"; "notes.txt"]);
        ("repo/pkg", [], ["ok.py"])]
       [("repo/broken.py", broken); ("repo/pkg/ok.py", import_then_call)]
       trees [] [].

(** A project metadata file with both a build-tool table and a standard
    dependency list:
<<
    [project]
    dependencies = ["flask>= 2.0"]
    [tool.poetry.dependencies]
    python = "^3.8"
    requests = "= 2.31"
    [tool.poetry.dev-dependencies]
    pytest = "*"
>> *)
Definition both_tables : toml :=
  TTable
    [("project", TTable [("dependencies", TList [TStr "flask>= 2.0"])]);
     ("tool",
      TTable
        [("poetry",
          TTable
            [("dependencies",
              TTable [("python", TStr "^3.8"); ("requests", TStr "= 2.31")]);
             ("dev-dependencies", TTable [("pytest", TStr "*")])])])].

(** The same file without its build-tool table. *)
Definition standard_only : toml :=
  TTable
    [("project", TTable [("dependencies", TList [TStr "flask>= 2.0"])])].

(** A packaging script the parser rejects, [setup(] on its only line, next
    to a project metadata file. *)
Definition setup_error : exn :=
  Exception "'(' was never closed (<unknown>, line 1)".

Definition broken_manifests : Host :=
  host [("repo", [], ["setup.py"; "pyproject.toml"])]
       [("repo/setup.py", TextFile ["setup(" +:+ lf] None)]
       [("setup(" +:+ lf, Raise setup_error)]
       [] [].

(** A packaging script that parses:
    [setup(name="demo", install_requires=["flask> 2.0", "requests"])]. *)
Definition setup_text : string :=
  "setup(name='demo', install_requires=['flask> 2.0', 'requests'])" +:+ lf.

Definition setup_tree : node :=
  ast_Other
    [ast_Other
       [ast_Call (ast_Name "setup" 1) []
          [ast_keyword (Some "name") (ast_Constant (CStr "demo") 1);
           ast_keyword (Some "install_requires")
             (ast_List [ast_Constant (CStr "flask> 2.0") 1;
                        ast_Constant (CStr "requests") 1] 1)]
          1]].

Definition good_setup : Host :=
  host [("repo", [], ["setup.py"])]
       [("repo/setup.py", TextFile [setup_text] None)]
       [(setup_text, Ok setup_tree)]
       [] [].

(** A project with one module importing [os] and [requests], scanned by
    an interpreter that has its standard library and no [requests]
    installed. *)
Definition app : text_file :=
  TextFile ["import os" +:+ lf; "import requests" +:+ lf] None.

Definition fresh_interpreter : Host :=
  host [("proj", [], ["app.py"])]
       [("proj/app.py", app)]
       []
       ["builtins"; "sys"; "time"; "posix"; "_io"]
       ["os"; "re"; "json"].

(** The same project scanned where [requests] is installed. *)
Definition project_interpreter : Host :=
  host [("proj", [], ["app.py"])]
       [("proj/app.py", app)]
       []
       ["builtins"; "sys"; "time"; "posix"; "_io"]
       ["os"; "re"; "json"; "requests"].

End Sample.

(** The clauses of the splitter's pattern after the name. *)
Abbreviation tail_clauses :=
  (Re.Seq extras_clause (Re.Seq comparator_clause condition_clause)).

(** ** A specifier, read from its text *)

(** What follows the extras at the head of a text: the text behind the
    first closing bracket, when the text opens a bracket and the bracket
    is not empty; the text itself when it holds no extras. *)
Definition after_extras (tail : string) : string :=
  match tail with
  | String c t =>
      if PyStr.is_char "["%char c && PyStr.starts_with (not_char "]"%char) t
      then
        match PyStr.drop_while (not_char "]"%char) t with
        | String d r => if PyStr.is_char "]"%char d then r else tail
        | EmptyString => tail
        end
      else tail
  | EmptyString => tail
  end.

(** A text that begins with a comparator and version: one comparator
    character, one white space character, one version character. *)
Definition comparator_at (s : string) : bool :=
  match s with
  | String a (String b (String c _)) =>
      is_comparator a && PyStr.is_space b && is_version_char c
  | _ => false
  end.

(** A text that begins with a condition: a semicolon and one more
    character of the same line. *)
Definition condition_at (s : string) : bool :=
  match s with
  | String a (String b _) => PyStr.is_char ";"%char a && is_dot b
  | _ => false
  end.

(** ** The report lines of the usage analysis *)

(** [c.lower()] on U+0000..U+00FF. *)
Definition lower_char (c : ascii) : ascii :=
  if PyStr.in_range 65 90 c || PyStr.in_range 192 214 c
     || PyStr.in_range 216 222 c
  then ascii_of_N (PyStr.code c + 32)
  else c.

(** [s.lower()] *)
Fixpoint lower (s : string) : string :=
  match s with
  | EmptyString => EmptyString
  | String c s' => String (lower_char c) (lower s')
  end.

(** [str(n)] for an integer. *)
Definition str_of_int (n : Z) : string :=
  DecimalString.NilZero.string_of_int (Z.to_int n).

(** The label [generate_pdf_report] prints for a category. *)
Definition report_label (category : string) : string :=
  if String.eqb (lower category) "import" then "IMPORT" else "USAGE".

(** [line_str] of [generate_pdf_report]. *)
Definition report_line (r : usage_record) : string :=
  let '(file_path, category, symbol, line) := r in
  file_path +:+ " | " +:+ report_label category +:+ " | " +:+ symbol
  +:+ " | Line: " +:+ str_of_int line.

(** The texts [generate_pdf_report] hands to [pdf.cell], in order: the
    title, then one line per record.  Laying them out on pages is the
    library's. *)
Definition report_cells (results : list usage_record) : list string :=
  "Python Import and Usage Report" :: (report_line <$> results).

(** ** The syntax tree, node by node *)

(** The nodes of a tree, depth first, a node before its children. *)
Fixpoint preorder (n : node) : list node :=
  n ::
  match n with
  | ast_Import _ _ => []
  | ast_ImportFrom _ _ _ _ => []
  | ast_Attribute value _ _ => preorder value
  | ast_Name _ _ => []
  | ast_Call func args keywords _ =>
      preorder func ++ flat_map preorder args ++ flat_map preorder keywords
  | ast_keyword _ value => preorder value
  | ast_List elts _ => flat_map preorder elts
  | ast_Constant _ _ => []
  | ast_Other children => flat_map preorder children
  end.

(** What [visit_Import] and [visit_ImportFrom] record at a node. *)
Definition import_entries (n : node) : list (string * Z) :=
  match n with
  | ast_Import names lineno => (fun a => (alias_name a, lineno)) <$> names
  | ast_ImportFrom module names _ lineno =>
      (fun a => (format_opt module +:+ "." +:+ alias_name a, lineno)) <$> names
  | _ => []
  end.

(** What [visit_Attribute] records at a node. *)
Definition attribute_usage (n : node) : list (string * Z) :=
  match n with
  | ast_Attribute (ast_Name id _) attr lineno => [(id +:+ "." +:+ attr, lineno)]
  | _ => []
  end.

(** What a visit adds to a visitor. *)
Definition visited (n : node) (v : ImportUsageVisitor) : ImportUsageVisitor :=
  Visitor (imports v ++ flat_map import_entries (preorder n))
          (usage v ++ flat_map attribute_usage (preorder n)).

(** ** Loops that stop at the first exception *)

(** The blocks of the elements of a list, put one after the other, up to
    the first element whose step raises. *)
Fixpoint collect {Y X} (step : Y -> result (list X)) (l : list Y)
    : result (list X) :=
  match l with
  | [] => Ok []
  | y :: l' =>
      match step y with
      | Ok block =>
          match collect step l' with
          | Ok blocks => Ok (block ++ blocks)
          | Raise e => Raise e
          end
      | Raise e => Raise e
      end
  end.

(** What one file of a directory gives the usage analysis: the block of a
    source file that opens, the exception of one that does not, nothing
    for any other file. *)
Definition file_step (H : Host) (root file : string)
    : result (list usage_record) :=
  if PyStr.endswith file ".py" then
    match open_text H (source_path H root file) with
    | Ok f => Ok (file_block H (source_path H root file) f)
    | Raise e => Raise e
    end
  else Ok [].

Definition dir_step (H : Host) (dir : string * list string * list string)
    : result (list usage_record) :=
  let '(root, _, files) := dir in collect (file_step H root) files.

(** ** The remaining manifest parsers *)

(** [v.get(key, default)] *)
Definition py_get (key : string) (default : toml) (v : toml) : result toml :=
  match v with
  | TTable items =>
      Ok (match assoc key items with Some x => x | None => default end)
  | _ => Raise AttributeError
  end.

(** The YAML loader, [yaml.safe_load(f)] on an open file.  A YAML document
    is given by the same values as a TOML document, its mappings keyed by
    strings; [TScalar] also stands for [None]. *)
Record Loaders : Type := {
  yaml_safe_load : text_file -> result toml
}.

(** A record whose package and version are the values of a document,
    taken as they are. *)
Definition row : Type := string * toml * toml.

Definition row_of_triple (t : triple) : row :=
  (t.1.1, TStr t.1.2, TStr t.2).

(** The body of the [try] statement of [extract_pipfile_dependencies]. *)
Definition pipfile_block (H : Host) (pipfile_path : string)
    : stmt (list triple) unit :=
  (pipfile_data <- lift (toml_load_path pipfile_path) ;;
   for_each ["packages"; "dev-packages"] (fun section =>
     present <- lift (py_in section pipfile_data) ;;
     if present : bool then
       table <- lift (py_getitem section pipfile_data) ;;
       items <- lift (py_items table) ;;
       for_each items (fun '(package, version) =>
         let '(package, version) :=
           split_dependency (package +:+ format_value H version) in
         append (pipfile_path, package, version))
     else pass))%stmt.

Definition extract_pipfile_dependencies (H : Host) (pipfile_path : string)
    : result (list triple) :=
  run_function []
    (try_except
       (pipfile_block H pipfile_path)
       (fun e => print "Error reading Pipfile") ;;
     get)%stmt.

(** The body of the [try] statement of
    [extract_poetry_lock_dependencies]. *)
Definition poetry_lock_block (H : Host) (poetry_lock_path : string)
    : stmt (list row) unit :=
  (file <- lift (open_text H poetry_lock_path) ;;
   poetry_lock_data <- lift (toml_load_text file) ;;
   packages <- lift (py_get "package" (TList []) poetry_lock_data) ;;
   packages <- lift (py_iter packages) ;;
   for_each packages (fun package =>
     name <- lift (py_get "name" (TStr "") package) ;;
     version <- lift (py_get "version" (TStr "Unknown") package) ;;
     append (poetry_lock_path, name, version)))%stmt.

Definition extract_poetry_lock_dependencies (H : Host)
    (poetry_lock_path : string) : result (list row) :=
  run_function []
    (try_except
       (poetry_lock_block H poetry_lock_path)
       (fun e => print "Error reading poetry.lock") ;;
     get)%stmt.

(** The body of the [try] statement of [get_conda_dependencies]. *)
Definition conda_block (H : Host) (L : Loaders) (env_file : string)
    : stmt (list triple) unit :=
  (f <- lift (open_text H env_file) ;;
   env_data <- lift (yaml_safe_load L f) ;;
   deps <- lift (py_get "dependencies" (TList []) env_data) ;;
   deps <- lift (py_iter deps) ;;
   for_each deps (fun dep =>
     match dep with
     | TStr spec =>
         let '(package, version) := split_dependency spec in
         append (env_file, package, version)
     | TTable _ =>
         has_pip <- lift (py_in "pip" dep) ;;
         if has_pip : bool then
           pip <- lift (py_getitem "pip" dep) ;;
           pip <- lift (py_iter pip) ;;
           for_each pip (fun pip_dep =>
             pv <- lift (split_dependency_value pip_dep) ;;
             let '(package, version) := pv in
             append (env_file, package, version))
         else pass
     | _ => pass
     end))%stmt.

Definition get_conda_dependencies (H : Host) (L : Loaders) (env_file : string)
    : result (list triple) :=
  run_function []
    (try_except
       (conda_block H L env_file)
       (fun e => print "Error reading Conda environment file") ;;
     get)%stmt.

(** Putting a character in front of the first part of a split. *)
Definition cons_head (c : ascii) (parts : list string) : list string :=
  match parts with
  | part :: rest => String c part :: rest
  | [] => [String c EmptyString]
  end.

(** [s.split("==")] *)
Fixpoint split_eqeq (s : string) : list string :=
  match s with
  | EmptyString => [EmptyString]
  | String c s' =>
      match s' with
      | String d s'' =>
          if Ascii.eqb c "="%char && Ascii.eqb d "="%char
          then EmptyString :: split_eqeq s''
          else cons_head c (split_eqeq s')
      | EmptyString => cons_head c (split_eqeq s')
      end
  end.

(** [package, *version = line.split("==")], then the record of the
    line. *)
Definition pip_record (requirements_file line : string) : result triple :=
  match split_eqeq line with
  | package :: version =>
      Ok (requirements_file, PyStr.strip package,
          match version with
          | v :: _ => PyStr.strip v
          | [] => "Unknown"
          end)
  | [] => Raise (Exception "not enough values to unpack")
  end.

(** The body of the [try] statement of [get_pip_dependencies]. *)
Definition pip_block (H : Host) (requirements_file : string)
    : stmt (list triple) unit :=
  (f <- lift (open_text H requirements_file) ;;
   for_line f (fun line =>
     let line := PyStr.strip line in
     if PyStr.truthy line && negb (PyStr.startswith line "#") then
       record <- lift (pip_record requirements_file line) ;;
       append record
     else pass))%stmt.

Definition get_pip_dependencies (H : Host) (requirements_file : string)
    : result (list triple) :=
  run_function []
    (try_except
       (pip_block H requirements_file)
       (fun e => print "Error reading requirements.txt") ;;
     get)%stmt.

(** ** What the manifest parsers are meant to return, entry by entry *)

(** A line of a requirement list counts when, stripped, it is not empty
    and is no comment. *)
Definition significant (line : string) : bool :=
  PyStr.truthy (PyStr.strip line)
  && negb (PyStr.startswith (PyStr.strip line) "#").

(** The records of one line of a requirement list. *)
Definition pip_line (requirements_file line : string) : list triple :=
  if significant line then
    match pip_record requirements_file (PyStr.strip line) with
    | Ok record => [record]
    | Raise _ => []
    end
  else [].

(** An entry of the [dependencies] list of an environment file that the
    parser can take: a string, a mapping without [pip], a mapping whose
    [pip] is a list of strings, or a scalar. *)
Definition conda_entry_ok (dep : toml) : Prop :=
  match dep with
  | TTable items =>
      match assoc "pip" items with
      | Some pip => exists specs : list string, pip = TList (TStr <$> specs)
      | None => True
      end
  | TList _ => True
  | _ => True
  end.

(** The specifiers of one entry of the [dependencies] list. *)
Definition conda_specs (dep : toml) : list string :=
  match dep with
  | TStr spec => [spec]
  | TTable items =>
      match assoc "pip" items with
      | Some (TList pip) =>
          omap (fun x => match x with TStr spec => Some spec | _ => None end) pip
      | _ => []
      end
  | _ => []
  end.

(** The entries of [install_requires] that a node of a packaging script
    holds: the string literals of the list, when the node is a call of
    [setup] by that name. *)
Definition install_requires_of (n : node) : list string :=
  match n with
  | ast_Call (ast_Name id _) _ keywords _ =>
      if String.eqb id "setup" then
        flat_map
          (fun keyword =>
             match keyword with
             | ast_keyword (Some arg) (ast_List elts _) =>
                 if String.eqb arg "install_requires"
                 then str_items elts else []
             | _ => []
             end)
          keywords
      else []
  | _ => []
  end.

(** ** The dependency aggregator *)

(** The loop of [find_file] over the directories of the walk. *)
Fixpoint find_in_walk (H : Host)
    (walk : list (string * list string * list string)) (filename : string)
    : option string :=
  match walk with
  | [] => None
  | (root, _, files) :: walk' =>
      if bool_decide (filename ∈ files)
      then Some (path_join H root filename)
      else find_in_walk H walk' filename
  end.

Definition find_file (H : Host) (root_path filename : string) : option string :=
  find_in_walk H (os_walk H root_path) filename.

Definition result_map {A B} (f : A -> B) (r : result A) : result B :=
  match r with
  | Ok a => Ok (f a)
  | Raise e => Raise e
  end.

Definition rows_of (r : result (list triple)) : result (list row) :=
  result_map (fmap row_of_triple) r.

(** [dependency_files], in the order of the dictionary. *)
Definition dependency_files (H : Host) (L : Loaders)
    : list (string * (string -> result (list row))) :=
  [("pyproject.toml", fun path => rows_of (extract_pyproject_dependencies H path));
   ("poetry.lock", extract_poetry_lock_dependencies H);
   ("Pipfile", fun path => rows_of (extract_pipfile_dependencies H path));
   ("environment.yml", fun path => rows_of (get_conda_dependencies H L path));
   ("requirements.txt", fun path => rows_of (get_pip_dependencies H path));
   ("setup.py", fun path => rows_of (parse_setup_py H path))].

(** The statements of [extract_project_dependencies] that build
    [all_dependencies]. *)
Definition project_dependencies_block (H : Host) (L : Loaders)
    (project_path : string) : stmt (list row) unit :=
  (for_each (dependency_files H L) (fun '(filename, extractor) =>
     match find_file H project_path filename with
     | Some file_path =>
         if PyStr.truthy file_path then
           try_except
             (rows <- lift (extractor file_path) ;;
              extend rows)
             (fun e => print "Error extracting")
         else pass
     | None => pass
     end) ;;
   inline <- lift (extract_python_file_dependencies H project_path "Python") ;;
   extend (row_of_triple <$> inline))%stmt.

(** [all_dependencies] as [extract_project_dependencies] hands it to the
    table writer. *)
Definition all_dependencies (H : Host) (L : Loaders) (project_path : string)
    : result (list row) :=
  run_function [] (project_dependencies_block H L project_path ;; get)%stmt.

(** What one manifest adds to [all_dependencies]: the rows of its parser
    when the file is found and the parser returns, nothing otherwise. *)
Definition manifest_rows (H : Host) (project_path filename : string)
    (extractor : string -> result (list row)) : list row :=
  match find_file H project_path filename with
  | Some file_path =>
      if PyStr.truthy file_path then
        match extractor file_path with
        | Ok rows => rows
        | Raise _ => []
        end
      else []
  | None => []
  end.

(** ** The lines the inline scanner looks at *)

(** The top-level module a line imports, when the line matches the
    pattern. *)
Definition line_module (line : string) : option string :=
  match Re.rmatch import_pattern line with
  | Some m => Some (PyStr.split_first "."%char (Re.group_or_empty m 1))
  | None => None
  end.

(** The source files of a walk, as the scanner names them, with their
    text. *)
Definition scanned (H : Host)
    (walk : list (string * list string * list string))
    (file_path : string) (f : text_file) : Prop :=
  exists root dirs files file,
    In (root, dirs, files) walk /\ In file files
    /\ PyStr.endswith file ".py" = true
    /\ file_path = path_join H root file
    /\ open_text H file_path = Ok f.

(** The body of the loop over the lines of a file, and the body of the
    loop over the files of a directory, as they stand in
    [extract_python_file_dependencies]. *)
Definition scan_line (H : Host) (file_path python_version line : string)
    : stmt (gset triple) unit :=
  match Re.rmatch import_pattern line with
  | Some m =>
      let module := PyStr.split_first "."%char (Re.group_or_empty m 1) in
      (builtin <- lift (is_builtin_module H module) ;;
       if negb builtin
       then add (file_path, module, python_version)
       else pass)%stmt
  | None => pass
  end.

Definition scan_file (H : Host) (python_version root file : string)
    : stmt (gset triple) unit :=
  if PyStr.endswith file ".py" then
    let file_path := path_join H root file in
    try_except
      (f <- lift (open_text H file_path) ;;
       for_line f (scan_line H file_path python_version))%stmt
      (fun e => print "Error reading")
  else pass.

(** A triple the scanner has a reason to report: a line of a source file
    of the walk imports the module, and the probe does not take the module
    for a builtin one. *)
Definition imported (H : Host)
    (walk : list (string * list string * list string))
    (python_version : string) (t : triple) : Prop :=
  exists file_path f line module,
    scanned H walk file_path f /\ In line (f_lines f)
    /\ line_module line = Some module
    /\ is_builtin_module H module = Ok false
    /\ t = (file_path, module, python_version).

Definition all_imported (H : Host)
    (walk : list (string * list string * list string))
    (python_version : string) (st : gset triple) : Prop :=
  forall t, t ∈ st -> imported H walk python_version t.

(** A block that only adds to a set. *)
Definition grows `{Countable X} {A} (c : stmt (gset X) A) : Prop :=
  forall st, st ⊆ (c st).2.

(** A block that leaves an element in the set, however it ends. *)
Definition adds `{Countable X} {A} (x : X) (c : stmt (gset X) A) : Prop :=
  forall st, x ∈ (c st).2.

(** An outcome that no block of statements changes for the worse: a
    property of the accumulator that holds after the block when it held
    before, however the block ends. *)
Definition preserves {S A} (I : S -> Prop) (c : stmt S A) : Prop :=
  forall st, I st -> I (c st).2.

(** A block that does not raise. *)
Definition returns {S A} (c : stmt S A) : Prop :=
  forall st, exists a, (c st).1 = Ok a.

(** ** More sample hosts *)

Module Fixture.

(** A loader that gives one document whatever the file. *)
Definition loaders (yaml_document : result toml) : Loaders :=
  {| yaml_safe_load := fun _ => yaml_document |}.

Definition no_document : result toml := Raise (Exception "no document").

(** A repository whose second module cannot be opened. *)
Definition second_unopenable : Host :=
  Sample.host [("repo", [], ["a.py"; "b.py"; "c.py"])]
    [("repo/a.py", Sample.import_then_call);
     ("repo/c.py", Sample.usage_then_import)]
    Sample.trees [] [].

(** A repository whose first module does not parse and whose second
    module cannot be opened. *)
Definition broken_then_unopenable : Host :=
  Sample.host [("repo", [], ["broken.py"; "later.py"])]
    [("repo/broken.py", Sample.broken)]
    Sample.trees [] [].

(** A module whose only line is [x.a.a.a] and so on, four hundred
    attributes long: the parser takes it, and its tree is as deep as the
    line is long. *)
Definition deep_text : string :=
  "x" +:+ Nat.iter 400 (String.append ".a") Sample.lf.

Definition deep_tree : node :=
  ast_Other
    [ast_Other
       [Nat.iter 400 (fun value => ast_Attribute value "a" 1)
          (ast_Name "x" 1)]].

Definition with_deep_module : Host :=
  Sample.host [("repo", [], ["deep.py"; "ok.py"])]
    [("repo/deep.py", TextFile [deep_text] None);
     ("repo/ok.py", Sample.import_then_call)]
    ((deep_text, Ok deep_tree) :: Sample.trees) [] [].

(** An interpreter process that lists the triples of [requests] first,
    and one that lists them last. *)
Definition requests_first (t : triple) : nat :=
  if String.eqb t.1.2 "requests" then 0 else 1.

Definition requests_last (t : triple) : nat :=
  if String.eqb t.1.2 "requests" then 1 else 0.

(** A module that imports [__main__] between two other modules, scanned
    by a script where [os] and [requests] can both be located. *)
Definition main_import : text_file :=
  TextFile ["import os" +:+ Sample.lf;
            "import __main__" +:+ Sample.lf;
            "import requests" +:+ Sample.lf] None.

Definition with_main_import : Host :=
  Sample.host [("proj", [], ["app.py"])]
    [("proj/app.py", main_import)]
    [] ["builtins"; "sys"] ["os"; "requests"].

(** A module with a relative import between two absolute ones: the
    pattern takes the dot for the module, whose first segment is the empty
    name, and [find_spec] finds no module of that name. *)
Definition relative_import : text_file :=
  TextFile ["import os" +:+ Sample.lf;
            "from . import helpers" +:+ Sample.lf;
            "import requests" +:+ Sample.lf] None.

Definition with_relative_import : Host :=
  Sample.host [("proj", [], ["app.py"])]
    [("proj/app.py", relative_import)]
    [] ["builtins"; "sys"] ["os"; "requests"].

(** An environment file with two plain entries and a [pip] list. *)
Definition environment : toml :=
  TTable
    [("name", TStr "demo");
     ("dependencies",
      TList [TStr "numpy= 1.20"; TStr "python";
             TTable [("pip", TList [TStr "requests"; TStr "flask> 2.0"])]])].

Definition with_environment : Host :=
  Sample.host [("repo", [], ["environment.yml"])]
    [("repo/environment.yml", TextFile [] None)] [] [] [].

(** An environment file whose [pip] list holds a number between two
    specifiers, and an entry after the list. *)
Definition half_environment : toml :=
  TTable
    [("dependencies",
      TList [TStr "numpy= 1.20";
             TTable [("pip", TList [TStr "requests"; TInt 42; TStr "flask"])];
             TStr "scipy"])].

End Fixture.

(** * Properties *)

(** ** Strings *)

Section string_lemmas.
Import PyStr.

Lemma length_drop_while p s :
  String.length (drop_while p s) <= String.length s.
Proof.
  induction s as [|c s IH]; simpl; [lia|].
  destruct (p c); simpl; lia.
Qed.

Lemma take_drop_while p s : take_while p s +:+ drop_while p s = s.
Proof.
  induction s as [|c s IH]; simpl; [done|].
  destruct (p c); [|done].
  change (String c (take_while p s +:+ drop_while p s) = String c s).
  by rewrite IH.
Qed.

Lemma take_while_all p s :
  forall c, In c (list_ascii_of_string (take_while p s)) -> p c = true.
Proof.
  induction s as [|a s IH]; simpl; [done|].
  destruct (p a) eqn:Hp; simpl; [|done].
  intros c [<-|Hin]; auto.
Qed.

Lemma drop_while_stops p s : starts_with p (drop_while p s) = false.
Proof.
  induction s as [|c s IH]; simpl; [done|].
  destruct (p c) eqn:Hp; simpl; [done | by rewrite Hp].
Qed.

Lemma lstrip_space s : lstrip (String " " s) = lstrip s.
Proof. reflexivity. Qed.

Lemma lstrip_id s : starts_with is_space s = false -> lstrip s = s.
Proof.
  destruct s as [|c s]; [done|]. unfold lstrip; simpl. by intros ->.
Qed.

Lemma rstrip_starts s :
  starts_with is_space s = false -> starts_with is_space (rstrip s) = false.
Proof.
  destruct s as [|c s]; simpl; [done|].
  intros Hc. rewrite Hc. exact Hc.
Qed.

Lemma rstrip_idem s : rstrip (rstrip s) = rstrip s.
Proof.
  induction s as [|c s IH]; simpl; [done|].
  destruct (is_space c && is_empty (rstrip s)) eqn:E; simpl; [done|].
  by rewrite IH, E.
Qed.

Lemma strip_starts s : starts_with is_space (strip s) = false.
Proof. apply rstrip_starts, drop_while_stops. Qed.

Lemma strip_idem s : strip (strip s) = strip s.
Proof.
  unfold strip at 1. rewrite lstrip_id by apply strip_starts.
  apply rstrip_idem.
Qed.

Lemma strip_space_strip s : strip (String " " (strip s)) = strip s.
Proof. unfold strip at 1. rewrite lstrip_space. apply strip_idem. Qed.

End string_lemmas.

(** ** The matcher *)

Section matcher_lemmas.
Import PyStr Re.
Context {R : Type}.
Implicit Types (p : ascii -> bool) (s : string) (g : groups) (r : regex).

Lemma or_else_some (a b : option R) x : a = Some x -> or_else a b = Some x.
Proof. by intros ->. Qed.

Lemma or_else_total (a b : option R) : is_Some b -> is_Some (or_else a b).
Proof. destruct a; simpl; eauto. Qed.

Lemma or_else_inv (a b : option R) x :
  or_else a b = Some x -> a = Some x \/ b = Some x.
Proof. destruct a; simpl; auto. Qed.

(** The greedy repetition hands the longest run to the rest of the
    pattern first: when the rest accepts it, that is the match. *)
Lemma star_greedy p s (k : string -> option R) x :
  k (drop_while p s) = Some x -> star p s k = Some x.
Proof.
  induction s as [|c s IH]; simpl; [done|].
  destruct (p c); [|done].
  intros Hk. by apply or_else_some, IH.
Qed.

Lemma star_inv p s (k : string -> option R) x :
  star p s k = Some x -> exists s', k s' = Some x.
Proof.
  induction s as [|c s IH]; simpl; [eauto|].
  destruct (p c); [|eauto].
  intros [H|H]%or_else_inv; eauto.
Qed.

Lemma star_total p s (k : string -> option R) :
  (forall s', is_Some (k s')) -> is_Some (star p s k).
Proof.
  intros Hk. induction s as [|c s IH]; simpl; [done|].
  destruct (p c); [|done]. by apply or_else_total.
Qed.

(** A pattern that can match the empty text never makes the match fail. *)
Lemma run_nullable_total r :
  nullable r = true ->
  forall s g (k : string -> groups -> option R),
    (forall s' g', is_Some (k s' g')) -> is_Some (run r s g k).
Proof.
  induction r as [p|l|r1 IH1 r2 IH2|r1 IH1 r2 IH2|r1 IH1|p|p|i r1 IH1];
    simpl; intros Hn s g k Hk; try done.
  - destruct l; [|done]. simpl. done.
  - apply andb_true_iff in Hn as [Hn1 Hn2].
    apply IH1; [done|]. intros s' g'. by apply IH2.
  - apply orb_true_iff in Hn as [Hn|Hn].
    + destruct (IH1 Hn s g k Hk) as [x ->]. simpl. eauto.
    + apply or_else_total. by apply IH2.
  - by apply or_else_total.
  - apply star_total. intros s'. apply Hk.
  - apply IH1; [done|]. intros s' g'. apply Hk.
Qed.

(** A property of the groups that no group of the pattern can break is
    carried from the start of the pattern to its continuation. *)
Lemma run_invariant (P : groups -> Prop) (Q : R -> Prop) r :
  (forall i x g, i ∈ group_numbers r -> P g -> P (<[i:=x]> g)) ->
  forall s g (k : string -> groups -> option R) res,
    P g ->
    (forall s' g' res', P g' -> k s' g' = Some res' -> Q res') ->
    run r s g k = Some res -> Q res.
Proof.
  induction r as [p|l|r1 IH1 r2 IH2|r1 IH1 r2 IH2|r1 IH1|p|p|i r1 IH1];
    simpl; intros Hw s g k res Hg Hk Hrun.
  - destruct s as [|c s]; [done|]. destruct (p c); [|done]. eauto.
  - destruct (strip_prefix l s); [|done]. eauto.
  - eapply IH1; [| exact Hg | | exact Hrun].
    + intros; apply Hw; [set_solver | done].
    + intros s' g' res' Hg' Hrun'.
      eapply IH2; [| exact Hg' | exact Hk | exact Hrun'].
      intros; apply Hw; [set_solver | done].
  - apply or_else_inv in Hrun as [Hrun|Hrun].
    + eapply IH1; [| exact Hg | exact Hk | exact Hrun].
      intros; apply Hw; [set_solver | done].
    + eapply IH2; [| exact Hg | exact Hk | exact Hrun].
      intros; apply Hw; [set_solver | done].
  - apply or_else_inv in Hrun as [Hrun|Hrun]; [|eauto].
    eapply IH1; [| exact Hg | exact Hk | exact Hrun].
    intros; apply Hw; [set_solver | done].
  - apply star_inv in Hrun as [s' Hrun]. eauto.
  - destruct s as [|c s]; [done|]. destruct (p c); [|done].
    apply star_inv in Hrun as [s' Hrun]. eauto.
  - eapply IH1; [| exact Hg | | exact Hrun].
    + intros; apply Hw; [set_solver | done].
    + intros s' g' res' Hg' Hk'. eapply Hk; [|exact Hk'].
      apply Hw; [set_solver | done].
Qed.

End matcher_lemmas.

(** ** The splitter's pattern *)

Section splitter_lemmas.
Import PyStr Re.

Lemma consumed_drop_while p s : consumed s (drop_while p s) = take_while p s.
Proof.
  unfold consumed. induction s as [|c s IH]; simpl; [done|].
  destruct (p c); simpl.
  - pose proof (length_drop_while p s).
    replace (S (String.length s) - String.length (drop_while p s))
      with (S (String.length s - String.length (drop_while p s))) by lia.
    simpl. by rewrite IH.
  - by rewrite Nat.sub_diag.
Qed.

Lemma star_inv_length {R} p s (k : string -> option R) x :
  star p s k = Some x ->
  exists s', String.length s' <= String.length s /\ k s' = Some x.
Proof.
  induction s as [|c s IH]; simpl.
  { intros H. exists EmptyString. by split. }
  destruct (p c).
  - intros [H|H]%or_else_inv.
    + destruct (IH H) as (s' & Hlen & Hk). exists s'. split; [lia | done].
    + exists (String c s). by split.
  - intros H. exists (String c s). by split.
Qed.

Lemma accept_inv s g m : accept s g = Some m -> m = g.
Proof. unfold accept. congruence. Qed.

(** A condition clause that took part in the match begins with the
    semicolon. *)
Lemma condition_clause_shape s g m :
  g !! 3 = None ->
  run condition_clause s g accept = Some m ->
  forall c, m !! 3 = Some c -> starts_with (is_char ";"%char) c = true.
Proof.
  intros Hg Hrun c Hc. unfold condition_clause in Hrun. simpl in Hrun.
  apply or_else_inv in Hrun as [Hrun|Hrun].
  - destruct s as [|a [|b s]]; try done.
    + by destruct (is_char ";"%char a).
    + destruct (is_char ";"%char a) eqn:Ha; [|done].
      destruct (is_dot b); [|done].
      apply star_inv_length in Hrun as (s' & Hlen & Hk).
      apply accept_inv in Hk as ->. rewrite lookup_insert_eq in Hc.
      simplify_eq. unfold consumed. simpl.
      destruct (S (S (String.length s)) - String.length s') eqn:E; [lia|].
      done.
  - apply accept_inv in Hrun as ->. congruence.
Qed.

(** On a specifier that begins with a name character the pattern
    matches, and group 1 is the longest leading run of name characters. *)
Lemma dependency_pattern_matches s :
  starts_with is_name_char s = true ->
  exists m, rmatch dependency_pattern s = Some m
            /\ m !! 1 = Some (take_while is_name_char s)
            /\ (forall c, m !! 3 = Some c ->
                  starts_with (is_char ";"%char) c = true).
Proof.
  intros Hs. destruct s as [|c rest]; [done|]. simpl in Hs.
  set (s := String c rest).
  set (k := fun s' g' =>
              run (Seq extras_clause (Seq comparator_clause condition_clause))
                s' (<[1:=consumed s s']> g') accept).
  assert (Hrun : rmatch dependency_pattern s = star is_name_char rest (fun s' => k s' ∅)).
  { unfold rmatch, dependency_pattern, name_clause, s. simpl. by rewrite Hs. }
  destruct (run_nullable_total
              (Seq extras_clause (Seq comparator_clause condition_clause))
              eq_refl (drop_while is_name_char rest)
              (<[1:=consumed s (drop_while is_name_char rest)]> ∅) accept)
    as [m Hm]; [by eauto|].
  assert (Hcons : consumed s (drop_while is_name_char rest)
                  = take_while is_name_char s).
  { rewrite <- consumed_drop_while. unfold s. simpl. by rewrite Hs. }
  exists m. split; [|split].
  - rewrite Hrun. by apply star_greedy.
  - eapply (run_invariant (fun g => g !! 1 = Some (take_while is_name_char s))
              (fun m => m !! 1 = Some (take_while is_name_char s)));
      [| |by intros s' g' res' Hg' ->%(accept_inv s')|exact Hm].
    + simpl. intros i x g Hi Hg. rewrite lookup_insert_ne; [done|].
      intros ->. rewrite !elem_of_cons, elem_of_nil in Hi. lia.
    + by rewrite Hcons, lookup_insert_eq.
  - change (run (Seq extras_clause (Seq comparator_clause condition_clause))
              (drop_while is_name_char rest)
              (<[1:=consumed s (drop_while is_name_char rest)]> ∅) accept)
      with (run (Seq extras_clause comparator_clause)
              (drop_while is_name_char rest)
              (<[1:=consumed s (drop_while is_name_char rest)]> ∅)
              (fun s' g' => run condition_clause s' g' accept)) in Hm.
    eapply (run_invariant (fun g => g !! 3 = None)
              (fun m => forall c, m !! 3 = Some c ->
                          starts_with (is_char ";"%char) c = true));
      [| |exact condition_clause_shape|exact Hm].
    + simpl. intros i x g Hi Hg. rewrite lookup_insert_ne; [done|].
      intros ->. rewrite !elem_of_cons, elem_of_nil in Hi. lia.
    + by rewrite lookup_insert_ne.
Qed.

Lemma dependency_pattern_fails s :
  starts_with is_name_char s = false -> rmatch dependency_pattern s = None.
Proof.
  intros Hs. unfold rmatch, dependency_pattern, name_clause. simpl.
  destruct s as [|c rest]; [done|]. simpl in Hs. by rewrite Hs.
Qed.

End splitter_lemmas.

(** ** The specifier splitter *)

Section splitter.
Import PyStr Re.

Lemma starts_truthy p s : starts_with p s = true -> truthy s = true.
Proof. by destruct s. Qed.

(** C1, evaluated: on each of the four documented specifiers the splitter
    returns the bare name with version [Unknown]; the comparator clause
    and the environment condition of the specifier are lost. *)
Theorem split_dependency_documented_specifiers :
  split_dependency "pkg==1.0" = ("pkg", "Unknown")
  /\ split_dependency "pkg>=1.0" = ("pkg", "Unknown")
  /\ split_dependency "pkg" = ("pkg", "Unknown")
  /\ split_dependency "pkg[extra]>=1.0; python_version>='3.8'"
     = ("pkg", "Unknown").
Proof. by vm_compute. Qed.

(** The comparator group of the pattern takes one comparator character,
    exactly one white space character and the version: only specifiers
    written that way keep their version. *)
Example split_dependency_spaced_comparator :
  (.!! 2) <$> rmatch dependency_pattern "pkg> 1.0" = Some (Some "> 1.0")
  /\ split_dependency "pkg> 1.0" = ("pkg", "> 1.0")
  /\ split_dependency "pkg[extra]= 1.0; python_version>='3.8'"
     = ("pkg", "= 1.0 ; python_version>='3.8'").
Proof. by vm_compute. Qed.

(** C5 as stated fails: a specifier with an environment condition and no
    comparator clause gets the condition as its version. *)
Lemma split_dependency_condition_only :
  ~ (forall dep m,
       rmatch dependency_pattern (strip dep) = Some m ->
       m !! 2 = None ->
       snd (split_dependency dep) = "Unknown").
Proof.
  intros H.
  destruct (rmatch dependency_pattern (strip "pkg; python_version>='3.8'"))
    as [m|] eqn:Hm; [|by vm_compute in Hm].
  specialize (H "pkg; python_version>='3.8'" m Hm).
  assert (Hm2 : m !! 2 = None).
  { vm_compute in Hm. by injection Hm as <-. }
  specialize (H Hm2). by vm_compute in H.
Qed.

(** C10: the match is a prefix match.  When the stripped specifier begins
    with a word character or a hyphen the pattern matches and the package
    is the longest leading run of such characters; [pkg.name==1.0] is cut
    at the dot; the fallback that returns the specifier itself is taken
    exactly when the stripped specifier does not begin with such a
    character, as the empty string. *)
Theorem split_dependency_prefix_match :
  (forall dep,
      starts_with is_name_char (strip dep) = true ->
      exists m rest,
        rmatch dependency_pattern (strip dep) = Some m
        /\ fst (split_dependency dep) = take_while is_name_char (strip dep)
        /\ strip dep = fst (split_dependency dep) +:+ rest
        /\ (forall c, In c (list_ascii_of_string (fst (split_dependency dep)))
                      -> is_name_char c = true)
        /\ starts_with is_name_char rest = false)
  /\ split_dependency "pkg.name==1.0" = ("pkg", "Unknown")
  /\ (forall dep,
        rmatch dependency_pattern (strip dep) = None
        <-> starts_with is_name_char (strip dep) = false)
  /\ (forall dep,
        starts_with is_name_char (strip dep) = false ->
        split_dependency dep = (dep, "Unknown"))
  /\ split_dependency "" = ("", "Unknown").
Proof.
  split; [|split; [by vm_compute|split; [|split; [|by vm_compute]]]].
  - intros dep Hs.
    destruct (dependency_pattern_matches _ Hs) as (m & Hm & H1 & _).
    assert (Hfst : fst (split_dependency dep)
                   = take_while is_name_char (strip dep)).
    { unfold split_dependency, group_or_empty. rewrite Hm. simpl.
      by rewrite H1. }
    exists m, (drop_while is_name_char (strip dep)).
    rewrite Hfst. repeat split.
    + done.
    + by rewrite take_drop_while.
    + apply take_while_all.
    + apply drop_while_stops.
  - intros dep. split.
    + intros Hm. destruct (starts_with is_name_char (strip dep)) eqn:Hs; [|done].
      destruct (dependency_pattern_matches _ Hs) as (m & Hm' & _). congruence.
    + apply dependency_pattern_fails.
  - intros dep Hs. unfold split_dependency.
    by rewrite (dependency_pattern_fails _ Hs).
Qed.

Lemma split_dependency_prefix_match_witness :
  exists m rest,
    rmatch dependency_pattern (strip "pkg.name==1.0") = Some m
    /\ fst (split_dependency "pkg.name==1.0")
       = take_while is_name_char (strip "pkg.name==1.0")
    /\ strip "pkg.name==1.0" = fst (split_dependency "pkg.name==1.0") +:+ rest
    /\ (forall c,
           In c (list_ascii_of_string (fst (split_dependency "pkg.name==1.0")))
           -> is_name_char c = true)
    /\ starts_with is_name_char rest = false.
Proof.
  apply (proj1 split_dependency_prefix_match "pkg.name==1.0").
  reflexivity.
Defined.

End splitter.

(** ** Loops over an accumulator *)

Section loops.
Context {X Y : Type}.

(** A loop whose body only appends a block per element appends the
    blocks in order and does not raise. *)
Lemma for_each_blocks (body : Y -> stmt (list X) unit) (block : Y -> list X)
    (l : list Y) :
  (forall y, In y l -> forall st, body y st = (Ok tt, st ++ block y)) ->
  forall st, for_each l body st = (Ok tt, st ++ flat_map block l).
Proof.
  induction l as [|y l IH]; intros Hbody st; simpl.
  - by rewrite app_nil_r.
  - unfold bind. rewrite Hbody by (by left).
    rewrite IH by (intros; apply Hbody; by right).
    by rewrite app_assoc.
Qed.

Lemma flat_map_singleton (f : Y -> X) (l : list Y) :
  flat_map (fun y => [f y]) l = f <$> l.
Proof. induction l as [|y l IH]; simpl; [done|by f_equal]. Qed.

Lemma for_each_append (body : Y -> stmt (list X) unit) (f : Y -> X)
    (l : list Y) :
  (forall y, body y = append (f y)) ->
  forall st, for_each l body st = (Ok tt, st ++ (f <$> l)).
Proof.
  intros Hbody st.
  rewrite (for_each_blocks body (fun y => [f y])).
  - by rewrite flat_map_singleton.
  - intros y _ st'. by rewrite Hbody.
Qed.

End loops.

(** ** The usage visitor and its driver *)

Section usage_analysis.
Context (H : Host).

Lemma fold_imports_append (f : alias -> string * Z) names v :
  fold_left (fun v a => imports_append (f a) v) names v
  = Visitor (imports v ++ (f <$> names)) (usage v).
Proof.
  revert v. induction names as [|a names IH]; intros v; simpl.
  - rewrite app_nil_r. by destruct v.
  - rewrite IH. simpl. by rewrite <- app_assoc.
Qed.

(** One turn of the inner loop of [analyze_repo] appends the records of
    its file. *)
Lemma analyze_file_step root file st :
  (PyStr.endswith file ".py" = true ->
   exists f, open_text H (source_path H root file) = Ok f) ->
  (if PyStr.endswith file ".py" then
     let file_path := path_normpath H (path_join H root file) in
     f <- lift (open_text H file_path) ;;
     try_except
       (source <- lift (f_read f) ;;
        tree <- lift (ast_parse H source file_path) ;;
        visitor <- lift (visitor_visit H tree new_visitor) ;;
        for_each (imports visitor) (fun '(module, line) =>
          append (file_path, "import", module, line)) ;;
        for_each (usage visitor) (fun '(symbol, line) =>
          append (file_path, "usage", symbol, line)))
       (fun e => append (file_path, "error", exn_str e, (-1)%Z))
   else pass)%stmt st
  = (Ok tt, st ++ file_records H root file).
Proof.
  intros Hopen. unfold file_records.
  destruct (PyStr.endswith file ".py"); [|by rewrite app_nil_r].
  destruct (Hopen eq_refl) as [f Hf]. fold (source_path H root file).
  simpl. unfold bind at 1, lift at 1. rewrite Hf.
  unfold try_except, file_block, visit_source, parse_source, bind, lift.
  destruct (f_read f) as [source|e]; [|done].
  destruct (ast_parse H source (source_path H root file)) as [tree|e]; [|done].
  destruct (visitor_visit H tree new_visitor) as [visitor|e]; [|done].
  rewrite (for_each_append _ (import_record (source_path H root file)))
    by (by intros []).
  rewrite (for_each_append _ (usage_entry (source_path H root file)))
    by (by intros []).
  by rewrite app_assoc.
Qed.

(** When every source file opens, the driver returns the blocks of the
    files in walk order. *)
Lemma analyze_repo_blocks repo_path :
  sources_open H (os_walk H repo_path) ->
  analyze_repo H repo_path = Ok (walk_records H (os_walk H repo_path)).
Proof.
  intros Hopen. unfold analyze_repo, analyze_repo_block, walk_records.
  rewrite (for_each_blocks _
             (fun '(root, _, files) => flat_map (file_records H root) files)).
  { done. }
  intros [[root dirs] files] Hin st.
  apply for_each_blocks. intros file Hfile st'.
  apply analyze_file_step. intros Hpy. by eapply Hopen.
Qed.

Lemma all_sources_open_sound walk :
  all_sources_open H walk = true -> sources_open H walk.
Proof.
  unfold all_sources_open, sources_open.
  rewrite forallb_forall. intros Hall root dirs files file Hdir Hfile Hpy.
  specialize (Hall _ Hdir). simpl in Hall.
  rewrite forallb_forall in Hall. specialize (Hall _ Hfile).
  rewrite Hpy in Hall. simpl in Hall.
  destruct (open_text H (source_path H root file)); [eauto|done].
Qed.

Lemma walk_records_app w1 w2 :
  walk_records H (w1 ++ w2) = walk_records H w1 ++ walk_records H w2.
Proof. unfold walk_records. by rewrite flat_map_app. Qed.

Lemma walk_records_cons root dirs files w :
  walk_records H ((root, dirs, files) :: w)
  = flat_map (file_records H root) files ++ walk_records H w.
Proof. done. Qed.

End usage_analysis.

Section usage_driver.
Import PyStr.

(** C9: a relative import without a module part, such as
    [from . import X], is visited like any other: for each imported name
    the visitor appends the symbol [None.X] with the line of the
    statement; nothing is skipped and nothing fails. *)
Theorem visit_relative_import names level lineno v :
  visit (ast_ImportFrom None names level lineno) v
  = Visitor
      (imports v ++ ((fun a => ("None." +:+ alias_name a, lineno)) <$> names))
      (usage v)
  /\ visit (ast_Other [ast_ImportFrom None [Alias "X" None] 1 lineno])
       new_visitor
     = Visitor [("None.X", lineno)] [].
Proof.
  split; [|reflexivity]. simpl.
  apply (fold_imports_append
           (fun a => (format_opt None +:+ "." +:+ alias_name a, lineno))).
Qed.

(** C4 as stated fails: in a module with a usage on line 1 and an import
    on line 2 the import record comes first. *)
Lemma analyze_repo_not_in_line_order :
  ~ (forall H repo_path results,
       analyze_repo H repo_path = Ok results -> in_line_order results).
Proof.
  intros Horder.
  assert (Hrun : analyze_repo Sample.one_module "repo"
                 = Ok [("repo/mod.py", "import", "json", 2%Z);
                       ("repo/mod.py", "usage", "obj.method", 1%Z)])
    by (vm_compute; reflexivity).
  specialize (Horder _ _ _ Hrun 0 1 _ _ ltac:(lia) eq_refl eq_refl eq_refl).
  simpl in Horder. lia.
Qed.

(** C4, amended: the records are grouped by file in walk order; the
    block of a file that parses and whose tree the visitor gets through
    holds all its import records, in the order the visitor met them, and
    then all its usage records, in the order the visitor met them; the
    block of a file that does not parse, or whose tree is nested too deep
    for the recursion of the visitor, is its one error record. *)
Theorem analyze_repo_discovery_order H repo_path :
  sources_open H (os_walk H repo_path) ->
  analyze_repo H repo_path = Ok (walk_records H (os_walk H repo_path))
  /\ (forall root file f tree,
        endswith file ".py" = true ->
        open_text H (source_path H root file) = Ok f ->
        parse_source H (source_path H root file) f = Ok tree ->
        recursion_error H tree = None ->
        file_records H root file
        = (import_record (source_path H root file)
             <$> imports (visit tree new_visitor))
          ++ (usage_entry (source_path H root file)
                <$> usage (visit tree new_visitor)))
  /\ (forall root file f e,
        endswith file ".py" = true ->
        open_text H (source_path H root file) = Ok f ->
        parse_source H (source_path H root file) f = Raise e
        \/ (exists tree,
              parse_source H (source_path H root file) f = Ok tree
              /\ recursion_error H tree = Some e) ->
        file_records H root file = [error_record (source_path H root file) e]).
Proof.
  intros Hopen. split; [by apply analyze_repo_blocks|]. split.
  - intros root file f tree Hpy Hf Htree Hdeep.
    unfold file_records, file_block, visit_source, visitor_visit.
    by rewrite Hpy, Hf, Htree, Hdeep.
  - intros root file f e Hpy Hf Hfail.
    unfold file_records, file_block, visit_source, visitor_visit.
    rewrite Hpy, Hf.
    destruct Hfail as [->|(tree & -> & ->)]; done.
Qed.

Lemma analyze_repo_discovery_order_witness :
  sources_open Sample.one_module (os_walk Sample.one_module "repo")
  /\ analyze_repo Sample.one_module "repo"
     = Ok [("repo/mod.py", "import", "json", 2%Z);
           ("repo/mod.py", "usage", "obj.method", 1%Z)].
Proof.
  assert (Hopen : sources_open Sample.one_module
                    (os_walk Sample.one_module "repo"))
    by (by apply all_sources_open_sound).
  split; [exact Hopen|].
  rewrite (proj1 (analyze_repo_discovery_order Sample.one_module "repo" Hopen)).
  reflexivity.
Defined.

(** A source file that opens but whose text does not parse adds exactly
    one record, of category [error], with the message of the exception as
    symbol and line -1, and no import or usage record; when every source
    file of the walk opens, the files before and after it add their own
    records and the scan returns. *)
Lemma analyze_repo_parse_failure H repo_path
    before root dirs files1 file files2 after f e :
  os_walk H repo_path
  = before ++ (root, dirs, files1 ++ file :: files2) :: after ->
  sources_open H (os_walk H repo_path) ->
  endswith file ".py" = true ->
  open_text H (source_path H root file) = Ok f ->
  parse_source H (source_path H root file) f = Raise e ->
  analyze_repo H repo_path
  = Ok (walk_records H before
        ++ (flat_map (file_records H root) files1
            ++ [(source_path H root file, "error", exn_str e, (-1)%Z)]
            ++ flat_map (file_records H root) files2)
        ++ walk_records H after).
Proof.
  intros Hwalk Hopen Hpy Hf Hparse.
  rewrite (analyze_repo_blocks H repo_path Hopen), Hwalk.
  rewrite walk_records_app, walk_records_cons, flat_map_app. simpl.
  unfold file_records at 2. rewrite Hpy, Hf.
  unfold file_block, visit_source. rewrite Hparse. done.
Qed.

(** C6, evaluated: [open] stands outside the [try] statement, so a parse
    failure is recorded and the scan goes on only as long as the files
    after it open.  In a repository whose first module does not parse and
    whose second module cannot be opened, the exception of [open] leaves
    [analyze_repo]: the scan aborts, and the error record of the first
    module, which [results] held by then, is lost with it.  Where every
    module opens, the scan returns the error record and the records of the
    modules after it. *)
Theorem analyze_repo_aborts_after_parse_failure :
  analyze_repo Fixture.broken_then_unopenable "repo"
  = Raise (Exception "No such file or directory")
  /\ (analyze_repo_block Fixture.broken_then_unopenable "repo" []).2
     = [("repo/broken.py", "error", "invalid syntax (broken.py, line 1)",
         (-1)%Z)]
  /\ analyze_repo Sample.broken_first "repo"
     = Ok [("repo/broken.py", "error", "invalid syntax (broken.py, line 1)",
            (-1)%Z);
           ("repo/pkg/ok.py", "import", "json", 1%Z);
           ("repo/pkg/ok.py", "usage", "obj.method", 2%Z)].
Proof. by vm_compute. Qed.

(** A module whose tree is nested deeper than the recursion limit allows
    is recorded like one that does not parse. *)
Example analyze_repo_deep_module :
  analyze_repo Fixture.with_deep_module "repo"
  = Ok [("repo/deep.py", "error", "maximum recursion depth exceeded", (-1)%Z);
        ("repo/ok.py", "import", "json", 1%Z);
        ("repo/ok.py", "usage", "obj.method", 2%Z)].
Proof. by vm_compute. Qed.

End usage_driver.

(** ** Manifest parsers *)

Section manifest_parsers.
Context (H : Host).

Lemma py_in_present key items v :
  assoc key items = Some v -> py_in key (TTable items) = Ok true.
Proof.
  intros Hk. simpl. rewrite Hk. by rewrite bool_decide_eq_true_2.
Qed.

Lemma py_in_absent key items :
  assoc key items = None -> py_in key (TTable items) = Ok false.
Proof.
  intros Hk. simpl. rewrite Hk. rewrite bool_decide_eq_false_2; [done|].
  by intros [? ?].
Qed.

Lemma py_getitem_present key items v :
  assoc key items = Some v -> py_getitem key (TTable items) = Ok v.
Proof. intros Hk. simpl. by rewrite Hk. Qed.

(** One turn of the loop over the sections of the build-tool table. *)
Lemma poetry_section_step path poetry section items st :
  section_items poetry section = Some items ->
  (present <- lift (py_in section (TTable poetry)) ;;
   if present : bool then
     table <- lift (py_getitem section (TTable poetry)) ;;
     items <- lift (py_items table) ;;
     for_each items (fun '(package, version) =>
       let '(package, version) :=
         split_dependency (package +:+ format_value H version) in
       append (path, package, version))
   else pass)%stmt st
  = (Ok tt, st ++ (poetry_record H path <$> items)).
Proof.
  unfold section_items. intros Hsec. unfold bind at 1, lift at 1.
  destruct (assoc section poetry) as [v|] eqn:Hv.
  - rewrite (py_in_present _ _ _ Hv).
    unfold bind, lift. rewrite (py_getitem_present _ _ _ Hv).
    destruct v; try done. injection Hsec as ->. simpl.
    apply for_each_append. intros [package version].
    unfold poetry_record. simpl. by destruct (split_dependency _).
  - rewrite (py_in_absent _ _ Hv). injection Hsec as <-.
    simpl. by rewrite app_nil_r.
Qed.

(** The project metadata parser returns in every case. *)
Lemma extract_pyproject_dependencies_returns path :
  exists deps, extract_pyproject_dependencies H path = Ok deps.
Proof.
  unfold extract_pyproject_dependencies, run_function, try_except, bind.
  destruct (pyproject_block H path []) as [[[]|e] st]; simpl; eauto.
Qed.

Lemma bind_lift_ok {S A B} (a : A) (k : A -> stmt S B) :
  bind (lift (Ok a)) k = k a.
Proof. reflexivity. Qed.

Lemma bind_ret {S A B} (a : A) (k : A -> stmt S B) : bind (ret a) k = k a.
Proof. reflexivity. Qed.

Lemma py_in_in_present {S} key1 key2 items inner v :
  assoc key1 items = Some (TTable inner) ->
  assoc key2 inner = Some v ->
  @py_in_in S key1 key2 (TTable items) = ret true.
Proof.
  intros H1 H2. unfold py_in_in.
  rewrite (py_in_present _ _ _ H1), bind_lift_ok.
  rewrite (py_getitem_present _ _ _ H1), bind_lift_ok.
  by rewrite (py_in_present _ _ _ H2).
Qed.

Lemma py_in_in_absent {S} key1 key2 items :
  assoc key1 items = None
  \/ (exists inner, assoc key1 items = Some (TTable inner)
                    /\ assoc key2 inner = None) ->
  @py_in_in S key1 key2 (TTable items) = ret false.
Proof.
  intros [H1|(inner & H1 & H2)]; unfold py_in_in.
  - by rewrite (py_in_absent _ _ H1), bind_lift_ok.
  - rewrite (py_in_present _ _ _ H1), bind_lift_ok.
    rewrite (py_getitem_present _ _ _ H1), bind_lift_ok.
    by rewrite (py_in_absent _ _ H2).
Qed.

(** The statements after the load, run on a document with a build-tool
    table, append the entries of that table, its [dependencies] section
    and then its [dev-dependencies] section, whatever the standard list
    holds; they read the standard list when there is no build-tool
    table. *)
Lemma pyproject_entries_precedence path data :
  (forall tool poetry deps dev,
      assoc "tool" data = Some (TTable tool) ->
      assoc "poetry" tool = Some (TTable poetry) ->
      section_items poetry "dependencies" = Some deps ->
      section_items poetry "dev-dependencies" = Some dev ->
      pyproject_entries H path (TTable data) []
      = (Ok tt, (poetry_record H path <$> deps)
                ++ (poetry_record H path <$> dev)))
  /\ (forall project specs,
        assoc "tool" data = None
        \/ (exists tool, assoc "tool" data = Some (TTable tool)
                         /\ assoc "poetry" tool = None) ->
        assoc "project" data = Some (TTable project) ->
        assoc "dependencies" project = Some (TList (TStr <$> specs)) ->
        pyproject_entries H path (TTable data) []
        = (Ok tt, project_record path <$> specs)).
Proof.
  split.
  - intros tool poetry deps dev Htool Hpoetry Hdeps Hdev.
    unfold pyproject_entries.
    rewrite (py_in_in_present _ _ _ _ _ Htool Hpoetry), bind_ret.
    rewrite (py_getitem_present _ _ _ Htool), bind_lift_ok.
    rewrite (py_getitem_present _ _ _ Hpoetry), bind_lift_ok.
    simpl. unfold bind at 1.
    rewrite (poetry_section_step _ _ _ _ _ Hdeps).
    unfold bind at 1.
    by rewrite (poetry_section_step _ _ _ _ _ Hdev).
  - intros project specs Hno Hproject Hlist.
    unfold pyproject_entries.
    rewrite (py_in_in_absent _ _ _ Hno), bind_ret.
    rewrite (py_in_in_present _ _ _ _ _ Hproject Hlist), bind_ret.
    rewrite (py_getitem_present _ _ _ Hproject), bind_lift_ok.
    rewrite (py_getitem_present _ _ _ Hlist), bind_lift_ok.
    simpl. rewrite bind_lift_ok.
    rewrite (for_each_blocks _ (fun dep =>
               match dep with
               | TStr spec => [project_record path spec]
               | _ => []
               end)).
    + f_equal. clear. simpl.
      induction specs as [|spec specs IH]; [done|].
      simpl. f_equal. exact IH.
    + intros dep Hdep st. apply in_map_iff in Hdep as (spec & <- & _).
      simpl. unfold bind, lift, project_record.
      by destruct (split_dependency spec).
Qed.

(** The parsers that hand a path to the TOML loader return the empty
    list: the load raises and the handler takes it. *)
Lemma toml_path_parsers_empty path :
  extract_pyproject_dependencies H path = Ok [].
Proof. reflexivity. Qed.

(** C7, evaluated: the project metadata parser hands the path of the file
    to [load], which takes an open binary file; the load raises before the
    document is looked at, the handler takes the exception and the parser
    returns the empty list, for a file with a build-tool table and a
    standard list as for any other.  The statements after the load would
    give the entries of the build-tool table, as the claim says. *)
Theorem extract_pyproject_load_raises path :
  (exists e, toml_load_path path = Raise e)
  /\ extract_pyproject_dependencies H path = Ok []
  /\ (pyproject_entries H path Sample.both_tables []).2
     = [(path, "python", "Unknown");
        (path, "requests", "= 2.31");
        (path, "pytest", "Unknown")].
Proof.
  split; [by eexists|]. split; [apply toml_path_parsers_empty|].
  by vm_compute.
Qed.

End manifest_parsers.

(** [ast.walk] yields every node of the tree: the bound on the queue loop
    never cuts the walk short. *)
Lemma count_all_app l1 l2 : count_all (l1 ++ l2) = count_all l1 + count_all l2.
Proof.
  unfold count_all. induction l1 as [|n l1 IH]; simpl; [done|].
  rewrite IH. lia.
Qed.

Lemma node_count_children n : node_count n = S (count_all (child_nodes n)).
Proof.
  destruct n as [| | | |func args keywords lineno| | | |]; simpl; try done.
  pose proof (count_all_app args keywords) as Happ.
  unfold count_all in *. simpl. lia.
Qed.

Lemma walk_queue_length fuel todo :
  count_all todo <= fuel -> length (walk_queue fuel todo) = count_all todo.
Proof.
  revert todo. induction fuel as [|fuel IH]; intros [|n todo] Hfuel;
    try done.
  - change (count_all (n :: todo)) with (node_count n + count_all todo) in Hfuel.
    rewrite node_count_children in Hfuel. lia.
  - change (count_all (n :: todo)) with (node_count n + count_all todo) in *.
    rewrite node_count_children in *. simpl.
    rewrite IH; rewrite count_all_app; lia.
Qed.

Lemma ast_walk_length n : length (ast_walk n) = node_count n.
Proof.
  unfold ast_walk. rewrite walk_queue_length; unfold count_all; simpl; lia.
Qed.

(** Without the build-tool table the statements after the load read the
    standard list of the same file. *)
Example pyproject_entries_standard_only :
  pyproject_entries Sample.one_module "repo/pyproject.toml"
    Sample.standard_only []
  = (Ok tt, [("repo/pyproject.toml", "flask", "Unknown")]).
Proof. by vm_compute. Qed.

Section setup_parser.
Context (H : Host).

(** C3, evaluated: [parse_setup_py] has no handler of its own.  When the
    packaging script cannot be opened, or is opened and cannot be read or
    parsed, the exception leaves the parser; the parser of the project
    metadata file returns a list on every path, as the other parsers with
    a handler do. *)
Theorem parse_setup_py_propagates file_path e :
  open_text H file_path = Raise e
  \/ (exists f, open_text H file_path = Ok f
                /\ parse_source H "<unknown>" f = Raise e) ->
  parse_setup_py H file_path = Raise e
  /\ exists deps, extract_pyproject_dependencies H file_path = Ok deps.
Proof.
  intros Hfail. split; [|apply extract_pyproject_dependencies_returns].
  unfold parse_setup_py, run_function, bind, lift.
  destruct Hfail as [Hopen|(f & Hopen & Hparse)]; rewrite Hopen; [done|].
  unfold parse_source in Hparse.
  destruct (f_read f) as [content|e']; [|by injection Hparse as ->].
  by rewrite Hparse.
Qed.

End setup_parser.

Lemma parse_setup_py_propagates_witness :
  parse_setup_py Sample.broken_manifests "repo/setup.py"
  = Raise Sample.setup_error
  /\ extract_pyproject_dependencies Sample.broken_manifests
       "repo/pyproject.toml" = Ok [].
Proof.
  split.
  - apply (parse_setup_py_propagates Sample.broken_manifests "repo/setup.py").
    right. eexists. split; reflexivity.
  - reflexivity.
Defined.

(** A packaging script that opens and parses gives its [install_requires]
    entries. *)
Example parse_setup_py_install_requires :
  parse_setup_py Sample.good_setup "repo/setup.py"
  = Ok [("repo/setup.py", "flask", "> 2.0");
        ("repo/setup.py", "requests", "Unknown")].
Proof. by vm_compute. Qed.

(** ** The inline import scanner *)

(** What the probe answers: a module passes as not builtin exactly when it
    is absent from the registry and the interpreter can locate it. *)
Lemma is_builtin_module_false H module_name :
  is_builtin_module H module_name = Ok false
  <-> (module_name ∉ builtin_module_names H)
      /\ exists spec, find_spec H module_name = Ok (Some spec).
Proof.
  unfold is_builtin_module. case_bool_decide as Hin.
  - split; [done|]. by intros [? _].
  - destruct (find_spec H module_name) as [[spec|]|e]; simpl.
    + split; [eauto|done].
    + split; [done|]. by intros (_ & ? & ?).
    + split; [done|]. by intros (_ & ? & ?).
Qed.

(** C2, evaluated: for a module that imports [os] and [requests], scanned
    by an interpreter without [requests], the scanner keeps [os], which the
    interpreter locates, and drops [requests], which it cannot locate; where
    [requests] is installed both are kept.  A name is kept exactly when it
    is absent from the registry and can be located. *)
Theorem scanner_keeps_locatable_modules :
  extract_python_file_dependencies Sample.fresh_interpreter "proj" "Python"
  = Ok [("proj/app.py", "os", "Python")]
  /\ (exists deps,
        extract_python_file_dependencies Sample.project_interpreter
          "proj" "Python" = Ok deps
        /\ ("proj/app.py", "os", "Python") ∈ deps
        /\ ("proj/app.py", "requests", "Python") ∈ deps)
  /\ is_builtin_module Sample.fresh_interpreter "os" = Ok false
  /\ is_builtin_module Sample.fresh_interpreter "requests" = Ok true.
Proof.
  split; [by vm_compute|]. split; [|by vm_compute].
  eexists. split; [by vm_compute|]. split.
  - apply list_elem_of_here.
  - apply list_elem_of_further, list_elem_of_here.
Qed.

(** * Further properties *)

(** ** Strings, continued *)

Section string_lemmas_2.
Import PyStr.

Lemma append_cons c a b : String c a +:+ b = String c (a +:+ b).
Proof. reflexivity. Qed.

Lemma append_empty_r a : a +:+ "" = a.
Proof. induction a as [|c a IH]; [done|]. by rewrite append_cons, IH. Qed.

Lemma append_assoc a b c : (a +:+ b) +:+ c = a +:+ (b +:+ c).
Proof. induction a as [|x a IH]; [done|]. by rewrite !append_cons, IH. Qed.

(** A string made of characters of a class only. *)
Lemma take_while_app p a b :
  take_while p a = a -> starts_with p b = false ->
  take_while p (a +:+ b) = a /\ drop_while p (a +:+ b) = b.
Proof.
  intros Ha Hb. induction a as [|c a IH].
  - destruct b as [|d b]; [done|]. simpl in Hb.
    change ("" +:+ String d b) with (String d b). simpl. by rewrite Hb.
  - rewrite append_cons. simpl in *. destruct (p c); [|done].
    injection Ha as Ha. destruct (IH Ha) as [-> ->]. done.
Qed.

Lemma starts_with_app p a b :
  starts_with p a = true -> starts_with p (a +:+ b) = true.
Proof. by destruct a. Qed.

Lemma starts_with_impl (p q : ascii -> bool) s :
  (forall c, p c = true -> q c = false) ->
  starts_with p s = true -> starts_with q s = false.
Proof. intros Hpq. destruct s; [done|]. simpl. apply Hpq. Qed.

Lemma rstrip_starts_false p s :
  starts_with p s = false -> starts_with p (rstrip s) = false.
Proof.
  destruct s as [|c s]; [done|]. simpl.
  destruct (is_space c && is_empty (rstrip s)); [done|]. done.
Qed.

Lemma rstrip_app a b :
  rstrip (a +:+ b)
  = if is_empty (rstrip b) then rstrip a else a +:+ rstrip b.
Proof.
  induction a as [|c a IH].
  - change ("" +:+ b) with b. by destruct (rstrip b).
  - rewrite append_cons. simpl. rewrite IH.
    destruct (is_empty (rstrip b)) eqn:Hb; [done|].
    rewrite append_cons.
    destruct (a +:+ rstrip b) eqn:E.
    + destruct a; [|done]. change ("" +:+ rstrip b) with (rstrip b) in E.
      by rewrite E in Hb.
    + by rewrite andb_false_r.
Qed.

(** A string without white space at its right end stays whole in front of
    what [rstrip] leaves of a continuation. *)
Lemma rstrip_app_fixed a b : rstrip a = a -> rstrip (a +:+ b) = a +:+ rstrip b.
Proof.
  intros Ha. rewrite rstrip_app, Ha.
  destruct (rstrip b); [|done]. by rewrite append_empty_r.
Qed.

Lemma rstrip_no_space s :
  take_while (fun c => negb (is_space c)) s = s -> rstrip s = s.
Proof.
  induction s as [|c s IH]; [done|]. simpl.
  destruct (is_space c); simpl; [done|].
  intros [= Hs]. by rewrite (IH Hs).
Qed.

Lemma take_while_weaken (p q : ascii -> bool) s :
  (forall c, p c = true -> q c = true) ->
  take_while p s = s -> take_while q s = s.
Proof.
  intros Hpq. induction s as [|c s IH]; [done|]. simpl.
  destruct (p c) eqn:Hp; [|done]. rewrite (Hpq _ Hp).
  intros [= Hs]. by rewrite (IH Hs).
Qed.

(** [strip] of a text that begins with a character that is no white
    space. *)
Lemma strip_app_fixed a b :
  starts_with is_space a = false -> a <> "" -> rstrip a = a ->
  strip (a +:+ b) = a +:+ rstrip b.
Proof.
  intros Ha Hne Hr. unfold strip. rewrite lstrip_id.
  - by apply rstrip_app_fixed.
  - destruct a; [done|]. done.
Qed.

End string_lemmas_2.

(** ** The splitter's pattern, clause by clause *)

Section clauses.
Import PyStr Re.

Lemma rmatch_dependency_unfold c rest :
  is_name_char c = true ->
  rmatch dependency_pattern (String c rest)
  = star is_name_char rest
      (fun s' => run tail_clauses s' (<[1:=consumed (String c rest) s']> ∅) accept).
Proof.
  intros Hc. unfold rmatch, dependency_pattern, name_clause. simpl.
  by rewrite Hc.
Qed.

(** After a name made of name characters only, followed by a text that
    does not go on with a name character, the match continues at that text
    with the name as group 1. *)
Lemma rmatch_name_prefix name r :
  starts_with is_name_char name = true ->
  take_while is_name_char name = name ->
  starts_with is_name_char r = false ->
  rmatch dependency_pattern (name +:+ r)
  = run tail_clauses r (<[1:=name]> ∅) accept.
Proof.
  intros Hs Hname Hr.
  destruct (take_while_app _ _ _ Hname Hr) as [Htake Hdrop].
  destruct name as [|c name]; [done|]. simpl in Hs.
  rewrite append_cons in *. rewrite (rmatch_dependency_unfold _ _ Hs).
  destruct (run_nullable_total tail_clauses eq_refl r (<[1:=String c name]> ∅)
              accept) as [m Hm]; [by eauto|].
  rewrite Hm. apply star_greedy.
  assert (Hd : drop_while is_name_char (name +:+ r) = r).
  { simpl in Hdrop. by rewrite Hs in Hdrop. }
  pose proof (consumed_drop_while is_name_char (String c (name +:+ r))) as Hc.
  rewrite Hdrop, Htake in Hc. by rewrite Hd, Hc.
Qed.

Lemma consumed_starts a s s' :
  String.length s' <= String.length s ->
  starts_with (Ascii.eqb a) (consumed (String a s) s') = true.
Proof.
  intros Hlen. unfold consumed. simpl.
  destruct (S (String.length s) - String.length s') eqn:E; [lia|].
  simpl. apply Ascii.eqb_refl.
Qed.

(** The comparator clause: a group 2 that takes part begins with a
    comparator. *)
Lemma comparator_clause_shape (Q := fun m : groups =>
    forall v, m !! 2 = Some v -> starts_with is_comparator v = true)
    s g (k : string -> groups -> option groups) m :
  Q g ->
  (forall s' g' m', Q g' -> k s' g' = Some m' -> Q m') ->
  run comparator_clause s g k = Some m -> Q m.
Proof.
  intros Hg Hk Hrun. unfold comparator_clause in Hrun. simpl in Hrun.
  apply or_else_inv in Hrun as [Hrun|Hrun]; [|by eapply Hk].
  destruct s as [|a [|b [|c s]]]; try done.
  - by destruct (is_comparator a).
  - destruct (is_comparator a); [|done]. by destruct (is_space b).
  - destruct (is_comparator a) eqn:Ha; [|done].
    destruct (is_space b); [|done]. destruct (is_version_char c); [|done].
    apply star_inv_length in Hrun as (s' & Hlen & Hrun).
    eapply Hk; [|exact Hrun]. intros v. rewrite lookup_insert_eq.
    intros [= <-]. unfold consumed. simpl.
    destruct (S (S (S (String.length s))) - String.length s') eqn:E; [lia|].
    done.
Qed.

(** The groups of a match: group 2 begins with a comparator and group 3
    with the semicolon. *)
Lemma dependency_pattern_groups s m :
  rmatch dependency_pattern s = Some m ->
  (forall v, m !! 2 = Some v -> starts_with is_comparator v = true)
  /\ (forall c, m !! 3 = Some c -> starts_with (is_char ";"%char) c = true).
Proof.
  intros Hm. split.
  - change (rmatch dependency_pattern s)
      with (run (Seq name_clause extras_clause) s ∅
              (fun s' g' => run comparator_clause s' g'
                 (fun s'' g'' => run condition_clause s'' g'' accept))) in Hm.
    eapply (run_invariant
              (fun g => forall v, g !! 2 = Some v ->
                          starts_with is_comparator v = true)
              (fun m => forall v, m !! 2 = Some v ->
                          starts_with is_comparator v = true));
      [| |clear Hm m|exact Hm].
    + simpl. intros i x g Hi Hg v. rewrite lookup_insert_ne; [apply Hg|].
      intros ->. rewrite !elem_of_cons, elem_of_nil in Hi. lia.
    + intros v. by rewrite lookup_empty.
    + intros s' g' m Hg' Hrun. eapply comparator_clause_shape;
        [exact Hg'| |exact Hrun].
      clear. intros s' g' m Hg' Hrun.
      eapply (run_invariant
                (fun g => forall v, g !! 2 = Some v ->
                            starts_with is_comparator v = true)
                (fun m => forall v, m !! 2 = Some v ->
                            starts_with is_comparator v = true));
        [|exact Hg'| |exact Hrun].
      * simpl. intros i x g Hi Hg v. rewrite lookup_insert_ne; [apply Hg|].
        intros ->. rewrite !elem_of_cons, elem_of_nil in Hi. lia.
      * by intros s'' g'' m'' Hg'' ->%(accept_inv s'').
  - destruct (dependency_pattern_matches s) as (m' & Hm' & _ & H3).
    { destruct (starts_with is_name_char s) eqn:Hs; [done|].
      apply dependency_pattern_fails in Hs. congruence. }
    rewrite Hm in Hm'. by injection Hm' as <-.
Qed.

End clauses.

(** ** The splitter, continued *)

Section splitter_2.
Import PyStr Re.

Ltac by_cases c :=
  destruct c as [[] [] [] [] [] [] [] []]; vm_compute; auto.

Lemma name_char_no_space c : is_name_char c = true -> is_space c = false.
Proof. by_cases c. Qed.

Lemma name_char_no_bracket c :
  is_name_char c = true -> is_char "["%char c = false.
Proof. by_cases c. Qed.

Lemma comparator_no_space c : is_comparator c = true -> is_space c = false.
Proof. by_cases c. Qed.

Lemma comparator_no_bracket c :
  is_comparator c = true -> is_char "["%char c = false.
Proof. by_cases c. Qed.

Lemma comparator_no_name c : is_comparator c = true -> is_name_char c = false.
Proof. by_cases c. Qed.

Lemma version_char_no_space c : is_version_char c = true -> is_space c = false.
Proof. by_cases c. Qed.

Lemma semicolon_no_space c :
  is_char ";"%char c = true -> is_space c = false.
Proof. by_cases c. Qed.

Lemma strip_keeps_start p s :
  (forall c, p c = true -> is_space c = false) ->
  starts_with p s = true -> starts_with p (strip s) = true.
Proof.
  intros Hp. destruct s as [|a s]; [done|]. simpl. intros Ha.
  unfold strip, lstrip. simpl. rewrite (Hp _ Ha). simpl.
  by rewrite (Hp _ Ha).
Qed.

Lemma starts_not_unknown p v :
  starts_with p v = true -> p "U"%char = false ->
  (if truthy v then v else "Unknown") = v /\ v <> "Unknown".
Proof.
  intros Hv Hp. rewrite (starts_truthy _ _ Hv). split; [done|].
  intros ->. simpl in Hv. congruence.
Qed.

(** X1: when the pattern matches, the version is [Unknown] exactly when
    neither the comparator group nor the condition group took part in the
    match; in every case the version is a non-empty string. *)
Theorem split_dependency_unknown_iff dep m :
  rmatch dependency_pattern (strip dep) = Some m ->
  (snd (split_dependency dep) = "Unknown" <-> m !! 2 = None /\ m !! 3 = None)
  /\ snd (split_dependency dep) <> "".
Proof.
  intros Hm. destruct (dependency_pattern_groups _ _ Hm) as [H2 H3].
  unfold split_dependency, group_or_empty. rewrite Hm. simpl.
  destruct (m !! 2) as [v|] eqn:E2; simpl.
  - pose proof (strip_keeps_start _ _ comparator_no_space (H2 v eq_refl)) as Hv.
    assert (Hversion :
      starts_with is_comparator
        (if truthy (strip (default "" (m !! 3)))
         then strip (strip v +:+ " " +:+ strip (default "" (m !! 3)))
         else strip v) = true).
    { destruct (truthy _); [|done].
      apply strip_keeps_start; [apply comparator_no_space|].
      by apply starts_with_app. }
    destruct (starts_not_unknown _ _ Hversion eq_refl) as [-> Hne].
    split; [split; [done|by intros [? _]]|].
    intros Hempty. by rewrite Hempty in Hversion.
  - destruct (m !! 3) as [c|] eqn:E3; simpl.
    + pose proof (strip_keeps_start _ _ semicolon_no_space (H3 c eq_refl)) as Hc.
      rewrite (starts_truthy _ _ Hc).
      change (strip "" +:+ " " +:+ strip c) with (String " " (strip c)).
      rewrite strip_space_strip.
      destruct (starts_not_unknown _ _ Hc eq_refl) as [-> Hne].
      split; [split; [done|by intros [_ ?]]|].
      intros Hempty. by rewrite Hempty in Hc.
    + done.
Qed.

Lemma split_dependency_unknown_iff_witness :
  snd (split_dependency "pkg= 1.0") <> "Unknown".
Proof.
  destruct (rmatch dependency_pattern (strip "pkg= 1.0")) as [m|] eqn:Hm;
    [|by vm_compute in Hm].
  intros Hu.
  apply (proj1 (split_dependency_unknown_iff "pkg= 1.0" m Hm)) in Hu as [H2 _].
  vm_compute in Hm. injection Hm as <-. by vm_compute in H2.
Defined.

Lemma length_append a b :
  String.length (a +:+ b) = String.length a + String.length b.
Proof. induction a as [|c a IH]; [done|]. rewrite append_cons. simpl. lia. Qed.

Lemma consumed_app a r : consumed (a +:+ r) r = a.
Proof.
  unfold consumed. rewrite length_append.
  replace (String.length a + String.length r - String.length r)
    with (String.length a) by lia.
  induction a as [|c a IH]; [by destruct r|].
  rewrite append_cons. simpl. by rewrite IH.
Qed.

(** The extras clause takes a bracketed group and hands the text after it
    to the rest of the pattern. *)
Lemma run_extras_taken extras r g (k : string -> groups -> option groups) x :
  starts_with (not_char "]"%char) extras = true ->
  take_while (not_char "]"%char) extras = extras ->
  k r g = Some x ->
  run extras_clause (String "[" (extras +:+ String "]" r)) g k = Some x.
Proof.
  intros Hs Hextras Hk. unfold extras_clause. simpl.
  apply or_else_some.
  destruct extras as [|e extras]; [done|]. simpl in Hs, Hextras.
  rewrite Hs in Hextras. injection Hextras as Hextras.
  change (is_char "[" "[") with true. simpl.
  rewrite Hs. apply star_greedy.
  destruct (take_while_app (not_char "]"%char) extras (String "]" r) Hextras
              eq_refl) as [_ ->].
  by change (is_char "]" "]") with true.
Qed.

Lemma run_extras_skipped r g (k : string -> groups -> option groups) :
  starts_with (is_char "["%char) r = false ->
  run extras_clause r g k = k r g.
Proof.
  intros Hr. unfold extras_clause. simpl.
  destruct r as [|c r]; [done|]. simpl in Hr. by rewrite Hr.
Qed.

Lemma run_tail_unfold s g :
  run tail_clauses s g accept
  = run extras_clause s g
      (fun s' g' => run (Seq comparator_clause condition_clause) s' g' accept).
Proof. reflexivity. Qed.

Lemma name_rstrip name : take_while is_name_char name = name -> rstrip name = name.
Proof.
  intros Hname. apply rstrip_no_space.
  apply (take_while_weaken is_name_char); [|done].
  intros c Hc. by rewrite (name_char_no_space _ Hc).
Qed.

Lemma truthy_empty s : s <> "" <-> truthy s = true.
Proof. by destruct s. Qed.

(** X2: extras are recognised and dropped.  A specifier with a bracketed
    extras group after its name splits like the same specifier without the
    group. *)
Theorem split_dependency_ignores_extras name extras rest :
  starts_with is_name_char name = true ->
  take_while is_name_char name = name ->
  starts_with (not_char "]"%char) extras = true ->
  take_while (not_char "]"%char) extras = extras ->
  starts_with is_name_char rest = false ->
  starts_with (is_char "["%char) rest = false ->
  split_dependency (name +:+ String "[" (extras +:+ String "]" rest))
  = split_dependency (name +:+ rest).
Proof.
  intros Hs Hname Hes Hextras Hrn Hrb.
  assert (Hsp : starts_with is_space name = false).
  { apply (starts_with_impl is_name_char); [apply name_char_no_space|done]. }
  assert (Hne : name <> "") by (by destruct name).
  set (r := rstrip rest).
  assert (Hstrip1 : strip (name +:+ String "[" (extras +:+ String "]" rest))
                    = name +:+ String "[" (extras +:+ String "]" r)).
  { rewrite (strip_app_fixed _ _ Hsp Hne (name_rstrip _ Hname)). f_equal.
    change (String "[" (extras +:+ String "]" rest))
      with (String "[" extras +:+ String "]" rest).
    rewrite rstrip_app. done. }
  assert (Hstrip2 : strip (name +:+ rest) = name +:+ r).
  { by rewrite (strip_app_fixed _ _ Hsp Hne (name_rstrip _ Hname)). }
  assert (Hrn' : starts_with is_name_char r = false)
    by (by apply rstrip_starts_false).
  assert (Hrb' : starts_with (is_char "["%char) r = false)
    by (by apply rstrip_starts_false).
  destruct (run_nullable_total (Seq comparator_clause condition_clause)
              eq_refl r (<[1:=name]> ∅) accept) as [m Hm]; [by eauto|].
  assert (H1 : rmatch dependency_pattern
                 (name +:+ String "[" (extras +:+ String "]" r)) = Some m).
  { rewrite (rmatch_name_prefix name (String "[" (extras +:+ String "]" r))
               Hs Hname eq_refl).
    by apply (run_extras_taken extras r _
                (fun s g => run (Seq comparator_clause condition_clause) s g
                              accept)). }
  assert (H2 : rmatch dependency_pattern (name +:+ r) = Some m).
  { rewrite (rmatch_name_prefix _ _ Hs Hname Hrn'), run_tail_unfold.
    by rewrite (run_extras_skipped _ _ _ Hrb'). }
  unfold split_dependency. by rewrite Hstrip1, Hstrip2, H1, H2.
Qed.

Lemma split_dependency_ignores_extras_witness :
  split_dependency "pkg[extra]; python_version>='3.8'"
  = split_dependency "pkg; python_version>='3.8'".
Proof.
  apply (split_dependency_ignores_extras "pkg" "extra"
           "; python_version>='3.8'"); reflexivity.
Defined.

(** X3: the one form of version constraint the splitter keeps.  After a
    name, one comparator character, one white space character and a run of
    version characters give the version: comparator, white space and run,
    as written. *)
Theorem split_dependency_spaced_version name c w v rest :
  starts_with is_name_char name = true ->
  take_while is_name_char name = name ->
  is_comparator c = true ->
  is_space w = true ->
  starts_with is_version_char v = true ->
  take_while is_version_char v = v ->
  starts_with is_version_char rest = false ->
  starts_with (is_char ";"%char) rest = false ->
  split_dependency (name +:+ String c (String w (v +:+ rest)))
  = (name, String c (String w v)).
Proof.
  intros Hs Hname Hc Hw Hvs Hv Hrv Hrs.
  assert (Hsp : starts_with is_space name = false).
  { apply (starts_with_impl is_name_char); [apply name_char_no_space|done]. }
  assert (Hne : name <> "") by (by destruct name).
  set (r := rstrip rest).
  assert (Hvr : rstrip v = v /\ is_empty v = false).
  { split; [|by destruct v]. apply rstrip_no_space.
    apply (take_while_weaken is_version_char); [|done].
    intros d Hd. by rewrite (version_char_no_space _ Hd). }
  destruct Hvr as [Hvr Hvne].
  assert (Hcwv : rstrip (String c (String w v)) = String c (String w v)).
  { simpl. rewrite Hvr, Hvne, (comparator_no_space _ Hc). simpl.
    by rewrite andb_false_r. }
  assert (Hstrip : strip (name +:+ String c (String w (v +:+ rest)))
                   = name +:+ String c (String w (v +:+ r))).
  { rewrite (strip_app_fixed _ _ Hsp Hne (name_rstrip _ Hname)). f_equal.
    change (String c (String w (v +:+ rest)))
      with (String c (String w v) +:+ rest).
    by rewrite (rstrip_app_fixed _ _ Hcwv). }
  assert (Hrv' : starts_with is_version_char r = false)
    by (by apply rstrip_starts_false).
  assert (Hrs' : starts_with (is_char ";"%char) r = false)
    by (by apply rstrip_starts_false).
  set (m := <[2:=String c (String w v)]> (<[1:=name]> (∅ : groups))).
  assert (Hm : rmatch dependency_pattern
                 (name +:+ String c (String w (v +:+ r))) = Some m).
  { rewrite (rmatch_name_prefix name (String c (String w (v +:+ r))) Hs Hname
               (comparator_no_name _ Hc)).
    rewrite run_tail_unfold.
    rewrite (run_extras_skipped (String c (String w (v +:+ r))) _ _
               (comparator_no_bracket _ Hc)).
    unfold comparator_clause, condition_clause. simpl. rewrite Hc, Hw.
    apply or_else_some.
    destruct v as [|d v]; [done|]. simpl in Hvs, Hv. rewrite Hvs in Hv.
    injection Hv as Hv. rewrite append_cons, Hvs. apply star_greedy.
    destruct (take_while_app is_version_char v r Hv Hrv') as [_ ->].
    assert (Hcons : consumed (String c (String w (String d (v +:+ r)))) r
                    = String c (String w (String d v))).
    { exact (consumed_app (String c (String w (String d v))) r). }
    rewrite Hcons. destruct r as [|x r']; [done|].
    simpl in Hrs'. by rewrite Hrs'. }
  unfold split_dependency, group_or_empty. rewrite Hstrip, Hm. unfold m.
  rewrite lookup_insert_ne, lookup_insert_eq by done.
  rewrite lookup_insert_eq.
  rewrite lookup_insert_ne, lookup_insert_ne, lookup_empty by done. simpl.
  assert (Hver : strip (String c (String w v)) = String c (String w v)).
  { unfold strip, lstrip. simpl. rewrite (comparator_no_space _ Hc).
    exact Hcwv. }
  by rewrite Hver.
Qed.

Lemma split_dependency_spaced_version_witness :
  split_dependency "flask> 2.0, <3" = ("flask", "> 2.0").
Proof.
  apply (split_dependency_spaced_version "flask" ">" " " "2.0" ", <3");
    reflexivity.
Defined.

Lemma star_committed {R} p s (k : string -> option R) :
  (forall s', starts_with p s' = true -> k s' = None) ->
  star p s k = k (drop_while p s).
Proof.
  intros Hk. induction s as [|c s IH]; [done|]. simpl.
  destruct (p c) eqn:Hc; [|done].
  rewrite IH. rewrite (Hk (String c s)) by (simpl; done).
  by destruct (k (drop_while p s)).
Qed.

Lemma run_extras_after tail g (k : string -> groups -> option groups) :
  (forall s g', is_Some (k s g')) ->
  run extras_clause tail g k = k (after_extras tail) g.
Proof.
  intros Hk. unfold extras_clause, after_extras. simpl.
  destruct (Hk tail g) as [x Hx].
  destruct tail as [|c t]; [done|].
  destruct (is_char "[" c); [|done]. simpl.
  destruct t as [|e t]; [done|]. simpl.
  destruct (not_char "]" e) eqn:He; [|done].
  rewrite star_committed.
  - destruct (drop_while (not_char "]") t) as [|d r]; [done|].
    destruct (is_char "]" d); [|done].
    destruct (Hk r g) as [y ->]. done.
  - intros [|d s'] Hs'; [done|]. simpl in Hs'. unfold not_char in Hs'.
    by destruct (is_char "]" d).
Qed.

Lemma run_comparator_skipped s g (k : string -> groups -> option groups) :
  comparator_at s = false -> run comparator_clause s g k = k s g.
Proof.
  intros Hs. unfold comparator_clause. simpl.
  destruct s as [|a [|b [|c s]]]; simpl in *.
  - done.
  - by destruct (is_comparator a).
  - destruct (is_comparator a); [|done]. by destruct (is_space b).
  - destruct (is_comparator a); [|done]. destruct (is_space b); [|done].
    simpl in Hs. by rewrite Hs.
Qed.

Lemma run_condition s g :
  run condition_clause s g accept
  = Some (if condition_at s then <[3:=take_while is_dot s]> g else g).
Proof.
  unfold condition_clause, condition_at. simpl.
  destruct s as [|a [|b s]]; simpl.
  - done.
  - by destruct (is_char ";" a).
  - destruct (is_char ";" a) eqn:Ha; [|done]. simpl.
    destruct (is_dot b) eqn:Hb; [|done].
    apply or_else_some, star_greedy. unfold accept. do 2 f_equal.
    assert (Hdot : is_dot a = true).
    { unfold is_char in Ha. apply Ascii.eqb_eq in Ha as <-. reflexivity. }
    pose proof (consumed_drop_while is_dot (String a (String b s))) as Hc.
    simpl in Hc. rewrite Hdot, Hb in Hc. rewrite Hdot. exact Hc.
Qed.

Lemma take_while_idem p s : take_while p (take_while p s) = take_while p s.
Proof.
  induction s as [|c s IH]; [done|]. simpl.
  destruct (p c) eqn:Hc; [|done]. simpl. by rewrite Hc, IH.
Qed.

Lemma take_while_starts p s :
  starts_with p s = true -> starts_with p (take_while p s) = true.
Proof. destruct s as [|c s]; [done|]. simpl. intros Hc. by rewrite Hc. Qed.

(** C5, amended: for a specifier that matches the pattern and has no
    comparator and version right after its name and extras, the version is
    [Unknown] unless that place holds a semicolon and one more character of
    the same line; then the version is the text from the semicolon to the
    end of its line, stripped.  A condition set off from the name by white
    space, or by any other text, is not seen: the version is [Unknown]. *)
Theorem split_dependency_without_comparator dep :
  starts_with is_name_char (strip dep) = true ->
  comparator_at (after_extras (drop_while is_name_char (strip dep))) = false ->
  split_dependency dep
  = (take_while is_name_char (strip dep),
     let rest := after_extras (drop_while is_name_char (strip dep)) in
     if condition_at rest then strip (take_while is_dot rest) else "Unknown").
Proof.
  intros Hs Hcmp.
  set (name := take_while is_name_char (strip dep)).
  set (tail := drop_while is_name_char (strip dep)) in *.
  set (rest := after_extras tail) in *.
  assert (Hm : rmatch dependency_pattern (strip dep)
               = Some (if condition_at rest
                       then <[3:=take_while is_dot rest]> (<[1:=name]> ∅)
                       else <[1:=name]> ∅)).
  { rewrite <- (take_drop_while is_name_char (strip dep)).
    fold name tail.
    rewrite (rmatch_name_prefix name tail).
    - rewrite run_tail_unfold, run_extras_after.
      + fold rest.
        change (run (Seq comparator_clause condition_clause) rest
                  (<[1:=name]> ∅) accept)
          with (run comparator_clause rest (<[1:=name]> ∅)
                  (fun s g => run condition_clause s g accept)).
        rewrite (run_comparator_skipped _ _ _ Hcmp). apply run_condition.
      + intros s g.
        apply (run_nullable_total (Seq comparator_clause condition_clause)
                 eq_refl).
        by eauto.
    - by apply take_while_starts.
    - apply take_while_idem.
    - apply drop_while_stops. }
  unfold split_dependency, group_or_empty. rewrite Hm. cbv zeta.
  destruct (condition_at rest) eqn:Hcond.
  - rewrite (lookup_insert_ne _ 3 1), lookup_insert_eq by done.
    rewrite (lookup_insert_ne _ 3 2), (lookup_insert_ne _ 1 2), lookup_empty
      by done.
    rewrite lookup_insert_eq. simpl default.
    assert (Hc : starts_with (is_char ";"%char) (strip (take_while is_dot rest))
                 = true).
    { apply strip_keeps_start; [apply semicolon_no_space|].
      unfold condition_at in Hcond.
      destruct rest as [|a [|b r]]; try done. simpl.
      apply andb_true_iff in Hcond as [Ha Hb].
      assert (Hdot : is_dot a = true).
      { unfold is_char in Ha. apply Ascii.eqb_eq in Ha as <-. reflexivity. }
      by rewrite Hdot. }
    rewrite (starts_truthy _ _ Hc).
    change (strip "" +:+ " " +:+ strip (take_while is_dot rest))
      with (String " " (strip (take_while is_dot rest))).
    rewrite strip_space_strip. by rewrite (starts_truthy _ _ Hc).
  - rewrite lookup_insert_eq.
    rewrite !lookup_insert_ne, lookup_empty by done. done.
Qed.

Lemma split_dependency_without_comparator_witness :
  split_dependency "pkg; python_version>='3.8'"
  = ("pkg", "; python_version>='3.8'")
  /\ split_dependency "pkg[extra];python_version>='3.8'"
     = ("pkg", ";python_version>='3.8'")
  /\ split_dependency "pkg ; python_version>='3.8'" = ("pkg", "Unknown")
  /\ split_dependency "pkg.name; python_version>='3.8'" = ("pkg", "Unknown")
  /\ split_dependency "pkg==1.0" = ("pkg", "Unknown").
Proof.
  split; [|split; [|split; [|split]]].
  - apply (split_dependency_without_comparator "pkg; python_version>='3.8'");
      reflexivity.
  - apply (split_dependency_without_comparator
             "pkg[extra];python_version>='3.8'"); reflexivity.
  - apply (split_dependency_without_comparator "pkg ; python_version>='3.8'");
      reflexivity.
  - apply (split_dependency_without_comparator
             "pkg.name; python_version>='3.8'"); reflexivity.
  - apply (split_dependency_without_comparator "pkg==1.0"); reflexivity.
Defined.

End splitter_2.

(** ** The visitor, node by node *)

Section visitor.

(** Induction on syntax trees, with the property for all the children in
    the lists of a node. *)
Lemma node_nested_ind (P : node -> Prop) :
  (forall names lineno, P (ast_Import names lineno)) ->
  (forall module names level lineno,
      P (ast_ImportFrom module names level lineno)) ->
  (forall value attr lineno, P value -> P (ast_Attribute value attr lineno)) ->
  (forall id lineno, P (ast_Name id lineno)) ->
  (forall func args keywords lineno,
      P func -> Forall P args -> Forall P keywords ->
      P (ast_Call func args keywords lineno)) ->
  (forall arg value, P value -> P (ast_keyword arg value)) ->
  (forall elts lineno, Forall P elts -> P (ast_List elts lineno)) ->
  (forall value lineno, P (ast_Constant value lineno)) ->
  (forall children, Forall P children -> P (ast_Other children)) ->
  forall n, P n.
Proof.
  intros HImport HFrom HAttr HName HCall Hkw HList HConst HOther.
  fix IH 1. intros n.
  pose (all := fix all (l : list node) : Forall P l :=
          match l with
          | [] => @List.Forall_nil _ P
          | c :: l' => @List.Forall_cons _ P c l' (IH c) (all l')
          end).
  destruct n as [names lineno|module names level lineno|value attr lineno
                |id lineno|func args keywords lineno|arg value|elts lineno
                |value lineno|children].
  - apply HImport.
  - apply HFrom.
  - apply HAttr, IH.
  - apply HName.
  - apply HCall; [apply IH|apply all|apply all].
  - apply Hkw, IH.
  - apply HList, all.
  - apply HConst.
  - apply HOther, all.
Qed.

Lemma visited_nothing n v :
  flat_map import_entries (preorder n) = [] ->
  flat_map attribute_usage (preorder n) = [] ->
  visited n v = v.
Proof.
  intros Hi Hu. unfold visited. rewrite Hi, Hu, !app_nil_r. by destruct v.
Qed.

Lemma visited_children cs :
  Forall (fun c => forall v, visit c v = visited c v) cs ->
  forall v,
    fold_left (fun v c => visit c v) cs v
    = Visitor
        (imports v ++ flat_map import_entries (flat_map preorder cs))
        (usage v ++ flat_map attribute_usage (flat_map preorder cs)).
Proof.
  induction 1 as [|c cs Hc _ IH]; intros v; simpl.
  - rewrite !app_nil_r. by destruct v.
  - rewrite IH, Hc. unfold visited. simpl.
    by rewrite !flat_map_app, !app_assoc.
Qed.

(** The visitor adds to its lists what the nodes of the tree hold, taken
    depth first. *)
Lemma visit_visited n : forall v, visit n v = visited n v.
Proof.
  induction n as [names lineno|module names level lineno|value attr lineno IH
                 |id lineno|func args keywords lineno IHf IHa IHk
                 |arg value IH|elts lineno IH|value lineno|children IH]
    using node_nested_ind; intros v.
  - simpl. rewrite fold_imports_append. unfold visited. simpl.
    by rewrite !app_nil_r.
  - simpl.
    rewrite (fold_imports_append
               (fun a => (format_opt module +:+ "." +:+ alias_name a, lineno))).
    unfold visited. simpl. by rewrite !app_nil_r.
  - simpl. rewrite IH. unfold visited.
    destruct value; simpl; by rewrite ?app_nil_r, <- ?app_assoc.
  - unfold visited. simpl. rewrite !app_nil_r. by destruct v.
  - simpl. rewrite (visited_children _ IHk), (visited_children _ IHa), IHf.
    unfold visited. simpl. by rewrite !flat_map_app, !app_assoc.
  - simpl. rewrite IH. done.
  - simpl. by rewrite (visited_children _ IH).
  - unfold visited. simpl. rewrite !app_nil_r. by destruct v.
  - simpl. by rewrite (visited_children _ IH).
Qed.

(** X4: a visit that stays within the recursion limit records, in depth
    first order, a node before its children: for every import statement
    one entry per imported name, and for every attribute access whose base
    is a name the symbol [name.attribute]; call, keyword and all other
    nodes add nothing themselves and their children are visited.  A visit
    of a tree nested too deep for the limit raises [RecursionError]. *)
Theorem visit_preorder H n :
  visitor_visit H n new_visitor
  = match recursion_error H n with
    | Some e => Raise e
    | None =>
        Ok (Visitor (flat_map import_entries (preorder n))
                    (flat_map attribute_usage (preorder n)))
    end.
Proof.
  unfold visitor_visit. destruct (recursion_error H n); [done|].
  by rewrite visit_visited.
Qed.

(** X5: visiting appends.  When the visit stays within the recursion
    limit, whatever the visitor holds already stays in front, unchanged,
    and the entries of the tree follow as a fresh visitor would collect
    them; when it does not, the visit raises whatever the visitor
    holds. *)
Theorem visit_appends H n v :
  visitor_visit H n v
  = match visitor_visit H n new_visitor with
    | Ok fresh =>
        Ok (Visitor (imports v ++ imports fresh) (usage v ++ usage fresh))
    | Raise e => Raise e
    end.
Proof.
  unfold visitor_visit. destruct (recursion_error H n); [done|].
  by rewrite !visit_visited.
Qed.

Lemma preorder_children n : preorder n = n :: flat_map preorder (child_nodes n).
Proof.
  destruct n; simpl; rewrite ?app_nil_r; try done.
  by rewrite flat_map_app.
Qed.

Lemma walk_queue_preorder fuel : forall todo,
  count_all todo <= fuel -> walk_queue fuel todo ≡ₚ flat_map preorder todo.
Proof.
  induction fuel as [|fuel IH]; intros [|n todo] Hfuel; try done.
  - change (count_all (n :: todo)) with (node_count n + count_all todo) in Hfuel.
    rewrite node_count_children in Hfuel. lia.
  - change (count_all (n :: todo)) with (node_count n + count_all todo) in Hfuel.
    rewrite node_count_children in Hfuel. simpl.
    rewrite IH by (rewrite count_all_app; lia).
    rewrite flat_map_app, (preorder_children n). simpl.
    constructor. apply Permutation_app_comm.
Qed.

(** X6: a visit that stays within the recursion limit misses no node and
    meets none twice.  Its imports and its usages are, up to order, what a
    walk over all nodes of the tree ([ast.walk], a loop over a queue, which
    no nesting stops) finds. *)
Theorem visit_walk H n :
  recursion_error H n = None ->
  exists v,
    visitor_visit H n new_visitor = Ok v
    /\ imports v ≡ₚ flat_map import_entries (ast_walk n)
    /\ usage v ≡ₚ flat_map attribute_usage (ast_walk n).
Proof.
  intros Hdeep. exists (visit n new_visitor).
  split; [unfold visitor_visit; by rewrite Hdeep|].
  rewrite visit_visited. simpl.
  assert (Hwalk : ast_walk n ≡ₚ preorder n).
  { unfold ast_walk. rewrite walk_queue_preorder.
    - simpl. by rewrite app_nil_r.
    - unfold count_all. simpl. lia. }
  split; symmetry; by apply Permutation_flat_map.
Qed.

End visitor.

(** ** The usage analysis driver, continued *)

Section driver.
Context (H : Host).

Lemma for_each_collect {X Y} (body : Y -> stmt (list X) unit)
    (step : Y -> result (list X)) (l : list Y) :
  (forall y st,
      match step y with
      | Ok block => body y st = (Ok tt, st ++ block)
      | Raise e => (body y st).1 = Raise e
      end) ->
  forall st,
    match collect step l with
    | Ok blocks => for_each l body st = (Ok tt, st ++ blocks)
    | Raise e => (for_each l body st).1 = Raise e
    end.
Proof.
  intros Hbody. induction l as [|y l IH]; intros st; simpl.
  - by rewrite app_nil_r.
  - specialize (Hbody y st). unfold bind.
    destruct (step y) as [block|e].
    + rewrite Hbody. specialize (IH (st ++ block)).
      destruct (collect step l) as [blocks|e].
      * by rewrite IH, app_assoc.
      * done.
    + destruct (body y st) as [[[]|e'] st']; simpl in *; congruence.
Qed.

Lemma collect_app {X Y} (step : Y -> result (list X)) l1 l2 :
  collect step (l1 ++ l2)
  = match collect step l1 with
    | Ok b1 =>
        match collect step l2 with
        | Ok b2 => Ok (b1 ++ b2)
        | Raise e => Raise e
        end
    | Raise e => Raise e
    end.
Proof.
  induction l1 as [|y l1 IH]; simpl.
  - by destruct (collect step l2).
  - destruct (step y); [|done]. rewrite IH.
    destruct (collect step l1); [|done].
    destruct (collect step l2); [|done]. by rewrite app_assoc.
Qed.

Lemma collect_in {X Y} (step : Y -> result (list X)) l blocks x :
  collect step l = Ok blocks -> In x blocks ->
  exists y block, In y l /\ step y = Ok block /\ In x block.
Proof.
  revert blocks. induction l as [|y l IH]; intros blocks; simpl.
  - by intros [= <-].
  - destruct (step y) as [block|] eqn:Hy; [|done].
    destruct (collect step l) as [bs|]; [|done].
    intros [= <-] [Hin|Hin]%in_app_or.
    + exists y, block. auto.
    + destruct (IH _ eq_refl Hin) as (y' & b' & ? & ? & ?).
      exists y', b'. auto.
Qed.

Lemma collect_ok_all {X Y} (step : Y -> result (list X)) l blocks y :
  collect step l = Ok blocks -> In y l -> exists block, step y = Ok block.
Proof.
  revert blocks. induction l as [|y' l IH]; intros blocks; simpl; [done|].
  destruct (step y') as [block|] eqn:Hy; [|done].
  destruct (collect step l) as [bs|]; [|done].
  intros _ [<-|Hin]; eauto.
Qed.

Lemma collect_all_ok {X Y} (step : Y -> result (list X)) (block : Y -> list X) l :
  (forall y, In y l -> step y = Ok (block y)) ->
  collect step l = Ok (flat_map block l).
Proof.
  induction l as [|y l IH]; intros Hl; simpl; [done|].
  rewrite (Hl y) by (by left). rewrite IH; [done|].
  intros; apply Hl; by right.
Qed.

Lemma analyze_repo_block_collect repo_path st :
  match collect (dir_step H) (os_walk H repo_path) with
  | Ok blocks => analyze_repo_block H repo_path st = (Ok tt, st ++ blocks)
  | Raise e => (analyze_repo_block H repo_path st).1 = Raise e
  end.
Proof.
  unfold analyze_repo_block. apply for_each_collect. clear st.
  intros [[root dirs] files] st. unfold dir_step.
  apply for_each_collect. clear st. intros file st.
  unfold file_step.
  destruct (PyStr.endswith file ".py") eqn:Hpy; [|by rewrite app_nil_r].
  destruct (open_text H (source_path H root file)) as [f|e] eqn:Hf.
  - pose proof (analyze_file_step H root file st) as Hstep.
    unfold file_records in Hstep. rewrite Hpy, Hf in Hstep.
    apply Hstep. eauto.
  - simpl. unfold bind at 1, lift at 1.
    fold (source_path H root file). by rewrite Hf.
Qed.

(** The driver is the loop over the directories of the loop over their
    files, each stopping at the first file that does not open. *)
Lemma analyze_repo_collect repo_path :
  analyze_repo H repo_path = collect (dir_step H) (os_walk H repo_path).
Proof.
  unfold analyze_repo.
  pose proof (analyze_repo_block_collect repo_path []) as Hloop.
  destruct (collect (dir_step H) (os_walk H repo_path)) as [blocks|e].
  - by rewrite Hloop.
  - destruct (analyze_repo_block H repo_path []) as [[[]|e'] st'];
      simpl in *; congruence.
Qed.

Lemma file_step_open root file :
  (PyStr.endswith file ".py" = true ->
   exists f, open_text H (source_path H root file) = Ok f) ->
  file_step H root file = Ok (file_records H root file).
Proof.
  intros Hopen. unfold file_step, file_records.
  destruct (PyStr.endswith file ".py"); [|done].
  by destruct (Hopen eq_refl) as [f ->].
Qed.

Lemma collect_sources_open walk :
  sources_open H walk -> collect (dir_step H) walk = Ok (walk_records H walk).
Proof.
  intros Hopen. unfold walk_records.
  apply (collect_all_ok (dir_step H)
           (fun '(root, _, files) => flat_map (file_records H root) files)).
  intros [[root dirs] files] Hdir. simpl.
  apply collect_all_ok. intros file Hfile.
  apply file_step_open. intros Hpy. by eapply Hopen.
Qed.

(** X7: the scan returns a list exactly when every source file the walk
    lists can be opened. *)
Theorem analyze_repo_returns_iff repo_path :
  (exists results, analyze_repo H repo_path = Ok results)
  <-> sources_open H (os_walk H repo_path).
Proof.
  split.
  - intros [results Hrun]. rewrite analyze_repo_collect in Hrun.
    intros root dirs files file Hdir Hfile Hpy.
    destruct (collect_ok_all _ _ _ _ Hrun Hdir) as [block Hblock].
    simpl in Hblock.
    destruct (collect_ok_all _ _ _ _ Hblock Hfile) as [b Hb].
    unfold file_step in Hb. rewrite Hpy in Hb.
    destruct (open_text H (source_path H root file)); [eauto|done].
  - intros Hopen. rewrite analyze_repo_collect, collect_sources_open; eauto.
Qed.

(** X8: the first source file that cannot be opened ends the scan: its
    exception leaves [analyze_repo], and the records of the files before
    it are not returned. *)
Theorem analyze_repo_open_failure repo_path
    before root dirs files1 file files2 after e :
  os_walk H repo_path
  = before ++ (root, dirs, files1 ++ file :: files2) :: after ->
  sources_open H before ->
  sources_open H [(root, dirs, files1)] ->
  PyStr.endswith file ".py" = true ->
  open_text H (source_path H root file) = Raise e ->
  analyze_repo H repo_path = Raise e.
Proof.
  intros Hwalk Hbefore Hfiles1 Hpy Hf.
  rewrite analyze_repo_collect, Hwalk, collect_app.
  rewrite (collect_sources_open _ Hbefore). simpl.
  rewrite collect_app.
  pose proof (collect_sources_open _ Hfiles1) as H1. simpl in H1.
  destruct (collect (file_step H root) files1); [|done].
  simpl. unfold file_step at 1. by rewrite Hpy, Hf.
Qed.

Lemma analyze_repo_record_origin repo_path results r :
  analyze_repo H repo_path = Ok results ->
  In r results ->
  (record_category r = "import" \/ record_category r = "usage"
   \/ (record_category r = "error" /\ record_line r = (-1)%Z))
  /\ exists root dirs files file,
       In (root, dirs, files) (os_walk H repo_path) /\ In file files
       /\ PyStr.endswith file ".py" = true
       /\ record_file r = source_path H root file.
Proof.
  intros Hrun Hr. rewrite analyze_repo_collect in Hrun.
  destruct (collect_in _ _ _ _ Hrun Hr)
    as ([[root dirs] files] & block & Hdir & Hblock & Hrb).
  simpl in Hblock.
  destruct (collect_in _ _ _ _ Hblock Hrb) as (file & b & Hfile & Hb & Hin).
  unfold file_step in Hb.
  destruct (PyStr.endswith file ".py") eqn:Hpy;
    [|injection Hb as <-; destruct Hin].
  destruct (open_text H (source_path H root file)) as [f|]; [|done].
  injection Hb as <-.
  assert (Hshape :
    (record_category r = "import" \/ record_category r = "usage"
     \/ (record_category r = "error" /\ record_line r = (-1)%Z))
    /\ record_file r = source_path H root file).
  { unfold file_block in Hin.
    destruct (visit_source H (source_path H root file) f) as [visitor|e].
    - apply in_app_or in Hin as [Hin|Hin];
        apply in_map_iff in Hin as (x & <- & _); auto.
    - destruct Hin as [<-|[]]. auto. }
  destruct Hshape as [Hcat Hpath]. split; [done|].
  exists root, dirs, files, file. auto.
Qed.

(** X9: what the scan returns.  Every record is an [import], a [usage] or
    an [error] record, an [error] record has line -1, and the file of the
    record is a file of the walk whose name ends in [.py]. *)
Theorem analyze_repo_records repo_path results r :
  analyze_repo H repo_path = Ok results ->
  In r results ->
  (record_category r = "import" \/ record_category r = "usage"
   \/ (record_category r = "error" /\ record_line r = (-1)%Z))
  /\ exists root dirs files file,
       In (root, dirs, files) (os_walk H repo_path) /\ In file files
       /\ PyStr.endswith file ".py" = true
       /\ record_file r = source_path H root file.
Proof. apply analyze_repo_record_origin. Qed.

(** X10: the report of a scan has the title and one line per record, and
    labels a record [IMPORT] when its category is [import] and [USAGE]
    otherwise: the [error] record of a file that did not parse is printed
    as a [USAGE] line with [Line: -1]. *)
Theorem report_of_analysis repo_path results :
  analyze_repo H repo_path = Ok results ->
  length (report_cells results) = S (length results)
  /\ forall r, In r results ->
       In (report_line r) (report_cells results)
       /\ report_line r
          = record_file r +:+ " | "
            +:+ (if String.eqb (record_category r) "import"
                 then "IMPORT" else "USAGE")
            +:+ " | " +:+ record_symbol r
            +:+ " | Line: " +:+ str_of_int (record_line r)
       /\ (record_category r = "error" ->
           report_line r
           = record_file r +:+ " | USAGE | " +:+ record_symbol r
             +:+ " | Line: -1").
Proof.
  intros Hrun. split.
  { unfold report_cells. simpl. by rewrite length_fmap. }
  intros r Hr.
  destruct (analyze_repo_record_origin _ _ _ Hrun Hr) as [Hcat _].
  split; [|split].
  - right. by apply in_map.
  - destruct r as [[[file_path category] symbol] line].
    unfold record_category in *. simpl in *. unfold report_label.
    destruct Hcat as [->|[->|[-> _]]]; reflexivity.
  - destruct r as [[[file_path category] symbol] line].
    unfold record_category, record_line in *. simpl in *.
    intros ->. destruct Hcat as [?|[?|[_ ->]]]; try done.
Qed.

End driver.

(** ** Blocks of statements: what they keep, whether they return *)

Section blocks.
Context {S : Type}.
Implicit Types (I : S -> Prop).

Lemma preserves_ret {A} I (a : A) : preserves I (ret (S:=S) a).
Proof. by intros st. Qed.

Lemma preserves_lift {A} I (r : result A) : preserves I (lift (S:=S) r).
Proof. by intros st. Qed.

Lemma preserves_bind_lift {A B} I (r : result A) (k : A -> stmt S B) :
  (forall a, r = Ok a -> preserves I (k a)) -> preserves I (bind (lift r) k).
Proof.
  intros Hk st Hst. unfold bind, lift. destruct r as [a|e]; [|done].
  by apply Hk.
Qed.

Lemma preserves_bind {A B} I (c : stmt S A) (k : A -> stmt S B) :
  preserves I c -> (forall a, preserves I (k a)) -> preserves I (bind c k).
Proof.
  intros Hc Hk st Hst. unfold bind. specialize (Hc st Hst).
  destruct (c st) as [[a|e] st']; [by apply Hk|done].
Qed.

Lemma preserves_for_each {Y} I (l : list Y) (body : Y -> stmt S unit) :
  (forall y, In y l -> preserves I (body y)) -> preserves I (for_each l body).
Proof.
  induction l as [|y l IH]; intros Hbody; simpl; [by intros st|].
  apply preserves_bind; [apply Hbody; by left|].
  intros _. apply IH. intros; apply Hbody; by right.
Qed.

Lemma preserves_try_except I (body : stmt S unit) (handler : exn -> stmt S unit) :
  preserves I body -> (forall e, preserves I (handler e)) ->
  preserves I (try_except body handler).
Proof.
  intros Hb Hh st Hst. unfold try_except. specialize (Hb st Hst).
  destruct (body st) as [[[]|e] st']; [done|by apply Hh].
Qed.

Lemma preserves_for_line I (f : text_file) (body : string -> stmt S unit) :
  (forall line, In line (f_lines f) -> preserves I (body line)) ->
  preserves I (for_line f body).
Proof.
  intros Hbody. unfold for_line. apply preserves_bind.
  - by apply preserves_for_each.
  - intros _. destruct (f_error f); [apply preserves_lift|apply preserves_ret].
Qed.

Lemma returns_ret {A} (a : A) : returns (ret (S:=S) a).
Proof. intros st. by exists a. Qed.

Lemma returns_bind {A B} (c : stmt S A) (k : A -> stmt S B) :
  returns c -> (forall a, returns (k a)) -> returns (bind c k).
Proof.
  intros Hc Hk st. unfold bind. destruct (Hc st) as [a Ha].
  destruct (c st) as [[a'|e] st']; [apply Hk|done].
Qed.

Lemma returns_for_each {Y} (l : list Y) (body : Y -> stmt S unit) :
  (forall y, returns (body y)) -> returns (for_each l body).
Proof.
  intros Hbody. induction l as [|y l IH]; simpl; [apply returns_ret|].
  apply returns_bind; [apply Hbody|]. by intros _.
Qed.

Lemma returns_try_except (body : stmt S unit) (handler : exn -> stmt S unit) :
  (forall e, returns (handler e)) -> returns (try_except body handler).
Proof.
  intros Hh st. unfold try_except.
  destruct (body st) as [[[]|e] st']; [by exists tt|apply Hh].
Qed.

End blocks.

Section set_blocks.
Context `{Countable X}.

Lemma grows_ret {A} (a : A) : grows (ret (S:=gset X) a).
Proof. by intros st. Qed.

Lemma grows_lift {A} (r : result A) : grows (lift (S:=gset X) r).
Proof. by intros st. Qed.

Lemma grows_add (x : X) : grows (add x).
Proof. intros st. simpl. set_solver. Qed.

Lemma grows_bind {A B} (c : stmt (gset X) A) (k : A -> stmt (gset X) B) :
  grows c -> (forall a, grows (k a)) -> grows (bind c k).
Proof.
  intros Hc Hk st. unfold bind. specialize (Hc st).
  destruct (c st) as [[a|e] st']; simpl in *; [|done].
  specialize (Hk a st'). set_solver.
Qed.

Lemma grows_for_each {Y} (l : list Y) (body : Y -> stmt (gset X) unit) :
  (forall y, grows (body y)) -> grows (for_each l body).
Proof.
  intros Hbody. induction l as [|y l IH]; simpl; [apply grows_ret|].
  apply grows_bind; [apply Hbody|]. by intros _.
Qed.

Lemma grows_try_except (body : stmt (gset X) unit)
    (handler : exn -> stmt (gset X) unit) :
  grows body -> (forall e, grows (handler e)) -> grows (try_except body handler).
Proof.
  intros Hb Hh st. unfold try_except. specialize (Hb st).
  destruct (body st) as [[[]|e] st']; simpl in *; [done|].
  specialize (Hh e st'). set_solver.
Qed.

Lemma grows_for_line (f : text_file) (body : string -> stmt (gset X) unit) :
  (forall line, grows (body line)) -> grows (for_line f body).
Proof.
  intros Hbody. unfold for_line. apply grows_bind.
  - by apply grows_for_each.
  - intros _. destruct (f_error f); [apply grows_lift|apply grows_ret].
Qed.

Lemma adds_bind {A B} (x : X) (c : stmt (gset X) A) (k : A -> stmt (gset X) B) :
  adds x c -> (forall a, grows (k a)) -> adds x (bind c k).
Proof.
  intros Hc Hk st. unfold bind. specialize (Hc st).
  destruct (c st) as [[a|e] st']; simpl in *; [|done].
  specialize (Hk a st'). set_solver.
Qed.

Lemma adds_try_except (x : X) (body : stmt (gset X) unit)
    (handler : exn -> stmt (gset X) unit) :
  adds x body -> (forall e, grows (handler e)) -> adds x (try_except body handler).
Proof.
  intros Hb Hh st. unfold try_except. specialize (Hb st).
  destruct (body st) as [[[]|e] st']; simpl in *; [done|].
  specialize (Hh e st'). set_solver.
Qed.

(** A loop whose turns all return and only add leaves in the set what one
    of its turns adds. *)
Lemma adds_for_each {Y} (x : X) (l : list Y) (body : Y -> stmt (gset X) unit) y :
  In y l ->
  (forall y', In y' l -> returns (body y')) ->
  (forall y', grows (body y')) ->
  adds x (body y) ->
  adds x (for_each l body).
Proof.
  intros Hy Hret Hgrows Hadds.
  induction l as [|y' l IH]; [done|]. simpl.
  destruct Hy as [->|Hy].
  - apply adds_bind; [done|]. intros _. by apply grows_for_each.
  - intros st. unfold bind. destruct (Hret y' (or_introl eq_refl) st) as [[] Hok].
    destruct (body y' st) as [[[]|e] st']; simpl in *; [|done].
    apply IH; [done|]. intros; apply Hret; by right.
Qed.

End set_blocks.

(** ** The listing of a set *)

Section listing.
Context {A : Type} (rank : A -> nat).

Lemma insert_by_perm x l : insert_by rank x l ≡ₚ x :: l.
Proof.
  induction l as [|y l IH]; simpl; [done|].
  destruct (rank x <=? rank y); [done|].
  rewrite IH. apply Permutation_swap.
Qed.

Lemma sort_by_perm l : sort_by rank l ≡ₚ l.
Proof.
  induction l as [|x l IH]; simpl; [done|].
  by rewrite insert_by_perm, IH.
Qed.

Lemma sort_by_ext (rank' : A -> nat) l :
  (forall x, rank x = rank' x) -> sort_by rank l = sort_by rank' l.
Proof.
  intros Hrank. induction l as [|x l IH]; simpl; [done|].
  rewrite IH. generalize (sort_by rank' l). intros l'.
  induction l' as [|y l' IH']; simpl; [done|].
  by rewrite !Hrank, IH'.
Qed.

End listing.

(** [list(s)] holds the elements of the set, each once. *)
Lemma set_listing_perm (H : Host) (s : gset triple) : set_listing H s ≡ₚ elements s.
Proof. apply sort_by_perm. Qed.

Lemma set_listing_in (H : Host) (s : gset triple) t : In t (set_listing H s) <-> t ∈ s.
Proof.
  by rewrite <- list_elem_of_In, set_listing_perm, elem_of_elements.
Qed.

Lemma set_listing_nodup (H : Host) (s : gset triple) : NoDup (set_listing H s).
Proof. rewrite set_listing_perm. apply NoDup_elements. Qed.

(** ** The inline import scanner, continued *)

Section scanner.
Context (H : Host) (python_version : string).

Lemma extract_scan project_path :
  extract_python_file_dependencies H project_path python_version
  = run_function (∅ : gset triple)
      (for_each (os_walk H project_path) (fun '(root, _, files) =>
         for_each files (scan_file H python_version root)) ;;
       dependencies <- get ;;
       ret (set_listing H dependencies))%stmt.
Proof. reflexivity. Qed.

Lemma scan_line_module file_path line :
  scan_line H file_path python_version line
  = match line_module line with
    | Some module =>
        (builtin <- lift (is_builtin_module H module) ;;
         if negb builtin
         then add (file_path, module, python_version)
         else pass)%stmt
    | None => pass
    end.
Proof.
  unfold scan_line, line_module.
  by destruct (Re.rmatch import_pattern line).
Qed.

Lemma scan_line_grows file_path line :
  grows (scan_line H file_path python_version line).
Proof.
  rewrite scan_line_module. destruct (line_module line); [|apply grows_ret].
  apply grows_bind; [apply grows_lift|].
  intros []; simpl; [apply grows_ret|apply grows_add].
Qed.

Lemma scan_file_grows root file : grows (scan_file H python_version root file).
Proof.
  unfold scan_file. destruct (PyStr.endswith file ".py"); [|apply grows_ret].
  apply grows_try_except; [|intros; apply grows_ret].
  apply grows_bind; [apply grows_lift|]. intros f.
  apply grows_for_line. intros line. apply scan_line_grows.
Qed.

Lemma scan_file_returns root file :
  returns (scan_file H python_version root file).
Proof.
  unfold scan_file. destruct (PyStr.endswith file ".py"); [|apply returns_ret].
  apply returns_try_except. intros e. apply returns_ret.
Qed.

Lemma scan_line_returns file_path line :
  (forall module, line_module line = Some module ->
                  exists b, is_builtin_module H module = Ok b) ->
  returns (scan_line H file_path python_version line).
Proof.
  intros Hprobe. rewrite scan_line_module.
  destruct (line_module line) as [module|]; [|apply returns_ret].
  destruct (Hprobe module eq_refl) as [b Hb]. rewrite Hb.
  intros st. unfold bind, lift. destruct b; simpl; by exists tt.
Qed.

Lemma scan_line_adds file_path line module :
  line_module line = Some module ->
  is_builtin_module H module = Ok false ->
  adds (file_path, module, python_version)
       (scan_line H file_path python_version line).
Proof.
  intros Hline Hprobe. rewrite scan_line_module, Hline, Hprobe.
  intros st. simpl. set_solver.
Qed.

(** A line adds nothing but the triple of its own module, and only when
    the probe lets the module pass. *)
Lemma scan_line_preserves (I : gset triple -> Prop) file_path line :
  (forall module st,
      line_module line = Some module ->
      is_builtin_module H module = Ok false ->
      I st -> I ({[(file_path, module, python_version)]} ∪ st)) ->
  preserves I (scan_line H file_path python_version line).
Proof.
  intros Hadd. rewrite scan_line_module.
  destruct (line_module line) as [module|]; [|apply preserves_ret].
  apply preserves_bind_lift. intros [] Hb; simpl; [apply preserves_ret|].
  intros st Hst. by apply Hadd.
Qed.

Lemma scan_file_preserves walk root dirs files file :
  In (root, dirs, files) walk -> In file files ->
  preserves (all_imported H walk python_version)
    (scan_file H python_version root file).
Proof.
  intros Hdir Hfile. unfold scan_file.
  destruct (PyStr.endswith file ".py") eqn:Hpy; [|apply preserves_ret].
  apply preserves_try_except; [|intros; apply preserves_ret].
  apply preserves_bind_lift. intros f Hf.
  apply preserves_for_line. intros line Hline.
  apply scan_line_preserves. intros module st Hmod Hprobe Hst t.
  rewrite elem_of_union, elem_of_singleton. intros [->|Ht]; [|by apply Hst].
  exists (path_join H root file), f, line, module.
  split; [|done]. by exists root, dirs, files, file.
Qed.

(** The scanner returns, and what it lists is the set its loops build. *)
Lemma extract_set project_path :
  exists st : gset triple,
    extract_python_file_dependencies H project_path python_version
    = Ok (set_listing H st)
    /\ st = (for_each (os_walk H project_path) (fun '(root, _, files) =>
               for_each files (scan_file H python_version root)) ∅).2.
Proof.
  rewrite extract_scan. unfold run_function, bind at 1.
  set (loops := for_each _ _).
  assert (Hret : returns loops).
  { apply returns_for_each. intros [[root dirs] files].
    apply returns_for_each. apply scan_file_returns. }
  destruct (Hret ∅) as [[] Hok].
  destruct (loops ∅) as [[[]|e] st] eqn:Hloops; [|done].
  by exists st.
Qed.

Lemma scanner_reports_lemma project_path :
  exists deps,
    extract_python_file_dependencies H project_path python_version = Ok deps
    /\ NoDup deps
    /\ forall t, In t deps ->
         imported H (os_walk H project_path) python_version t.
Proof.
  destruct (extract_set project_path) as (st & Hrun & Hst).
  exists (set_listing H st). split; [done|].
  split; [apply set_listing_nodup|].
  intros t Ht%set_listing_in.
  assert (Hinv : all_imported H (os_walk H project_path) python_version st).
  { rewrite Hst.
    apply (preserves_for_each
             (all_imported H (os_walk H project_path) python_version)).
    - intros [[root dirs] files] Hdir.
      apply preserves_for_each. intros file Hfile.
      by eapply scan_file_preserves.
    - by intros t'. }
  by apply Hinv.
Qed.

(** X11: the scanner always returns; its list has no triple twice; and
    every triple it lists names a source file of the walk that could be
    opened, a module that a line of that file imports (the first dotted
    segment after [import] or [from]) and that the probe did not take for
    a builtin one, and the label it was given. *)
Theorem scanner_reports_imports project_path :
  exists deps,
    extract_python_file_dependencies H project_path python_version = Ok deps
    /\ NoDup deps
    /\ forall t, In t deps ->
         imported H (os_walk H project_path) python_version t.
Proof. apply scanner_reports_lemma. Qed.

Lemma scan_file_adds root file f line module :
  (forall line' module', In line' (f_lines f) ->
      line_module line' = Some module' ->
      exists b, is_builtin_module H module' = Ok b) ->
  PyStr.endswith file ".py" = true ->
  open_text H (path_join H root file) = Ok f ->
  In line (f_lines f) ->
  line_module line = Some module ->
  is_builtin_module H module = Ok false ->
  adds (path_join H root file, module, python_version)
       (scan_file H python_version root file).
Proof.
  intros Hprobe Hpy Hf Hline Hmod Hpass. unfold scan_file. rewrite Hpy, Hf.
  apply adds_try_except; [|intros; apply grows_ret].
  rewrite bind_lift_ok. unfold for_line. apply adds_bind.
  - apply (adds_for_each _ _ _ line); [done| | |].
    + intros line' Hline'. apply scan_line_returns. eauto.
    + intros line'. apply scan_line_grows.
    + by apply scan_line_adds.
  - intros _. destruct (f_error f); [apply grows_lift|apply grows_ret].
Qed.

(** X12: when the probe raises on no module of the scanned lines, nothing
    is lost: the scanner lists exactly the triples of the modules that
    the lines of the source files import and the probe lets pass, also
    from a file whose decoding fails after its last line. *)
Theorem scanner_complete project_path deps :
  (forall file_path f line module,
      scanned H (os_walk H project_path) file_path f ->
      In line (f_lines f) ->
      line_module line = Some module ->
      exists b, is_builtin_module H module = Ok b) ->
  extract_python_file_dependencies H project_path python_version = Ok deps ->
  forall t, In t deps <-> imported H (os_walk H project_path) python_version t.
Proof.
  intros Hprobe Hrun t. split.
  - destruct (scanner_reports_lemma project_path) as (deps' & Hrun' & _ & Hall).
    rewrite Hrun in Hrun'. injection Hrun' as <-. apply Hall.
  - intros (file_path & f & line & module & Hscan & Hline & Hmod & Hpass & ->).
    assert (Hlines : forall line' module', In line' (f_lines f) ->
              line_module line' = Some module' ->
              exists b, is_builtin_module H module' = Ok b)
      by (intros; by eapply Hprobe).
    destruct Hscan as (root & dirs & files & file & Hdir & Hfile & Hpy & -> & Hf).
    destruct (extract_set project_path) as (st & Hrun' & Hst).
    rewrite Hrun in Hrun'. injection Hrun' as ->.
    apply set_listing_in. rewrite Hst.
    apply (adds_for_each _ _ _ (root, dirs, files)); [done| | |].
    + intros [[root' dirs'] files'] _. apply returns_for_each.
      apply scan_file_returns.
    + intros [[root' dirs'] files']. apply grows_for_each.
      apply scan_file_grows.
    + apply (adds_for_each _ _ _ file); [done| | |].
      * intros; apply scan_file_returns.
      * apply scan_file_grows.
      * by eapply scan_file_adds.
Qed.

Lemma for_each_app {S Y} (l1 l2 : list Y) (body : Y -> stmt S unit) st :
  for_each (l1 ++ l2) body st
  = bind (for_each l1 body) (fun _ => for_each l2 body) st.
Proof.
  revert st. induction l1 as [|y l1 IH]; intros st; [done|].
  simpl. unfold bind. destruct (body y st) as [[[]|e] st']; [|done].
  rewrite IH. done.
Qed.

Lemma for_each_returns_in {S Y} (l : list Y) (body : Y -> stmt S unit) st :
  (forall y, In y l -> returns (body y)) ->
  (for_each l body st).1 = Ok tt.
Proof.
  revert st. induction l as [|y l IH]; intros st Hret; [done|].
  simpl. unfold bind. destruct (Hret y (or_introl eq_refl) st) as [[] Hy].
  destruct (body y st) as [[[]|e] st']; [|done].
  apply IH. intros; apply Hret; by right.
Qed.

(** The lines of one file up to a line on which the probe raises: what
    the scan of the file leaves in the set. *)
Lemma scan_lines_stop file_path before bad after module e st :
  line_module bad = Some module ->
  is_builtin_module H module = Raise e ->
  (forall line m, In line before -> line_module line = Some m ->
                  exists b, is_builtin_module H m = Ok b) ->
  for_each (before ++ bad :: after) (scan_line H file_path python_version) st
  = (Raise e,
     (for_each before (scan_line H file_path python_version) st).2).
Proof.
  intros Hbad Hraise Hprobe. rewrite for_each_app. unfold bind at 1.
  pose proof (for_each_returns_in before
                (scan_line H file_path python_version) st) as Hret.
  destruct (for_each before (scan_line H file_path python_version) st)
    as [r st1]. simpl in *.
  rewrite Hret.
  - simpl. rewrite (scan_line_module file_path bad), Hbad, Hraise. done.
  - intros line Hline. apply scan_line_returns. eauto.
Qed.

(** X13: a line on which the probe raises ends the scan of its file.  In
    a project of one source file, when the probe raises on the module of
    a line (as [find_spec] does on [__main__] in a script, for a line
    [import __main__]), the scanner returns what the lines before that
    line import, and nothing of the lines after it. *)
Theorem scanner_stops_at_probe_error project_path root dirs file f
    before bad after module e deps :
  os_walk H project_path = [(root, dirs, [file])] ->
  PyStr.endswith file ".py" = true ->
  open_text H (path_join H root file) = Ok f ->
  f_lines f = before ++ bad :: after ->
  line_module bad = Some module ->
  is_builtin_module H module = Raise e ->
  (forall line m, In line before -> line_module line = Some m ->
                  exists b, is_builtin_module H m = Ok b) ->
  extract_python_file_dependencies H project_path python_version = Ok deps ->
  forall t,
    In t deps
    <-> exists line m,
          In line before /\ line_module line = Some m
          /\ is_builtin_module H m = Ok false
          /\ t = (path_join H root file, m, python_version).
Proof.
  intros Hwalk Hpy Hf Hlines Hbad Hraise Hprobe Hrun t.
  destruct (extract_set project_path) as (st & Hrun' & Hst).
  rewrite Hrun in Hrun'. injection Hrun' as ->.
  assert (Hst' : st = (for_each before
                         (scan_line H (path_join H root file) python_version)
                         ∅).2).
  { rewrite Hst, Hwalk. simpl. unfold bind, scan_file. rewrite Hpy, Hf.
    unfold try_except. rewrite bind_lift_ok. unfold for_line, bind.
    rewrite Hlines, (scan_lines_stop _ _ _ _ _ _ _ Hbad Hraise Hprobe).
    done. }
  rewrite set_listing_in, Hst'. split.
  - revert t.
    apply (preserves_for_each
             (fun st => forall t, t ∈ st ->
                exists line m, In line before /\ line_module line = Some m
                  /\ is_builtin_module H m = Ok false
                  /\ t = (path_join H root file, m, python_version))).
    + intros line Hline. apply scan_line_preserves.
      intros m st0 Hm Hpass Hst0 t.
      rewrite elem_of_union, elem_of_singleton. intros [->|Ht]; eauto.
      by exists line, m.
    + by intros t.
  - intros (line & m & Hline & Hm & Hpass & ->).
    apply (adds_for_each _ _ _ line); [done| | |].
    + intros line' Hline'. apply scan_line_returns. eauto.
    + intros line'. apply scan_line_grows.
    + by apply scan_line_adds.
Qed.

End scanner.

(** ** The import pattern *)

Section import_lines.
Import PyStr Re.

Ltac by_cases c :=
  destruct c as [[] [] [] [] [] [] [] []]; vm_compute; auto.

Lemma module_char_no_space c : is_module_char c = true -> is_space c = false.
Proof. by_cases c. Qed.

Lemma run_seq {R} r1 r2 s g (k : string -> groups -> option R) :
  run (Seq r1 r2) s g k = run r1 s g (fun s' g' => run r2 s' g' k).
Proof. reflexivity. Qed.

Lemma run_star_greedy {R} p s g (k : string -> groups -> option R) x :
  k (drop_while p s) g = Some x -> run (Star p) s g k = Some x.
Proof. intros Hk. simpl. by apply star_greedy. Qed.

Lemma run_plus_greedy {R} p s g (k : string -> groups -> option R) x :
  starts_with p s = true ->
  k (drop_while p s) g = Some x -> run (Plus p) s g k = Some x.
Proof.
  intros Hs Hk. destruct s as [|c s]; [done|]. simpl in *.
  rewrite Hs in *. by apply star_greedy.
Qed.

Lemma strip_prefix_app l s : strip_prefix l (l +:+ s) = Some s.
Proof.
  induction l as [|c l IH]; [done|]. rewrite append_cons. simpl.
  by rewrite Ascii.eqb_refl.
Qed.

Lemma run_lit {R} l s g (k : string -> groups -> option R) :
  run (Lit l) (l +:+ s) g k = k s g.
Proof. simpl. by rewrite strip_prefix_app. Qed.

(** X14: the lines the scanner takes for imports.  A line made of any
    indentation, the word [import] or [from], white space and a dotted
    name is matched, and the module of the line is the part of the name
    before its first dot. *)
Theorem line_module_import indent keyword gap name rest :
  take_while is_space indent = indent ->
  keyword = "import" \/ keyword = "from" ->
  starts_with is_space gap = true ->
  take_while is_space gap = gap ->
  starts_with is_module_char name = true ->
  take_while is_module_char name = name ->
  starts_with is_module_char rest = false ->
  line_module (indent +:+ keyword +:+ gap +:+ name +:+ rest)
  = Some (split_first "."%char name).
Proof.
  intros Hindent Hkey Hgs Hgap Hns Hname Hrest.
  assert (Hm : rmatch import_pattern
                 (indent +:+ keyword +:+ gap +:+ name +:+ rest)
               = Some (<[1:=name]> ∅)).
  { unfold rmatch, import_pattern. rewrite run_seq.
    apply run_star_greedy.
    destruct (take_while_app is_space indent
                (keyword +:+ gap +:+ name +:+ rest) Hindent) as [_ ->].
    { by destruct Hkey as [-> | ->]. }
    rewrite run_seq.
    assert (Hafter :
      run (Seq (Plus is_space) (Group 1 (Plus is_module_char)))
        (gap +:+ name +:+ rest) ∅ accept = Some (<[1:=name]> ∅)).
    { rewrite run_seq. apply run_plus_greedy; [by apply starts_with_app|].
      destruct (take_while_app is_space gap (name +:+ rest) Hgap) as [_ ->].
      { apply (starts_with_impl is_module_char);
          [apply module_char_no_space|by apply starts_with_app]. }
      change (run (Group 1 (Plus is_module_char)) (name +:+ rest) ∅ accept)
        with (run (Plus is_module_char) (name +:+ rest) ∅
                (fun s' g' => accept s' (<[1:=consumed (name +:+ rest) s']> g'))).
      apply run_plus_greedy; [by apply starts_with_app|].
      destruct (take_while_app is_module_char name rest Hname Hrest) as [_ ->].
      by rewrite consumed_app. }
    destruct Hkey as [-> | ->].
    - change (run (Alt (Lit "import") (Lit "from")) ?s ?g ?k)
        with (or_else (run (Lit "import") s g k) (run (Lit "from") s g k)).
      apply or_else_some. by rewrite run_lit.
    - change (run (Alt (Lit "import") (Lit "from")) ?s ?g ?k)
        with (or_else (run (Lit "import") s g k) (run (Lit "from") s g k)).
      change (run (Lit "import") ("from" +:+ ?s) ?g ?k) with (@None groups).
      unfold or_else. by rewrite run_lit. }
  unfold line_module, group_or_empty. rewrite Hm.
  by rewrite lookup_insert_eq.
Qed.

Lemma line_module_import_witness :
  line_module "    from os.path import join" = Some "os".
Proof.
  apply (line_module_import "    " "from" " " "os.path" " import join");
    auto; reflexivity.
Defined.

End import_lines.

(** ** The plain requirement list *)

Section requirement_list.
Import PyStr.

Lemma split_eqeq_cons_ne c s :
  Ascii.eqb c "="%char = false ->
  split_eqeq (String c s) = cons_head c (split_eqeq s).
Proof. intros Hc. simpl. rewrite Hc. by destruct s. Qed.

Lemma split_eqeq_no_separator s :
  contains s "==" = false -> split_eqeq s = [s].
Proof.
  induction s as [|c s IH]; [done|].
  intros Hs. simpl in Hs. apply orb_false_iff in Hs as [Hstart Hs].
  specialize (IH Hs). simpl. rewrite IH.
  destruct s as [|d s]; [done|].
  unfold startswith in Hstart.
  change (strip_prefix "==" (String c (String d s)))
    with (if Ascii.eqb "=" c
          then if Ascii.eqb "=" d then Some s else None
          else None) in Hstart.
  rewrite (Ascii.eqb_sym c), (Ascii.eqb_sym d).
  destruct (Ascii.eqb "=" c); [|done].
  by destruct (Ascii.eqb "=" d).
Qed.

Lemma split_eqeq_prefix name rest :
  take_while (not_char "="%char) name = name ->
  split_eqeq (name +:+ "==" +:+ rest) = name :: split_eqeq rest.
Proof.
  induction name as [|c name IH]; intros Hname.
  - reflexivity.
  - simpl in Hname. destruct (not_char "=" c) eqn:Hc; [|done].
    injection Hname as Hname. rewrite append_cons.
    rewrite split_eqeq_cons_ne, (IH Hname); [done|].
    unfold not_char, is_char in Hc. rewrite Ascii.eqb_sym.
    by destruct (Ascii.eqb "=" c).
Qed.

Lemma split_eqeq_nonempty s : exists part parts, split_eqeq s = part :: parts.
Proof.
  induction s as [|c s IH]; [by eexists _, _|].
  destruct IH as (part & parts & IH). simpl. rewrite IH.
  destruct s as [|d s]; [by eexists _, _|].
  destruct (Ascii.eqb c "=" && Ascii.eqb d "="); by eexists _, _.
Qed.

Lemma pip_record_ok path line : exists record, pip_record path line = Ok record.
Proof.
  unfold pip_record. destruct (split_eqeq_nonempty line) as (part & parts & ->).
  by eexists.
Qed.

Lemma startswith_hash s : startswith s "#" = starts_with (is_char "#"%char) s.
Proof.
  destruct s as [|c s]; [done|]. unfold startswith, is_char.
  change (strip_prefix "#" (String c s))
    with (if Ascii.eqb "#" c then Some s else None).
  cbn [starts_with]. by destruct (Ascii.eqb "#" c).
Qed.

(** One turn of the loop over the lines appends the records of the
    line. *)
Lemma pip_line_step path line st :
  (let line := strip line in
   if truthy line && negb (startswith line "#") then
     record <- lift (pip_record path line) ;;
     append record
   else pass)%stmt st
  = (Ok tt, st ++ pip_line path line).
Proof.
  unfold pip_line, significant. simpl.
  destruct (truthy (strip line) && negb (startswith (strip line) "#"));
    [|by rewrite app_nil_r].
  by destruct (pip_record_ok path (strip line)) as [record ->].
Qed.

(** X15: a requirement list that cannot be opened gives the empty list;
    one that opens gives the records of its lines in order, a record for
    every line that, stripped, is neither empty nor a comment, and these
    records are returned also when the decoding of the file fails after
    them. *)
Theorem get_pip_dependencies_lines H requirements_file :
  get_pip_dependencies H requirements_file
  = Ok match open_text H requirements_file with
       | Ok f => flat_map (pip_line requirements_file) (f_lines f)
       | Raise _ => []
       end.
Proof.
  unfold get_pip_dependencies, run_function, pip_block.
  destruct (open_text H requirements_file) as [f|e]; [|done].
  rewrite bind_lift_ok. unfold bind at 1, try_except, for_line, bind.
  rewrite (for_each_blocks _ (pip_line requirements_file))
    by (intros line _ st; apply pip_line_step).
  by destruct (f_error f).
Qed.

Lemma truthy_app a c b : truthy (a +:+ String c b) = true.
Proof. destruct a; [done|]. by rewrite append_cons. Qed.

(** X16: how a line of a requirement list is split.  A line without [==]
    is taken whole as the package, with version [Unknown], whatever other
    constraint it holds; a line [name==version] gives the stripped name
    and the stripped version. *)
Theorem pip_line_forms requirements_file line :
  (significant line = true ->
   contains (strip line) "==" = false ->
   pip_line requirements_file line
   = [(requirements_file, strip line, "Unknown")])
  /\ (forall name version,
        strip line = name +:+ "==" +:+ version ->
        take_while (not_char "="%char) name = name ->
        starts_with (is_char "#"%char) name = false ->
        contains version "==" = false ->
        pip_line requirements_file line
        = [(requirements_file, strip name, strip version)]).
Proof.
  split.
  - intros Hsig Hno. unfold pip_line, pip_record. rewrite Hsig.
    by rewrite (split_eqeq_no_separator _ Hno), strip_idem.
  - intros name version Hline Hname Hhash Hversion.
    unfold pip_line, pip_record, significant. rewrite Hline.
    change (name +:+ "==" +:+ version)
      with (name +:+ String "=" (String "=" version)).
    rewrite truthy_app, startswith_hash.
    change (name +:+ String "=" (String "=" version))
      with (name +:+ "==" +:+ version).
    assert (Hstart : starts_with (is_char "#"%char)
                       (name +:+ "==" +:+ version) = false).
    { destruct name as [|c name]; [done|]. by rewrite append_cons. }
    rewrite Hstart. simpl.
    by rewrite (split_eqeq_prefix _ _ Hname),
         (split_eqeq_no_separator _ Hversion).
Qed.

Lemma pip_line_forms_witness :
  pip_line "requirements.txt" "pkg>=1.0"
  = [("requirements.txt", "pkg>=1.0", "Unknown")]
  /\ pip_line "requirements.txt" "  flask == 2.0.1 "
     = [("requirements.txt", "flask", "2.0.1")].
Proof.
  split.
  - apply (proj1 (pip_line_forms "requirements.txt" "pkg>=1.0")); reflexivity.
  - apply (proj2 (pip_line_forms "requirements.txt" "  flask == 2.0.1 ")
             "flask " " 2.0.1"); reflexivity.
Defined.

End requirement_list.

(** ** The lock file, the environment file, the Pipfile and the packaging
    script *)

Section manifests.
Context (H : Host) (L : Loaders).

Lemma append_step {X} (x : X) (st : list X) : append x st = (Ok tt, st ++ [x]).
Proof. reflexivity. Qed.

Lemma project_record_step path spec (st : list triple) :
  (pv <- lift (split_dependency_value (TStr spec)) ;;
   let '(package, version) := pv in
   append (path, package, version))%stmt st
  = (Ok tt, st ++ [project_record path spec]).
Proof.
  simpl. unfold bind, lift, project_record.
  by destruct (split_dependency spec).
Qed.

Lemma omap_strings (specs : list string) :
  omap (fun x => match x with TStr spec => Some spec | _ => None end)
       (TStr <$> specs) = specs.
Proof.
  induction specs as [|spec specs IH]; [done|]. simpl. f_equal. exact IH.
Qed.

Lemma flat_map_fmap {A B C} (f : A -> B) (g : B -> list C) (l : list A) :
  flat_map g (f <$> l) = flat_map (fun a => g (f a)) l.
Proof.
  induction l as [|a l IH]; [done|]. simpl. f_equal. exact IH.
Qed.

Lemma fmap_flat_map {A B C} (f : B -> C) (g : A -> list B) (l : list A) :
  f <$> flat_map g l = flat_map (fun a => f <$> g a) l.
Proof.
  induction l as [|a l IH]; [done|]. simpl. by rewrite fmap_app, IH.
Qed.

(** One turn of the loop over the entries of an environment file. *)
Lemma conda_entry_step env_file dep st :
  conda_entry_ok dep ->
  match dep with
  | TStr spec =>
      let '(package, version) := split_dependency spec in
      append (env_file, package, version)
  | TTable _ =>
      (has_pip <- lift (py_in "pip" dep) ;;
       if has_pip : bool then
         pip <- lift (py_getitem "pip" dep) ;;
         pip <- lift (py_iter pip) ;;
         for_each pip (fun pip_dep =>
           pv <- lift (split_dependency_value pip_dep) ;;
           let '(package, version) := pv in
           append (env_file, package, version))
       else pass)%stmt
  | _ => pass
  end st
  = (Ok tt, st ++ (project_record env_file <$> conda_specs dep)).
Proof.
  intros Hok. destruct dep as [spec|n|b|repr|l|items]; simpl;
    try by rewrite app_nil_r.
  - unfold project_record. by destruct (split_dependency spec).
  - simpl in Hok. destruct (assoc "pip" items) as [pip|] eqn:Hpip.
    + destruct Hok as [specs ->].
      rewrite bool_decide_eq_true_2 by eauto. rewrite !bind_lift_ok.
      rewrite omap_strings. simpl py_iter. rewrite bind_lift_ok.
      rewrite (for_each_blocks _ (fun pip_dep =>
                 match pip_dep with
                 | TStr spec => [project_record env_file spec]
                 | _ => []
                 end)).
      * f_equal. f_equal. rewrite flat_map_fmap. apply flat_map_singleton.
      * intros pip_dep (spec & <- & _)%in_map_iff st'.
        apply project_record_step.
    + rewrite bool_decide_eq_false_2 by (by intros [? ?]).
      rewrite bind_lift_ok. simpl. by rewrite app_nil_r.
Qed.

(** X18: an environment file that opens and loads gives the records of
    the entries of its [dependencies] list, in order: a string entry is
    split; a mapping with a [pip] list of strings gives one record per
    string; any other entry gives none. *)
Theorem get_conda_dependencies_entries env_file f data deps :
  open_text H env_file = Ok f ->
  yaml_safe_load L f = Ok (TTable data) ->
  assoc "dependencies" data = Some (TList deps) ->
  (forall dep, In dep deps -> conda_entry_ok dep) ->
  get_conda_dependencies H L env_file
  = Ok (project_record env_file <$> flat_map conda_specs deps).
Proof.
  intros Hf Hload Hdeps Hok.
  unfold get_conda_dependencies, run_function, conda_block.
  rewrite Hf, bind_lift_ok, Hload, bind_lift_ok.
  simpl py_get. rewrite Hdeps, bind_lift_ok. simpl py_iter.
  rewrite bind_lift_ok. unfold bind at 1, try_except.
  rewrite (for_each_blocks _
             (fun dep => project_record env_file <$> conda_specs dep)).
  - simpl. by rewrite fmap_flat_map.
  - intros dep Hdep st. by apply conda_entry_step, Hok.
Qed.

(** X20: a manifest that cannot be read is no error to the caller.  The
    three parsers that load TOML return the empty list for every file:
    the loader is handed a path, or a file opened in text mode, and
    raises, and the handler takes the exception.  The environment parser
    returns the empty list when the file cannot be opened or its loader
    raises, the requirement parser when the file cannot be opened. *)
Theorem manifest_unreadable_empty path e :
  (extract_pyproject_dependencies H path = Ok []
   /\ extract_pipfile_dependencies H path = Ok [])
  /\ extract_poetry_lock_dependencies H path = Ok []
  /\ (open_text H path = Raise e
      \/ (exists f, open_text H path = Ok f /\ yaml_safe_load L f = Raise e) ->
      get_conda_dependencies H L path = Ok [])
  /\ (open_text H path = Raise e -> get_pip_dependencies H path = Ok []).
Proof.
  split; [|split; [|split]].
  - split; reflexivity.
  - unfold extract_poetry_lock_dependencies, run_function, poetry_lock_block.
    destruct (open_text H path) as [f|]; [|done].
    rewrite bind_lift_ok. unfold toml_load_text.
    by destruct (f_read f).
  - unfold get_conda_dependencies, run_function, conda_block.
    intros [Hopen|(f & Hopen & Hload)]; rewrite Hopen; [done|].
    by rewrite bind_lift_ok, Hload.
  - intros Hopen. unfold get_pip_dependencies, run_function, pip_block.
    by rewrite Hopen.
Qed.

(** X21: what a parser appended before an exception stays in its result.
    In an environment file whose [pip] list holds an item that is no
    string, the parser returns the records of the entries before the
    list and of the strings of the list before that item, and nothing of
    what follows. *)
Theorem get_conda_dependencies_partial env_file f data
    before items specs x rest after :
  open_text H env_file = Ok f ->
  yaml_safe_load L f = Ok (TTable data) ->
  assoc "dependencies" data
  = Some (TList (before ++ TTable items :: after)) ->
  (forall dep, In dep before -> conda_entry_ok dep) ->
  assoc "pip" items = Some (TList ((TStr <$> specs) ++ x :: rest)) ->
  (forall spec, x <> TStr spec) ->
  get_conda_dependencies H L env_file
  = Ok (project_record env_file <$> (flat_map conda_specs before ++ specs)).
Proof.
  intros Hf Hload Hdeps Hok Hpip Hx.
  unfold get_conda_dependencies, run_function, conda_block.
  rewrite Hf, bind_lift_ok, Hload, bind_lift_ok.
  simpl py_get. rewrite Hdeps, bind_lift_ok. simpl py_iter.
  rewrite bind_lift_ok. unfold bind at 1, try_except.
  rewrite for_each_app. unfold bind at 1.
  rewrite (for_each_blocks _
             (fun dep => project_record env_file <$> conda_specs dep))
    by (intros dep Hdep st; by apply conda_entry_step, Hok).
  simpl for_each. unfold bind at 1.
  rewrite Hpip, bool_decide_eq_true_2 by eauto.
  rewrite !bind_lift_ok. simpl py_iter. rewrite bind_lift_ok.
  rewrite for_each_app. unfold bind at 1.
  rewrite (for_each_blocks _ (fun pip_dep =>
             match pip_dep with
             | TStr spec => [project_record env_file spec]
             | _ => []
             end))
    by (intros pip_dep (spec & <- & _)%in_map_iff st';
        apply project_record_step).
  simpl for_each. unfold bind at 1. unfold bind at 1, lift at 1.
  assert (Hraise : split_dependency_value x = Raise AttributeError).
  { destruct x; try done. by destruct (Hx s). }
  rewrite Hraise. simpl.
  rewrite fmap_app, fmap_flat_map. do 2 f_equal.
  rewrite flat_map_fmap. by rewrite flat_map_singleton.
Qed.

(** One turn of the loop over the nodes of a packaging script. *)
Lemma setup_node_step (n : node) (st : list string) :
  match n with
  | ast_Call (ast_Name id _) _ keywords _ =>
      if String.eqb id "setup" then
        for_each keywords (fun keyword =>
          match keyword with
          | ast_keyword (Some arg) (ast_List elts _) =>
              if String.eqb arg "install_requires"
              then extend (str_items elts)
              else pass
          | _ => pass
          end)
      else pass
  | _ => pass
  end st
  = (Ok tt, st ++ install_requires_of n).
Proof.
  destruct n as [| | | |func args keywords lineno| | | |];
    try (simpl; by rewrite app_nil_r).
  destruct func; try (simpl; by rewrite app_nil_r).
  simpl. destruct (String.eqb id "setup"); [|by rewrite app_nil_r].
  apply for_each_blocks. intros keyword _ st'.
  destruct keyword as [| | | | |[arg|] value| | |];
    try (simpl; by rewrite app_nil_r).
  destruct value; try (simpl; by rewrite app_nil_r).
  destruct (String.eqb arg "install_requires"); [done|].
  simpl. by rewrite app_nil_r.
Qed.

(** X22: a packaging script that opens and parses gives the records of
    the string literals in the [install_requires] lists of its calls of
    [setup], the calls taken in the breadth first order of [ast.walk];
    an [install_requires] that is no list literal, and any item of the
    list that is no string literal, gives nothing. *)
Theorem parse_setup_py_entries file_path f tree :
  open_text H file_path = Ok f ->
  parse_source H "<unknown>" f = Ok tree ->
  parse_setup_py H file_path
  = Ok (project_record file_path
          <$> flat_map install_requires_of (ast_walk tree)).
Proof.
  intros Hf Hparse. unfold parse_source in Hparse.
  unfold parse_setup_py, run_function.
  rewrite Hf, bind_lift_ok.
  destruct (f_read f) as [content|]; [|done].
  rewrite bind_lift_ok, Hparse, bind_lift_ok.
  unfold bind at 1.
  rewrite (for_each_blocks _ install_requires_of)
    by (intros n _ st; apply setup_node_step).
  reflexivity.
Qed.

End manifests.

(** ** The dependency aggregator *)

Section aggregator.
Context (H : Host) (L : Loaders).

Lemma find_in_walk_none walk filename :
  find_in_walk H walk filename = None
  <-> forall root dirs files, In (root, dirs, files) walk -> filename ∉ files.
Proof.
  induction walk as [|[[root dirs] files] walk IH]; simpl.
  - split; [by intros _ ? ? ? []|done].
  - case_bool_decide as Hin.
    + split; [done|]. intros Hall. exfalso. by eapply Hall; [left|].
    + rewrite IH. split.
      * intros Hall r d f [[= <- <- <-]|Hrest]; [done|by eapply Hall].
      * intros Hall r d f Hrest. eapply Hall. by right.
Qed.

Lemma find_in_walk_some walk filename path :
  find_in_walk H walk filename = Some path
  <-> exists before root dirs files after,
        walk = before ++ (root, dirs, files) :: after
        /\ filename ∈ files
        /\ (forall root' dirs' files',
              In (root', dirs', files') before -> filename ∉ files')
        /\ path = path_join H root filename.
Proof.
  induction walk as [|[[root dirs] files] walk IH]; simpl.
  - split; [done|]. intros (before & ? & ? & ? & ? & Hw & _).
    by destruct before.
  - case_bool_decide as Hin.
    + split.
      * intros [= <-]. exists [], root, dirs, files, walk. by repeat split.
      * intros (before & r & d & f & after & Hw & Hf & Hbefore & ->).
        destruct before as [|[[r' d'] f'] before]; simpl in Hw.
        -- by injection Hw as <- <- <- <-.
        -- injection Hw as <- <- <- Hw. exfalso.
           by eapply Hbefore; [left|].
    + rewrite IH. split.
      * intros (before & r & d & f & after & -> & Hf & Hbefore & ->).
        exists ((root, dirs, files) :: before), r, d, f, after.
        repeat split; [done|].
        intros r' d' f' [[= <- <- <-]|Hrest]; [done|by eapply Hbefore].
      * intros (before & r & d & f & after & Hw & Hf & Hbefore & ->).
        destruct before as [|[[r' d'] f'] before]; simpl in Hw.
        -- by injection Hw as <- <- <- <-.
        -- injection Hw as <- <- <- ->.
           exists before, r, d, f, after. repeat split; [done|].
           intros r' d' f'' Hrest. eapply Hbefore. by right.
Qed.

(** X23: [find_file] takes the first match of the walk.  It returns the
    path of the file in the first directory of the walk that lists the
    name, whatever later directories list, and nothing exactly when no
    directory lists the name. *)
Theorem find_file_first_match root_path filename :
  (find_file H root_path filename = None
   <-> forall root dirs files,
         In (root, dirs, files) (os_walk H root_path) -> filename ∉ files)
  /\ forall path,
       find_file H root_path filename = Some path
       <-> exists before root dirs files after,
             os_walk H root_path = before ++ (root, dirs, files) :: after
             /\ filename ∈ files
             /\ (forall root' dirs' files',
                   In (root', dirs', files') before -> filename ∉ files')
             /\ path = path_join H root filename.
Proof.
  split; [apply find_in_walk_none|]. intros path. apply find_in_walk_some.
Qed.

(** One turn of the loop over the manifest names. *)
Lemma manifest_step project_path filename
    (extractor : string -> result (list row)) st :
  match find_file H project_path filename with
  | Some file_path =>
      if PyStr.truthy file_path then
        try_except
          (rows <- lift (extractor file_path) ;;
           extend rows)%stmt
          (fun e => print "Error extracting")
      else pass
  | None => pass
  end st
  = (Ok tt, st ++ manifest_rows H project_path filename extractor).
Proof.
  unfold manifest_rows.
  destruct (find_file H project_path filename) as [file_path|];
    [|simpl; by rewrite app_nil_r].
  destruct (PyStr.truthy file_path); [|simpl; by rewrite app_nil_r].
  unfold try_except, bind, lift.
  destruct (extractor file_path) as [rows|e]; [done|].
  simpl. by rewrite app_nil_r.
Qed.

Lemma all_dependencies_rows project_path inline :
  extract_python_file_dependencies H project_path "Python" = Ok inline ->
  all_dependencies H L project_path
  = Ok (flat_map
          (fun '(filename, extractor) =>
             manifest_rows H project_path filename extractor)
          (dependency_files H L)
        ++ (row_of_triple <$> inline)).
Proof.
  intros Hinline.
  unfold all_dependencies, run_function, project_dependencies_block.
  rewrite Hinline. unfold bind at 1. unfold bind at 1.
  rewrite (for_each_blocks _
             (fun '(filename, extractor) =>
                manifest_rows H project_path filename extractor)).
  - reflexivity.
  - intros [filename extractor] _ st. apply manifest_step.
Qed.

(** X24: the aggregation always returns, and its rows are those of the
    manifests in the fixed order of the table of parsers (project
    metadata, lock file, Pipfile, environment file, requirement list,
    packaging script) followed by the rows of the inline scan.  A manifest
    that is not found, or whose parser raises as [parse_setup_py] does on
    a script it cannot parse, adds no row and takes none away. *)
Theorem all_dependencies_in_order project_path :
  exists inline,
    extract_python_file_dependencies H project_path "Python" = Ok inline
    /\ all_dependencies H L project_path
       = Ok (flat_map
               (fun '(filename, extractor) =>
                  manifest_rows H project_path filename extractor)
               (dependency_files H L)
             ++ (row_of_triple <$> inline)).
Proof.
  destruct (scanner_reports_lemma H "Python" project_path)
    as (inline & Hinline & _).
  exists inline. split; [done|]. by apply all_dependencies_rows.
Qed.

End aggregator.

(** ** Two runs on the same project *)

Section two_runs.
Context (H : Host) (L : Loaders).

(** The set the loops of the scanner build does not depend on the order
    in which the process lists a set. *)
Lemma extract_with_listing rank project_path python_version :
  exists st : gset triple,
    st = (for_each (os_walk H project_path) (fun '(root, _, files) =>
            for_each files (scan_file H python_version root)) ∅).2
    /\ extract_python_file_dependencies (with_listing rank H)
         project_path python_version
       = Ok (sort_by rank (elements st)).
Proof.
  destruct (extract_set (with_listing rank H) python_version project_path)
    as (st & Hrun & Hst).
  exists st. split; [exact Hst|exact Hrun].
Qed.

(** Nor does the file [find_file] finds, nor do the rows of the
    manifests. *)
Lemma find_file_with_listing rank root_path filename :
  find_file (with_listing rank H) root_path filename
  = find_file H root_path filename.
Proof.
  unfold find_file. simpl. generalize (os_walk H root_path). intros walk.
  induction walk as [|[[root dirs] files] walk IH]; simpl; [done|].
  by rewrite IH.
Qed.

Lemma manifests_with_listing rank project_path :
  flat_map
    (fun '(filename, extractor) =>
       manifest_rows (with_listing rank H) project_path filename extractor)
    (dependency_files (with_listing rank H) L)
  = flat_map
      (fun '(filename, extractor) =>
         manifest_rows H project_path filename extractor)
      (dependency_files H L).
Proof.
  change (dependency_files (with_listing rank H) L)
    with (dependency_files H L).
  apply flat_map_ext. intros [filename extractor].
  unfold manifest_rows. by rewrite find_file_with_listing.
Qed.

(** C8 as stated fails: the same project, listed by two interpreter
    processes that order their sets differently, gives two different
    sequences. *)
Lemma all_dependencies_order_differs :
  ~ (forall H L project_path rank1 rank2,
       all_dependencies (with_listing rank1 H) L project_path
       = all_dependencies (with_listing rank2 H) L project_path).
Proof.
  intros Hsame.
  specialize (Hsame Sample.project_interpreter
                (Fixture.loaders Fixture.no_document) "proj"
                Fixture.requests_first Fixture.requests_last).
  by vm_compute in Hsame.
Qed.

(** C8, amended: two runs on an unchanged tree return the same rows.  The
    rows of the manifests come first, the same in both runs and in the
    same order; the rows of the inline scan follow, the same triples in
    both runs, each once, in the order in which the interpreter process of
    the run lists a set, which can differ between the two runs and is the
    same when the two processes list alike. *)
Theorem all_dependencies_same_rows project_path rank1 rank2 :
  exists deps1 deps2,
    extract_python_file_dependencies (with_listing rank1 H) project_path
      "Python" = Ok deps1
    /\ extract_python_file_dependencies (with_listing rank2 H) project_path
         "Python" = Ok deps2
    /\ deps1 ≡ₚ deps2
    /\ NoDup deps1
    /\ ((forall t, rank1 t = rank2 t) -> deps1 = deps2)
    /\ all_dependencies (with_listing rank1 H) L project_path
       = Ok (flat_map
               (fun '(filename, extractor) =>
                  manifest_rows H project_path filename extractor)
               (dependency_files H L)
             ++ (row_of_triple <$> deps1))
    /\ all_dependencies (with_listing rank2 H) L project_path
       = Ok (flat_map
               (fun '(filename, extractor) =>
                  manifest_rows H project_path filename extractor)
               (dependency_files H L)
             ++ (row_of_triple <$> deps2)).
Proof.
  destruct (extract_with_listing rank1 project_path "Python")
    as (st1 & Hst1 & Hrun1).
  destruct (extract_with_listing rank2 project_path "Python")
    as (st2 & Hst2 & Hrun2).
  assert (st1 = st2) as <- by (by rewrite Hst1, Hst2).
  exists (sort_by rank1 (elements st1)), (sort_by rank2 (elements st1)).
  split; [done|]. split; [done|].
  split; [by rewrite !sort_by_perm|].
  split; [rewrite sort_by_perm; apply NoDup_elements|].
  split; [apply sort_by_ext|].
  split.
  - rewrite (all_dependencies_rows _ _ _ _ Hrun1).
    by rewrite manifests_with_listing.
  - rewrite (all_dependencies_rows _ _ _ _ Hrun2).
    by rewrite manifests_with_listing.
Qed.

End two_runs.

(** ** The properties at sample inputs *)

Lemma analyze_repo_open_failure_witness :
  analyze_repo Fixture.second_unopenable "repo"
  = Raise (Exception "No such file or directory").
Proof.
  apply (analyze_repo_open_failure Fixture.second_unopenable "repo"
           [] "repo" [] ["a.py"] "b.py" ["c.py"] []).
  - reflexivity.
  - by apply all_sources_open_sound.
  - by apply all_sources_open_sound.
  - reflexivity.
  - reflexivity.
Defined.

Lemma analyze_repo_records_witness :
  (record_category
     ("repo/broken.py", "error", "invalid syntax (broken.py, line 1)", (-1)%Z)
   = "import"
   \/ record_category
        ("repo/broken.py", "error", "invalid syntax (broken.py, line 1)",
         (-1)%Z) = "usage"
   \/ (record_category
         ("repo/broken.py", "error", "invalid syntax (broken.py, line 1)",
          (-1)%Z) = "error"
       /\ record_line
            ("repo/broken.py", "error", "invalid syntax (broken.py, line 1)",
             (-1)%Z) = (-1)%Z))
  /\ exists root dirs files file,
       In (root, dirs, files) (os_walk Sample.broken_first "repo")
       /\ In file files
       /\ PyStr.endswith file ".py" = true
       /\ record_file
            ("repo/broken.py", "error", "invalid syntax (broken.py, line 1)",
             (-1)%Z) = source_path Sample.broken_first root file.
Proof.
  apply (analyze_repo_records Sample.broken_first "repo"
           [("repo/broken.py", "error", "invalid syntax (broken.py, line 1)",
             (-1)%Z);
            ("repo/pkg/ok.py", "import", "json", 1%Z);
            ("repo/pkg/ok.py", "usage", "obj.method", 2%Z)]).
  - reflexivity.
  - by left.
Defined.

Lemma report_of_analysis_witness :
  In "repo/broken.py | USAGE | invalid syntax (broken.py, line 1) | Line: -1"
     (report_cells
        [("repo/broken.py", "error", "invalid syntax (broken.py, line 1)",
          (-1)%Z);
         ("repo/pkg/ok.py", "import", "json", 1%Z);
         ("repo/pkg/ok.py", "usage", "obj.method", 2%Z)]).
Proof.
  apply (proj2 (report_of_analysis Sample.broken_first "repo" _ eq_refl)
           ("repo/broken.py", "error", "invalid syntax (broken.py, line 1)",
            (-1)%Z)).
  by left.
Defined.

Lemma scanner_complete_witness :
  In ("proj/app.py", "requests", "Python")
     [("proj/app.py", "os", "Python"); ("proj/app.py", "requests", "Python")]
  <-> imported Sample.project_interpreter
        (os_walk Sample.project_interpreter "proj")
        "Python" ("proj/app.py", "requests", "Python").
Proof.
  apply (scanner_complete Sample.project_interpreter "Python" "proj").
  - intros file_path f line module
      (root & dirs & files & file & Hdir & Hfile & _ & -> & Hf) Hline Hmod.
    destruct Hdir as [[= <- <- <-]|[]]. destruct Hfile as [<-|[]].
    injection Hf as <-.
    destruct Hline as [<-|[<-|[]]]; injection Hmod as <-; by eexists.
  - reflexivity.
Defined.

(** A relative import is passed over and the scan goes on: the probe takes
    the empty name for a builtin module. *)
Example scanner_skips_relative_import :
  line_module ("from . import helpers" +:+ Sample.lf) = Some ""
  /\ is_builtin_module Fixture.with_relative_import "" = Ok true
  /\ extract_python_file_dependencies Fixture.with_relative_import
       "proj" "Python"
     = Ok [("proj/app.py", "os", "Python");
           ("proj/app.py", "requests", "Python")].
Proof. by vm_compute. Qed.

Lemma scanner_stops_at_probe_error_witness :
  extract_python_file_dependencies Fixture.with_main_import "proj" "Python"
  = Ok [("proj/app.py", "os", "Python")]
  /\ (In ("proj/app.py", "requests", "Python") [("proj/app.py", "os", "Python")]
      <-> exists line m,
            In line ["import os" +:+ Sample.lf]
            /\ line_module line = Some m
            /\ is_builtin_module Fixture.with_main_import m = Ok false
            /\ ("proj/app.py", "requests", "Python")
               = (path_join Fixture.with_main_import "proj" "app.py", m,
                  "Python")).
Proof.
  split; [reflexivity|].
  apply (scanner_stops_at_probe_error Fixture.with_main_import "Python"
           "proj" "proj" [] "app.py" Fixture.main_import
           ["import os" +:+ Sample.lf]
           ("import __main__" +:+ Sample.lf)
           ["import requests" +:+ Sample.lf]
           "__main__" (Exception "__main__.__spec__ is None"));
    try reflexivity.
  intros line m [<-|[]] [= <-]. by eexists.
Defined.

Lemma get_conda_dependencies_entries_witness :
  get_conda_dependencies Fixture.with_environment
    (Fixture.loaders (Ok Fixture.environment))
    "repo/environment.yml"
  = Ok [("repo/environment.yml", "numpy", "= 1.20");
        ("repo/environment.yml", "python", "Unknown");
        ("repo/environment.yml", "requests", "Unknown");
        ("repo/environment.yml", "flask", "> 2.0")].
Proof.
  apply (get_conda_dependencies_entries Fixture.with_environment
           (Fixture.loaders (Ok Fixture.environment))
           "repo/environment.yml" (TextFile [] None)
           [("name", TStr "demo");
            ("dependencies",
             TList [TStr "numpy= 1.20"; TStr "python";
                    TTable [("pip", TList [TStr "requests";
                                           TStr "flask> 2.0"])]])]
           [TStr "numpy= 1.20"; TStr "python";
            TTable [("pip", TList [TStr "requests"; TStr "flask> 2.0"])]]);
    try reflexivity.
  intros dep [<-|[<-|[<-|[]]]]; simpl; try done.
  by exists ["requests"; "flask> 2.0"].
Defined.

Lemma manifest_unreadable_empty_witness :
  (extract_pyproject_dependencies Fixture.with_environment
     "repo/environment.yml" = Ok []
   /\ extract_pipfile_dependencies Fixture.with_environment
        "repo/environment.yml" = Ok [])
  /\ extract_poetry_lock_dependencies Fixture.with_environment
       "repo/environment.yml" = Ok []
  /\ get_conda_dependencies Fixture.with_environment
       (Fixture.loaders Fixture.no_document) "repo/environment.yml" = Ok []
  /\ get_pip_dependencies Fixture.with_environment "requirements.txt" = Ok [].
Proof.
  pose proof (manifest_unreadable_empty Fixture.with_environment
                (Fixture.loaders Fixture.no_document)
                "repo/environment.yml" (Exception "no document")) as Hfile.
  pose proof (manifest_unreadable_empty Fixture.with_environment
                (Fixture.loaders Fixture.no_document)
                "requirements.txt" (Exception "No such file or directory"))
    as Hmissing.
  split; [exact (proj1 Hfile)|].
  split; [exact (proj1 (proj2 Hfile))|].
  split.
  - apply (proj1 (proj2 (proj2 Hfile))). right. by eexists.
  - apply (proj2 (proj2 (proj2 Hmissing))). reflexivity.
Defined.

Lemma get_conda_dependencies_partial_witness :
  get_conda_dependencies Fixture.with_environment
    (Fixture.loaders (Ok Fixture.half_environment))
    "repo/environment.yml"
  = Ok [("repo/environment.yml", "numpy", "= 1.20");
        ("repo/environment.yml", "requests", "Unknown")].
Proof.
  apply (get_conda_dependencies_partial Fixture.with_environment
           (Fixture.loaders (Ok Fixture.half_environment))
           "repo/environment.yml" (TextFile [] None)
           [("dependencies",
             TList [TStr "numpy= 1.20";
                    TTable [("pip", TList [TStr "requests"; TInt 42;
                                           TStr "flask"])];
                    TStr "scipy"])]
           [TStr "numpy= 1.20"]
           [("pip", TList [TStr "requests"; TInt 42; TStr "flask"])]
           ["requests"] (TInt 42) [TStr "flask"] [TStr "scipy"]);
    try reflexivity.
  - intros dep [<-|[]]. exact I.
  - done.
Defined.

Lemma all_dependencies_same_rows_witness :
  exists deps1 deps2,
    extract_python_file_dependencies
      (with_listing Fixture.requests_first Sample.project_interpreter)
      "proj" "Python" = Ok deps1
    /\ extract_python_file_dependencies
         (with_listing Fixture.requests_last Sample.project_interpreter)
         "proj" "Python" = Ok deps2
    /\ deps1 ≡ₚ deps2
    /\ deps1 = [("proj/app.py", "requests", "Python");
                ("proj/app.py", "os", "Python")]
    /\ deps2 = [("proj/app.py", "os", "Python");
                ("proj/app.py", "requests", "Python")].
Proof.
  destruct (all_dependencies_same_rows Sample.project_interpreter
              (Fixture.loaders Fixture.no_document) "proj"
              Fixture.requests_first Fixture.requests_last)
    as (deps1 & deps2 & H1 & H2 & Hperm & _).
  exists deps1, deps2. split; [exact H1|]. split; [exact H2|].
  split; [exact Hperm|].
  split.
  - vm_compute in H1. by injection H1 as <-.
  - vm_compute in H2. by injection H2 as <-.
Defined.

Lemma visit_walk_witness :
  exists v,
    visitor_visit Sample.one_module Sample.usage_then_import_tree new_visitor
    = Ok v
    /\ imports v
       ≡ₚ flat_map import_entries (ast_walk Sample.usage_then_import_tree)
    /\ usage v
       ≡ₚ flat_map attribute_usage (ast_walk Sample.usage_then_import_tree).
Proof.
  apply (visit_walk Sample.one_module Sample.usage_then_import_tree).
  reflexivity.
Defined.

Lemma parse_setup_py_entries_witness :
  parse_setup_py Sample.good_setup "repo/setup.py"
  = Ok [("repo/setup.py", "flask", "> 2.0");
        ("repo/setup.py", "requests", "Unknown")].
Proof.
  exact (parse_setup_py_entries Sample.good_setup "repo/setup.py"
           _ Sample.setup_tree eq_refl eq_refl).
Defined.
